(** * Drug-discovery analyzer: derived columns, filters and summary

    A shallow embedding of the table logic of the repository:
    - [scripts/analysis/molecular_analysis.py]: [calculate_lipinski],
      [calculate_pic50];
    - [scripts/analysis/activity_analyzer.py]: the pIC50 conversion of
      [analyze_activity_relationships];
    - [app.py]: the load handler, the overview metrics and the filter
      pipeline that ends in [filtered_df]; the handlers of the sample
      button and of the uploader with its check of the required columns;
    - [scripts/analysis/molecular_analysis.py]: [run_analysis] up to the
      table it plots, and the data [plotly_mw_logp_density_heatmap] and
      [plotly_property_histograms] hand to the plots;
    - [scripts/data_retrieval/chembl_fetcher.py]: the table
      [fetch_and_save_compounds] makes of the answers of the client.

    Numbers are IEEE-754 binary64 values (Python's [float], numpy's
    [float64]), represented by Rocq's primitive floats; a missing value is
    NaN, as in pandas.  Tables live in a store because both transforms
    update the table they are given.  numpy's [log10] on positive finite
    arguments is a parameter of the development; widgets are represented
    by the values they return. *)

From Stdlib Require Import ZArith List String Bool Lia Floats.
From stdpp Require Import gmap strings list fin_maps.

Set Warnings "-inexact-float,-clear-no-such-hyp".

Local Open Scope Z_scope.


(** ** Tables

    The part of pandas the program uses.  A table has an ordered list of
    column names and a list of rows; a row carries its index label and its
    cells by column name.  A cell the row does not hold reads as NaN, the
    marker pandas uses for a missing value. *)

Module Pandas.

(** The float nearest to an integer (numpy's int64 to float64 conversion,
    Python's [float(n)]). *)
Definition Z2F (z : Z) : float := SF2Prim (binary_normalize prec emax z 0 false).

(** Python exceptions the modelled operations raise.  [BadRef] stands for
    a reference that names no table; no run of the program produces one. *)
Inductive exn :=
  | KeyError (c : string)
  | TypeError
  | ValueError
  | BadRef.

Inductive result (A : Type) :=
  | Ok (a : A)
  | Raise (e : exn).
Global Arguments Ok {A} a.
Global Arguments Raise {A} e.

Global Instance result_ret : MRet result := fun A a => Ok a.
Global Instance result_bind : MBind result := fun A B f m =>
  match m with Ok a => f a | Raise e => Raise e end.
Global Instance result_fmap : FMap result := fun A B f m =>
  match m with Ok a => Ok (f a) | Raise e => Raise e end.

Definition is_ok {A} (r : result A) : bool :=
  match r with Ok _ => true | Raise _ => false end.

(** Runs [f] over a list, stopping at the first exception. *)
Fixpoint mapR {A B} (f : A -> result B) (l : list A) : result (list B) :=
  match l with
  | [] => Ok []
  | x :: l => y ← f x; ys ← mapR f l; Ok (y :: ys)
  end.

(** *** Cells *)

Inductive cell :=
  | CStr (s : string)
  | CNum (f : float)
  | CInt (z : Z)
  | CBool (b : bool).

Definition NaN : cell := CNum nan.

(** [pd.isnull] on one value. *)
Definition isnull (c : cell) : bool :=
  match c with CNum f => is_nan f | _ => false end.

(** The value of a cell in float arithmetic and comparisons.  A string
    there raises [TypeError]. *)
Definition to_float (c : cell) : result float :=
  match c with
  | CNum f => Ok f
  | CInt z => Ok (Z2F z)
  | CBool b => Ok (if b then 1%float else 0%float)
  | CStr _ => Raise TypeError
  end.

(** Equality as [isin] and [unique] see it: values of the same kind are
    compared, and a missing value matches a missing value. *)
Definition cell_eqb (a b : cell) : bool :=
  match a, b with
  | CStr s, CStr t => String.eqb s t
  | CNum x, CNum y => (x =? y)%float || (is_nan x && is_nan y)
  | CInt x, CInt y => (x =? y)%Z
  | CBool x, CBool y => Bool.eqb x y
  | _, _ => false
  end.

(** *** Series: the values of one column, in row order *)

Definition Series := list cell.

Definition numeric (s : Series) : result (list float) := mapR to_float s.

(** [s > k], [s <= k], [s >= k] against a scalar. *)
Definition gt (s : Series) (k : float) : result (list bool) :=
  mapR (fun c => x ← to_float c; Ok (k <? x)%float) s.
Definition le (s : Series) (k : float) : result (list bool) :=
  mapR (fun c => x ← to_float c; Ok (x <=? k)%float) s.
Definition ge (s : Series) (k : float) : result (list bool) :=
  mapR (fun c => x ← to_float c; Ok (k <=? x)%float) s.

(** [s.between(lo, hi)], both ends included. *)
Definition between (s : Series) (lo hi : float) : result (list bool) :=
  mapR (fun c => x ← to_float c; Ok ((lo <=? x)%float && (x <=? hi)%float)) s.

(** [m1 & m2] *)
Definition mask_and (m1 m2 : list bool) : list bool := zip_with andb m1 m2.

(** [m.astype(int)] *)
Definition astype_int (m : list bool) : list Z := map Z.b2z m.

(** [a + b] on integer vectors. *)
Definition add_int (a b : list Z) : list Z := zip_with Z.add a b.

(** [v == k] on an integer vector. *)
Definition eq_int (v : list Z) (k : Z) : list bool := map (fun z => z =? k) v.

(** [s * k] *)
Definition mul (s : Series) (k : float) : result Series :=
  mapR (fun c => x ← to_float c; Ok (CNum (x * k)%float)) s.

(** [-s] *)
Definition neg (s : Series) : result Series :=
  mapR (fun c => x ← to_float c; Ok (CNum (- x)%float)) s.

(** [s.isin(values)] *)
Definition isin (s : Series) (values : list cell) : list bool :=
  map (fun c => existsb (cell_eqb c) values) s.

(** [s.unique().tolist()]: the values in order of first appearance. *)
Fixpoint unique (s : Series) : list cell :=
  match s with
  | [] => []
  | c :: s => c :: List.filter (fun d => negb (cell_eqb c d)) (unique s)
  end.

(** [s.nunique()]: the number of distinct values that are not missing. *)
Definition nunique (s : Series) : Z :=
  Z.of_nat (length (unique (List.filter (fun c => negb (isnull c)) s))).

(** [s.isnull().all()] *)
Definition isnull_all (s : Series) : bool := forallb isnull s.

(** A boolean column used as a mask, as in [df[df['is_drug_like']]]. *)
Definition as_mask (s : Series) : result (list bool) :=
  mapR (fun c => match c with CBool b => Ok b | _ => Raise TypeError end) s.

(** [s.sum()] of a boolean column: the number of [True]. *)
Definition sum_bool (s : Series) : result Z :=
  m ← as_mask s; Ok (Z.of_nat (length (List.filter id m))).

(** The floats of a list that are not NaN. *)
Definition defined (v : list float) : list float :=
  List.filter (fun x => negb (is_nan x)) v.

(** [s.min()] and [s.max()] skip missing values and give NaN when none is
    left. *)
Definition fmin (x y : float) : float := if (y <? x)%float then y else x.
Definition fmax (x y : float) : float := if (x <? y)%float then y else x.

Definition min_of (v : list float) : float :=
  match defined v with
  | [] => nan
  | x :: xs => fold_left fmin xs x
  end.
Definition max_of (v : list float) : float :=
  match defined v with
  | [] => nan
  | x :: xs => fold_left fmax xs x
  end.

(** [s.mean()]: the sum of the values that are not missing over their
    number; NaN when there is none. *)
Definition mean_of (v : list float) : float :=
  match defined v with
  | [] => nan
  | xs => (fold_left PrimFloat.add xs 0 / Z2F (Z.of_nat (length xs)))%float
  end.

(** *** Rows and tables *)

Record Row := mkRow { label : Z; cells : gmap string cell }.

Record DataFrame := mkDF { columns : list string; rows : list Row }.

Definition cell_at (c : string) (r : Row) : cell := default NaN (cells r !! c).

Definition row_set (c : string) (v : cell) (r : Row) : Row :=
  mkRow (label r) (<[c := v]> (cells r)).

Definition row_del (c : string) (r : Row) : Row :=
  mkRow (label r) (delete c (cells r)).

Definition has_column (df : DataFrame) (c : string) : bool :=
  bool_decide (c ∈ columns df).

(** Position of a new column: an existing name keeps its place, a new one
    goes last. *)
Definition add_column (c : string) (cols : list string) : list string :=
  if bool_decide (c ∈ cols) then cols else cols ++ [c].

(** [len(df)] *)
Definition len (df : DataFrame) : Z := Z.of_nat (length (rows df)).

(** [df[c]] *)
Definition getitem (df : DataFrame) (c : string) : result Series :=
  if has_column df c then Ok (map (cell_at c) (rows df)) else Raise (KeyError c).

(** [df[c] = s]; pandas refuses values whose number is not the number of
    rows. *)
Definition setitem (df : DataFrame) (c : string) (s : Series) : result DataFrame :=
  if (length s =? length (rows df))%nat
  then Ok (mkDF (add_column c (columns df)) (zip_with (row_set c) s (rows df)))
  else Raise ValueError.

(** Keeps the elements whose mask entry is [True]. *)
Fixpoint mask_filter {A} (m : list bool) (l : list A) : list A :=
  match m, l with
  | b :: m, x :: l => if b then x :: mask_filter m l else mask_filter m l
  | _, _ => []
  end.

(** [df[mask]]; pandas refuses a mask whose length is not the number of
    rows. *)
Definition select (df : DataFrame) (m : list bool) : result DataFrame :=
  if (length m =? length (rows df))%nat
  then Ok (mkDF (columns df) (mask_filter m (rows df)))
  else Raise ValueError.

(** [df.loc[mask, c] = v] *)
Definition loc_setitem (df : DataFrame) (m : list bool) (c : string) (v : cell)
  : result DataFrame :=
  if (length m =? length (rows df))%nat
  then Ok (mkDF (add_column c (columns df))
             (zip_with (fun (b : bool) r => if b then row_set c v r else r)
                m (rows df)))
  else Raise ValueError.

(** The first name of [cs] that is not a column of [df]. *)
Definition missing_column (df : DataFrame) (cs : list string) : option string :=
  List.find (fun c => negb (has_column df c)) cs.

(** [df.dropna(subset=cs)]: the rows with no missing value in [cs]. *)
Definition notna_row (cs : list string) (r : Row) : bool :=
  forallb (fun c => negb (isnull (cell_at c r))) cs.

Definition dropna (df : DataFrame) (cs : list string) : result DataFrame :=
  match missing_column df cs with
  | Some c => Raise (KeyError c)
  | None => Ok (mkDF (columns df) (List.filter (notna_row cs) (rows df)))
  end.

(** [df.drop(columns=cs)] *)
Definition drop (df : DataFrame) (cs : list string) : result DataFrame :=
  match missing_column df cs with
  | Some c => Raise (KeyError c)
  | None =>
      Ok (mkDF (List.filter (fun c => negb (bool_decide (c ∈ cs))) (columns df))
               (map (fun r => fold_right row_del r cs) (rows df)))
  end.

(** *** The store

    Python variables hold references.  [calculate_lipinski] changes the
    table its argument refers to, so tables are kept in a store and a
    reference is a position in it. *)

Abbreviation loc := nat (only parsing).
Abbreviation heap := (list DataFrame) (only parsing).

Definition M (A : Type) : Type := heap -> result A * heap.

Global Instance M_ret : MRet M := fun A a h => (Ok a, h).
Global Instance M_bind : MBind M := fun A B f m h =>
  match m h with
  | (Ok a, h') => f a h'
  | (Raise e, h') => (Raise e, h')
  end.

Definition lift {A} (r : result A) : M A := fun h => (r, h).

Definition read (l : loc) : M DataFrame := fun h =>
  match h !! l with
  | Some df => (Ok df, h)
  | None => (Raise BadRef, h)
  end.

Definition write (l : loc) (df : DataFrame) : M unit := fun h =>
  (Ok tt, <[l := df]> h).

Definition new (df : DataFrame) : M loc := fun h => (Ok (length h), h ++ [df]).

(** The statements of the program on a referenced table. *)

(** [df[c]] *)
Definition df_getitem (l : loc) (c : string) : M Series :=
  df ← read l; lift (getitem df c).

(** [df[c] = s] *)
Definition df_setitem (l : loc) (c : string) (s : Series) : M unit :=
  df ← read l; df' ← lift (setitem df c s); write l df'.

(** [df.loc[mask, c] = v] *)
Definition df_loc_setitem (l : loc) (m : list bool) (c : string) (v : cell)
  : M unit :=
  df ← read l; df' ← lift (loc_setitem df m c v); write l df'.

(** [df.dropna(subset=cs, inplace=True)] *)
Definition df_dropna_inplace (l : loc) (cs : list string) : M unit :=
  df ← read l; df' ← lift (dropna df cs); write l df'.

(** [df.drop(columns=cs)]: a new table. *)
Definition df_drop (l : loc) (cs : list string) : M loc :=
  df ← read l; df' ← lift (drop df cs); new df'.

(** [df.copy()] *)
Definition df_copy (l : loc) : M loc :=
  df ← read l; new df.

End Pandas.

(** ** scripts/analysis/molecular_analysis.py *)

Module Analysis.

Import Pandas.

Section WithLog10.

(** numpy's [log10] on a positive finite argument is the platform's
    library function; the code is verified for any such function. *)
Variable log10_pos : float -> float.

(** [np.log10] on one value: NaN for NaN and for a negative argument,
    minus infinity at zero, infinity at infinity (with a warning, never an
    exception). *)
Definition np_log10 (x : float) : float :=
  if is_nan x then nan
  else if (x <? 0)%float then nan
  else if (x =? 0)%float then neg_infinity
  else if (x =? infinity)%float then infinity
  else log10_pos x.

(** [np.log10(s)] *)
Definition log10 (s : Series) : result Series :=
  mapR (fun c => x ← to_float c; Ok (CNum (np_log10 x))) s.

(** [calculate_lipinski(df)] *)
Definition calculate_lipinski (df : loc) : M loc :=
  df_dropna_inplace df ["mw"; "logp"; "hbd"; "hba"];;
  mw ← df_getitem df "mw";
  v_mw ← lift (gt mw 500);
  logp ← df_getitem df "logp";
  v_logp ← lift (gt logp 5);
  hbd ← df_getitem df "hbd";
  v_hbd ← lift (gt hbd 5);
  hba ← df_getitem df "hba";
  v_hba ← lift (gt hba 10);
  let violations :=
    add_int (add_int (add_int (astype_int v_mw) (astype_int v_logp))
               (astype_int v_hbd)) (astype_int v_hba) in
  df_setitem df "lipinski_violations" (map CInt violations);;
  df_setitem df "is_drug_like" (map CBool (eq_int violations 0));;
  mret df.

(** [calculate_pic50(df)] *)
Definition calculate_pic50 (df : loc) : M loc :=
  ic50 ← df_getitem df "ic50";
  ic50_M ← lift (mul ic50 1e-9);
  df_setitem df "ic50_M" ic50_M;;
  ic50_M ← df_getitem df "ic50_M";
  nonpos ← lift (le ic50_M 0);
  df_loc_setitem df nonpos "ic50_M" NaN;;
  ic50_M ← df_getitem df "ic50_M";
  logs ← lift (log10 ic50_M);
  pIC50 ← lift (neg logs);
  df_setitem df "pIC50" pIC50;;
  df_drop df ["ic50_M"].

End WithLog10.

End Analysis.

(** ** scripts/analysis/activity_analyzer.py *)

Module Activity.

Import Pandas Analysis.

Section WithLog10.

Variable log10_pos : float -> float.

(** What [analyze_activity_relationships] does to the table it has read:
    [df['pIC50'] = -np.log10(df['ic50'] * 1e-9)].  The plots and the
    correlation file it then writes are left out. *)
Definition analyze_activity_relationships (df : DataFrame) : result DataFrame :=
  ic50 ← getitem df "ic50";
  molar ← mul ic50 1e-9;
  logs ← log10 log10_pos molar;
  pIC50 ← neg logs;
  setitem df "pIC50" pIC50.

End WithLog10.

End Activity.

(** ** app.py *)

Module App.

Import Pandas Analysis.

Section WithLog10.

Variable log10_pos : float -> float.

(** The two lines both load handlers run on the table just read:
    [df = calculate_lipinski(df.copy())], [df = calculate_pic50(df.copy())]. *)
Definition load_handler (session_df : loc) : M loc :=
  c ← df_copy session_df;
  session_df ← calculate_lipinski c;
  c ← df_copy session_df;
  calculate_pic50 log10_pos c.

End WithLog10.

(** The four metrics of the dataset overview.  The percentage and the mean
    are the floats handed to the formatter.  [sum()] of the boolean column
    is a numpy integer, so its division by [len(df)] is numpy's: by zero it
    gives NaN or an infinity with a warning, where Python's own integers
    would raise. *)
Record Overview := mkOverview {
  total_compounds : Z;
  unique_targets : Z;
  drug_like_count : Z;
  drug_like_percent : float;
  avg_potency : float
}.

Definition overview (df : DataFrame) : result Overview :=
  target ← getitem df "target";
  is_drug_like ← getitem df "is_drug_like";
  count ← sum_bool is_drug_like;
  pIC50 ← getitem df "pIC50";
  potency ← numeric pIC50;
  Ok (mkOverview (len df) (nunique target) count
        (Z2F count / Z2F (len df) * 100)%float (mean_of potency)).

(** What the sidebar widgets return in one run of the script. *)
Record Widgets := mkWidgets {
  selected_targets : list cell;
  drug_like_only : bool;
  mw_range : float * float;
  logp_range : float * float;
  pic50_range : float * float
}.

(** What one run of the filter section produces: the options and bounds
    it hands to the widgets, the table [df] as it stands at the end and
    [filtered_df]. *)
Record FilterRun := mkFilterRun {
  target_options : list cell;
  mw_bounds : float * float;
  logp_bounds : float * float;
  pic50_bounds : option (float * float);
  narrowed_df : DataFrame;
  filtered_df : DataFrame
}.

(** The test of the pIC50 slider:
    ['pIC50' in df.columns and not df['pIC50'].isnull().all()]. *)
Definition pic50_available (df : DataFrame) : result bool :=
  if has_column df "pIC50"
  then pIC50 ← getitem df "pIC50"; Ok (negb (isnull_all pIC50))
  else Ok false.

(** The pIC50 range filter, applied where the slider is shown. *)
Definition pic50_filter (df : DataFrame) (range : float * float)
  : result (option (float * float) * DataFrame) :=
  available ← pic50_available df;
  if available : bool then
    pIC50 ← getitem df "pIC50";
    v ← numeric pIC50;
    let bounds := (min_of v, max_of v) in
    above ← ge pIC50 range.1;
    below ← le pIC50 range.2;
    df ← select df (mask_and above below);
    Ok (Some bounds, df)
  else Ok (None, df).

(** The drug-likeness checkbox: [if drug_like_only: df = df[df['is_drug_like']]]. *)
Definition drug_like_filter (df : DataFrame) (only : bool) : result DataFrame :=
  if only
  then (flag ← getitem df "is_drug_like"; m ← as_mask flag; select df m)
  else Ok df.

(** The filter section of the script, from the target filter to
    [filtered_df]. *)
Definition filter_compounds (df : DataFrame) (w : Widgets) : result FilterRun :=
  target ← getitem df "target";
  let targets := unique target in
  df ← select df (isin target (selected_targets w));
  df ← drug_like_filter df (drug_like_only w);
  mw ← getitem df "mw";
  mw ← numeric mw;
  let mw_b := (min_of mw, max_of mw) in
  logp ← getitem df "logp";
  logp ← numeric logp;
  let logp_b := (min_of logp, max_of logp) in
  '(pic50_b, df) ← pic50_filter df (pic50_range w);
  mw ← getitem df "mw";
  in_mw ← between mw (mw_range w).1 (mw_range w).2;
  logp ← getitem df "logp";
  in_logp ← between logp (logp_range w).1 (logp_range w).2;
  filtered ← select df (mask_and in_mw in_logp);
  Ok (mkFilterRun targets mw_b logp_b pic50_b df filtered).

End App.

(** ** Row-by-row reading of the operations

    The functions above work on whole columns.  The definitions here say
    what they do to one row; the lemmas further down relate the two. *)

Module Reading.

Import Pandas Analysis App.

(** The float a numeric cell of column [c] holds. *)
Definition float_at (c : string) (r : Row) : float :=
  match to_float (cell_at c r) with Ok x => x | Raise _ => nan end.

(** The cell of column [c] is one float arithmetic accepts. *)
Definition numeric_at (c : string) (r : Row) : bool :=
  is_ok (to_float (cell_at c r)).

(** Column [c] exists and holds numbers in every row of [rs]. *)
Definition numeric_column (df : DataFrame) (c : string) (rs : list Row) : bool :=
  has_column df c && forallb (numeric_at c) rs.

(** The number of Lipinski conditions four values exceed. *)
Definition violation_count (mw logp hbd hba : float) : Z :=
  Z.b2z (500 <? mw)%float + Z.b2z (5 <? logp)%float +
  Z.b2z (5 <? hbd)%float + Z.b2z (10 <? hba)%float.

Definition lipinski_inputs : list string := ["mw"; "logp"; "hbd"; "hba"].

Definition violations_of (r : Row) : Z :=
  violation_count (float_at "mw" r) (float_at "logp" r)
    (float_at "hbd" r) (float_at "hba" r).

(** The row [calculate_lipinski] makes of a row it keeps. *)
Definition lipinski_row (r : Row) : Row :=
  row_set "is_drug_like" (CBool (violations_of r =? 0))
    (row_set "lipinski_violations" (CInt (violations_of r)) r).

(** The rows [calculate_lipinski] keeps. *)
Definition lipinski_kept (df : DataFrame) : list Row :=
  List.filter (notna_row lipinski_inputs) (rows df).

(** The table [calculate_lipinski] leaves in place of [df]. *)
Definition lipinski_table (df : DataFrame) : DataFrame :=
  mkDF (add_column "is_drug_like" (add_column "lipinski_violations" (columns df)))
       (map lipinski_row (lipinski_kept df)).

(** What [calculate_lipinski] needs in order not to raise. *)
Definition lipinski_ready (df : DataFrame) : bool :=
  forallb (fun c => numeric_column df c (lipinski_kept df)) lipinski_inputs.

(** What [calculate_pic50] needs in order not to raise. *)
Definition pic50_ready (df : DataFrame) : bool :=
  numeric_column df "ic50" (rows df).

Section WithLog10.

Variable log10_pos : float -> float.

(** The molar value as [calculate_pic50] leaves it in [ic50_M]. *)
Definition molar_of (r : Row) : float :=
  let m := (float_at "ic50" r * 1e-9)%float in
  if (m <=? 0)%float then nan else m.

Definition pic50_of (r : Row) : float := (- np_log10 log10_pos (molar_of r))%float.

(** The row [calculate_pic50] leaves in the table it was given, and the
    row of the table it returns. *)
Definition pic50_scratch_row (r : Row) : Row :=
  row_set "pIC50" (CNum (pic50_of r)) (row_set "ic50_M" (CNum (molar_of r)) r).

Definition pic50_row (r : Row) : Row := row_del "ic50_M" (pic50_scratch_row r).

Definition pic50_scratch (df : DataFrame) : DataFrame :=
  mkDF (add_column "pIC50" (add_column "ic50_M" (columns df)))
       (map pic50_scratch_row (rows df)).

Definition pic50_table (df : DataFrame) : DataFrame :=
  mkDF (List.filter (fun c => negb (bool_decide (c ∈ ["ic50_M"])))
          (columns (pic50_scratch df)))
       (map pic50_row (rows df)).

(** The table the load handler of the application ends with, and what the
    handler needs in order not to raise. *)
Definition loaded (df : DataFrame) : DataFrame := pic50_table (lipinski_table df).

End WithLog10.

Section WithLog10.

Variable log10_pos : float -> float.

(** The two transforms one after the other, in either order. *)
Definition lipinski_then_pic50 (df : loc) : M loc :=
  df ← calculate_lipinski df; calculate_pic50 log10_pos df.

Definition pic50_then_lipinski (df : loc) : M loc :=
  df ← calculate_pic50 log10_pos df; calculate_lipinski df.

End WithLog10.

Definition handler_ready (df : DataFrame) : bool :=
  lipinski_ready df && pic50_ready (lipinski_table df).

(** The table a transform returns. *)
Definition returned (out : result loc * heap) : result DataFrame :=
  match out with
  | (Ok l, h) => match h !! l with Some df => Ok df | None => Raise BadRef end
  | (Raise e, _) => Raise e
  end.

(** A transform run on a table of its own: the store holds [df] alone. *)
Definition on_table (t : loc -> M loc) (df : DataFrame) : result DataFrame :=
  returned (t 0%nat [df]).

(** The constraints of the filter section, read on one row. *)
Definition in_range (c : string) (range : float * float) (r : Row) : bool :=
  match to_float (cell_at c r) with
  | Ok x => (range.1 <=? x)%float && (x <=? range.2)%float
  | Raise _ => false
  end.

Definition target_allowed (allowed : list cell) (r : Row) : bool :=
  existsb (cell_eqb (cell_at "target" r)) allowed.

Definition drug_like_passes (only : bool) (r : Row) : bool :=
  if only then match cell_at "is_drug_like" r with CBool b => b | _ => false end
  else true.

(** The rows left by the target and drug-likeness filters. *)
Definition preselected (w : Widgets) (r : Row) : bool :=
  target_allowed (selected_targets w) r && drug_like_passes (drug_like_only w) r.

(** Some row of [rs] has a pIC50 that is not missing. *)
Definition pic50_defined_in (rs : list Row) : bool :=
  existsb (fun r => negb (isnull (cell_at "pIC50" r))) rs.

(** The pIC50 constraint as the script applies it to a table whose rows
    are [rs]: in force only when [rs] has a defined pIC50. *)
Definition pic50_passes (active : bool) (range : float * float) (r : Row) : bool :=
  if active then in_range "pIC50" range r else true.

End Reading.

(** ** The filter section, row by row *)

Module FilterReading.

Import Pandas App Reading.

(** The rows the target filter keeps, and those the target and
    drug-likeness filters keep. *)
Definition target_kept (df : DataFrame) (w : Widgets) : list Row :=
  List.filter (target_allowed (selected_targets w)) (rows df).

Definition preselected_rows (df : DataFrame) (w : Widgets) : list Row :=
  List.filter (preselected w) (rows df).

(** The pIC50 slider is shown, and its range applied. *)
Definition pic50_active (df : DataFrame) (w : Widgets) : bool :=
  has_column df "pIC50" && pic50_defined_in (preselected_rows df w).

(** Least and greatest value of column [c] in the rows [rs]. *)
Definition bounds_of (c : string) (rs : list Row) : float * float :=
  (min_of (map (float_at c) rs), max_of (map (float_at c) rs)).

Definition narrowed_rows (df : DataFrame) (w : Widgets) : list Row :=
  List.filter (pic50_passes (pic50_active df w) (pic50_range w))
    (preselected_rows df w).

Definition in_both_ranges (w : Widgets) (r : Row) : bool :=
  in_range "mw" (mw_range w) r && in_range "logp" (logp_range w) r.

Definition filtered_rows (df : DataFrame) (w : Widgets) : list Row :=
  List.filter (in_both_ranges w) (narrowed_rows df w).

(** What [filter_compounds] returns when it does not raise. *)
Definition filter_result (df : DataFrame) (w : Widgets) : FilterRun :=
  mkFilterRun
    (unique (map (cell_at "target") (rows df)))
    (bounds_of "mw" (preselected_rows df w))
    (bounds_of "logp" (preselected_rows df w))
    (if pic50_active df w then Some (bounds_of "pIC50" (preselected_rows df w))
     else None)
    (mkDF (columns df) (narrowed_rows df w))
    (mkDF (columns df) (filtered_rows df w)).

(** Every constraint of one run, read on one row. *)
Definition passes_all (df : DataFrame) (w : Widgets) (r : Row) : bool :=
  target_allowed (selected_targets w) r &&
  drug_like_passes (drug_like_only w) r &&
  pic50_passes (pic50_active df w) (pic50_range w) r &&
  in_range "mw" (mw_range w) r &&
  in_range "logp" (logp_range w) r.




Definition is_flag (r : Row) : bool :=
  match cell_at "is_drug_like" r with CBool _ => true | _ => false end.

(** What [filter_compounds] needs in order not to raise: the columns it
    reads exist and hold values of the right kind in the rows it reads. *)
Definition filter_ready (df : DataFrame) (w : Widgets) : bool :=
  has_column df "target" &&
  (if drug_like_only w
   then has_column df "is_drug_like" && forallb is_flag (target_kept df w)
   else true) &&
  numeric_column df "mw" (preselected_rows df w) &&
  numeric_column df "logp" (preselected_rows df w) &&
  (if pic50_active df w
   then forallb (numeric_at "pIC50") (preselected_rows df w)
   else true).

End FilterReading.

(** ** Tables and the logarithm used in the examples *)

Module Fixtures.

Import Pandas Analysis App Reading FilterReading.

(** A double-precision evaluation of log10 on a positive finite float:
    the argument is split into mantissa and exponent, the mantissa is
    brought into [sqrt(1/2), sqrt(2)) and its logarithm is summed from the
    series of atanh.  It serves as the concrete library function wherever
    a statement below is evaluated on data. *)
Definition log10_series (x : float) : float :=
  let '(m, e) := Z.frexp x in
  let '(m, e) :=
    if (m <? 0.70710678118654757)%float then ((m * 2)%float, e - 1) else (m, e) in
  let z := ((m - 1) / (m + 1))%float in
  let w := (z * z)%float in
  let p :=
    fold_right (fun k acc => (1 / Z2F k + w * acc)%float) 0%float
      [1; 3; 5; 7; 9; 11; 13; 15; 17; 19; 21; 23] in
  (Z2F e * 0.3010299956639812 + 2 * z * p * 0.4342944819032518)%float.

Definition row_of (i : Z) (kvs : list (string * cell)) : Row :=
  mkRow i (list_to_map kvs).

(** The fixture [sample_compounds] of tests/test_analysis.py. *)
Definition sample_columns : list string :=
  ["chembl_id"; "name"; "ic50"; "mw"; "logp"; "hbd"; "hba"; "psa"].

Definition sample_row (i : Z) (id name : string) (ic50 mw logp : float)
  (hbd hba : Z) (psa : float) : Row :=
  row_of i [("chembl_id", CStr id); ("name", CStr name); ("ic50", CNum ic50);
            ("mw", CNum mw); ("logp", CNum logp); ("hbd", CInt hbd);
            ("hba", CInt hba); ("psa", CNum psa)].

Definition sample_compounds : DataFrame :=
  mkDF sample_columns
    [sample_row 0 "CHEMBL1" "Drug A" 10.5 450 4.5 4 8 90;
     sample_row 1 "CHEMBL2" "Drug B" 200 510 4.8 5 9 120;
     sample_row 2 "CHEMBL3" "Drug C" 600 620 5.5 6 11 150;
     sample_row 3 "CHEMBL4" "Drug D" 150 400 6.0 3 12 110].



(** The columns of an input file. *)
Definition raw_columns : list string :=
  ["chembl_id"; "name"; "target"; "ic50"; "mw"; "logp"; "hbd"; "hba"; "psa"].

Definition raw_row (i : Z) (id target : string) (ic50 mw logp hbd hba psa : float)
  : Row :=
  row_of i [("chembl_id", CStr id); ("name", NaN); ("target", CStr target);
            ("ic50", CNum ic50); ("mw", CNum mw); ("logp", CNum logp);
            ("hbd", CNum hbd); ("hba", CNum hba); ("psa", CNum psa)].

(** A raw table with two targets: the two compounds of target A have no
    IC50 (an empty cell in the file), the compound of target B has an IC50
    of 100 nM and lies between them in weight and logP. *)
Definition two_targets_raw : DataFrame :=
  mkDF raw_columns
    [raw_row 0 "CHEMBL10" "A" nan 100 1 1 1 10;
     raw_row 1 "CHEMBL11" "A" nan 200 2 1 1 10;
     raw_row 2 "CHEMBL12" "B" 100 150 1.5 1 1 10].

(** The same table as the load handler leaves it. *)
Definition two_targets : DataFrame := loaded log10_series two_targets_raw.

(** The same with a heavier compound for target B, loaded. *)
Definition two_targets_apart : DataFrame :=
  loaded log10_series
    (mkDF raw_columns
       [raw_row 0 "CHEMBL10" "A" nan 100 1 1 1 10;
        raw_row 1 "CHEMBL11" "A" nan 200 2 1 1 10;
        raw_row 2 "CHEMBL12" "B" 100 900 3 1 1 10]).

(** A table read from a file that has a header and no rows, loaded. *)
Definition no_compounds : DataFrame := loaded log10_series (mkDF raw_columns []).

(** One compound with a missing molecular weight and one without. *)
Definition one_missing_mw : DataFrame :=
  mkDF raw_columns
    [raw_row 0 "CHEMBL20" "A" 50 nan 1 1 1 10;
     raw_row 1 "CHEMBL21" "A" 50 300 2 1 1 10].

(** Two compounds whose IC50 is not positive. *)
Definition nonpositive_ic50 : DataFrame :=
  mkDF raw_columns
    [raw_row 0 "CHEMBL30" "A" 0 300 2 1 1 10;
     raw_row 1 "CHEMBL31" "A" (-5) 300 2 1 1 10].

(** Widget values on [two_targets]: the sliders at the bounds the script
    offers (molecular weight 100 to 200, logP 1 to 2, and pIC50 7 to 7
    where that slider is shown), with target A or both targets selected. *)
Definition only_A : Widgets :=
  mkWidgets [CStr "A"] false (100, 200)%float (1, 2)%float (7, 7)%float.

Definition A_and_B : Widgets :=
  mkWidgets [CStr "A"; CStr "B"] false (100, 200)%float (1, 2)%float (7, 7)%float.


(** Both targets on [two_targets_apart], sliders at the bounds offered. *)
Definition A_and_B_apart : Widgets :=
  mkWidgets [CStr "A"; CStr "B"] false (100, 900)%float (1, 3)%float (7, 7)%float.

End Fixtures.

(** ** scripts/analysis/molecular_analysis.py: the batch run and the data
    the plots are given *)

Module Plots.

Import Pandas Analysis.


Section WithLog10.

Variable log10_pos : float -> float.


End WithLog10.

(** [s.dropna()] *)
Definition dropna_series (s : Series) : Series :=
  List.filter (fun c => negb (isnull c)) s.

(** [df[cs]] for a list of names: a new table with these columns. *)
Definition row_only (cs : list string) (r : Row) : Row :=
  mkRow (label r) (filter (fun kv => kv.1 ∈ cs) (cells r)).

Definition getitems (df : DataFrame) (cs : list string) : result DataFrame :=
  match missing_column df cs with
  | Some c => Raise (KeyError c)
  | None => Ok (mkDF cs (map (row_only cs) (rows df)))
  end.

(** The table [plotly_mw_logp_density_heatmap] hands to the plot:
    [plot_df = df[['logp', 'mw']].copy()], [plot_df = plot_df.dropna()]. *)
Definition plotly_mw_logp_density_heatmap (df : DataFrame) : result DataFrame :=
  plot_df ← getitems df ["logp"; "mw"];
  dropna plot_df (columns plot_df).

(** One histogram of [plotly_property_histograms]: the property, the
    values counted and the cell of the 2 by 3 grid it is drawn in. *)
Record Histogram := mkHistogram {
  name : string;
  x : Series;
  row : Z;
  col : Z
}.

Definition histogram_properties : list string :=
  ["mw"; "logp"; "hbd"; "hba"; "psa"; "pIC50"].

(** [enumerate(l)] *)
Definition enumerate {A} (l : list A) : list (Z * A) :=
  imap (fun i a => (Z.of_nat i, a)) l.

(** The traces [plotly_property_histograms] adds to the figure, in order. *)
Definition plotly_property_histograms (df : DataFrame) : result (list Histogram) :=
  mapR (fun '(i, prop) =>
          data_clean ← dropna_series <$> getitem df prop;
          Ok (mkHistogram prop data_clean (i `div` 3 + 1) (i `mod` 3 + 1)))
       (enumerate histogram_properties).

End Plots.

(** ** app.py: loading a table into the session *)

Module Session.

Import Pandas Analysis App.

Definition required_cols : list string :=
  ["chembl_id"; "name"; "target"; "ic50"; "mw"; "logp"; "hbd"; "hba"; "psa"].

(** [[col for col in required_cols if col not in df.columns]] *)
Definition missing_cols (df : DataFrame) : list string :=
  List.filter (fun col => negb (has_column df col)) required_cols.

(** The two entries of [st.session_state] once [data_loaded] has been
    initialised: [df] is absent before the first load and holds [None]
    when the sample file does not exist. *)
Record SessionState := mkSession {
  data_loaded : bool;
  df : option (option loc)
}.

(** What a handler puts on the page. *)
Inductive Message :=
  | Error (missing : list string)
  | FormatHint
  | Success.

Section WithLog10.

Variable log10_pos : float -> float.


(** The body of [if uploaded_file is not None]; [uploaded] is the table
    [pd.read_csv] makes of the file. *)
Definition upload_handler (uploaded : DataFrame) : M (SessionState * list Message) :=
  l ← new uploaded;
  df ← read l;
  match missing_cols df with
  | [] =>
      l ← load_handler log10_pos l;
      mret (mkSession true (Some (Some l)), [Success])
  | missing => mret (mkSession false (Some (Some l)), [Error missing; FormatHint])
  end.

End WithLog10.

(** The test that guards the main part of the page:
    [data_loaded and hasattr(st.session_state, 'df') and df is not None]. *)
Definition shown (s : SessionState) : option loc :=
  if data_loaded s then
    match df s with Some (Some l) => Some l | _ => None end
  else None.


(** [df.empty]: the table has no row or no column. *)
Definition empty (df : DataFrame) : bool :=
  match columns df, rows df with
  | _ :: _, _ :: _ => false
  | _, _ => true
  end.

End Session.

(** ** Further tables used in the examples *)

Module Examples.

Import Pandas Analysis App Reading FilterReading Fixtures.

Definition raw_cells (id target : string) (ic50 mw logp : cell) : list (string * cell) :=
  [("chembl_id", CStr id); ("name", NaN); ("target", CStr target);
   ("ic50", ic50); ("mw", mw); ("logp", logp);
   ("hbd", CNum 1); ("hba", CNum 1); ("psa", CNum 10)].

(** A file in which one molecular weight is missing and another one is
    text. *)
Definition text_in_mw : DataFrame :=
  mkDF raw_columns
    [row_of 0 (raw_cells "CHEMBL40" "A" (CNum 50) NaN (CNum 1));
     row_of 1 (raw_cells "CHEMBL41" "A" (CNum 50) (CStr "heavy") (CNum 2));
     row_of 2 (raw_cells "CHEMBL42" "B" (CNum 50) (CNum 300) (CNum 2))].

(** A file in which one IC50 is text. *)
Definition text_in_ic50 : DataFrame :=
  mkDF raw_columns
    [row_of 0 (raw_cells "CHEMBL50" "A" (CStr ">1000") (CNum 300) (CNum 1));
     row_of 1 (raw_cells "CHEMBL51" "A" (CNum 50) (CNum 300) (CNum 2))].

(** A file without the columns [logp] and [psa]. *)
Definition no_logp : DataFrame :=
  mkDF ["chembl_id"; "name"; "target"; "ic50"; "mw"; "hbd"; "hba"]
    [row_of 0 [("chembl_id", CStr "CHEMBL60"); ("name", NaN); ("target", CStr "A");
               ("ic50", CNum 50); ("mw", CNum 300); ("hbd", CNum 1);
               ("hba", CNum 1)]].

(** One compound with each of the four values at its limit. *)
Definition at_the_limits : DataFrame :=
  mkDF raw_columns [raw_row 0 "CHEMBL70" "A" 50 500 5 5 10 140].

(** Widget values on [two_targets]: no target selected; and both targets
    with the checkbox checked. *)
Definition no_target : Widgets :=
  mkWidgets [] false (100, 200)%float (1, 2)%float (7, 7)%float.

Definition drug_like_A_and_B : Widgets :=
  mkWidgets [CStr "A"; CStr "B"] true (100, 200)%float (1, 2)%float (7, 7)%float.

End Examples.

(** ** The main part of the page, read on the table of the session *)

Module SessionReading.

Import Pandas Analysis App Reading FilterReading.


(** What the overview returns on a table that has the columns it reads. *)
Definition overview_result (df : DataFrame) : Overview :=
  let count := Z.of_nat (length (List.filter (drug_like_passes true) (rows df))) in
  mkOverview (len df) (nunique (map (cell_at "target") (rows df))) count
    (Z2F count / Z2F (len df) * 100)%float
    (mean_of (map (float_at "pIC50") (rows df))).

(** What the overview needs in order not to raise. *)
Definition overview_ready (df : DataFrame) : bool :=
  has_column df "target" &&
  (has_column df "is_drug_like" && forallb is_flag (rows df)) &&
  numeric_column df "pIC50" (rows df).

Section WithLog10.

Variable log10_pos : float -> float.

(** The row [analyze_activity_relationships] makes of a row, and the
    table it works on from then on. *)
Definition activity_row (r : Row) : Row :=
  row_set "pIC50" (CNum (- np_log10 log10_pos (float_at "ic50" r * 1e-9))%float) r.

Definition activity_table (df : DataFrame) : DataFrame :=
  mkDF (add_column "pIC50" (columns df)) (map activity_row (rows df)).


End WithLog10.

End SessionReading.

(** ** scripts/data_retrieval/chembl_fetcher.py

    What [fetch_and_save_compounds] makes of the answers of the ChEMBL
    client.  The three queries and Python's [float] on text are
    parameters; a record of the client is represented by the keys the
    script reads, a key that is absent or null reading as [None]. *)

Module Fetcher.

Import Pandas.

Record Target := mkTarget {
  target_chembl_id : string
}.

Record Activity := mkActivity {
  activity_molecule_chembl_id : option string;
  standard_value : option string
}.

Record Molecule := mkMolecule {
  molecule_chembl_id : option string;
  pref_name : option string;
  molecule_properties : option (gmap string cell)
}.

(** Truth value of text that may be [None]: [None] and the empty text are
    false. *)
Definition truthy (s : option string) : bool :=
  match s with
  | Some (String _ _) => true
  | _ => false
  end.

(** A dict with text keys, in insertion order. *)
Definition dict (V : Type) : Type := list (string * V).

Fixpoint dict_get {V} (d : dict V) (k : string) : option V :=
  match d with
  | [] => None
  | (k', v) :: d => if String.eqb k k' then Some v else dict_get d k
  end.

(** [if k not in d: d[k] = []] followed by [d[k].append(x)]. *)
Fixpoint dict_append {V} (d : dict (list V)) (k : string) (x : V) : dict (list V) :=
  match d with
  | [] => [(k, [x])]
  | (k', xs) :: d =>
      if String.eqb k k' then (k', xs ++ [x]) :: d
      else (k', xs) :: dict_append d k x
  end.

(** [sum(values) / len(values)] *)
Definition average (values : list float) : float :=
  (fold_left PrimFloat.add values 0 / Z2F (Z.of_nat (length values)))%float.

(** A value a dict of the client may lack. *)
Definition opt_cell (s : option string) : cell :=
  match s with Some s => CStr s | None => NaN end.

Definition compound_columns : list string :=
  ["chembl_id"; "name"; "target"; "ic50"; "mw"; "logp"; "hbd"; "hba"; "psa"].

(** [pd.DataFrame(data)] for a list of dicts that all have the keys
    [compound_columns]: without dicts the table has no column. *)
Definition frame_of (data : list (list (string * cell))) : DataFrame :=
  mkDF (if data is [] then [] else compound_columns)
       (imap (fun i kvs => mkRow (Z.of_nat i) (list_to_map kvs)) data).

(** [pd.concat(dfs, ignore_index=True)]: the columns in order of first
    appearance, the rows one table after the other, numbered anew. *)
Definition concat_columns (dfs : list DataFrame) : list string :=
  fold_left
    (fun acc df => acc ++ List.filter (fun c => negb (bool_decide (c ∈ acc))) (columns df))
    dfs [].

Definition concat (dfs : list DataFrame) : DataFrame :=
  mkDF (concat_columns dfs)
       (imap (fun i r => mkRow (Z.of_nat i) (cells r)) (mjoin (map rows dfs))).

Section Client.

(** [target_client.search], [activity_client.filter] for a target and the
    type IC50, [molecule_client.filter] for a list of molecules; each may
    raise. *)
Variable search : string -> result (list Target).
Variable activities_of : string -> result (list Activity).
Variable molecules_of : list string -> result (list Molecule).

(** [float(val)]; it raises [ValueError] on text that is no number. *)
Variable float_of : string -> result float.

(** The first loop over the activities: the values of each molecule, in
    the order of the answers. *)
Definition collect (activities : list Activity) : result (dict (list float)) :=
  fold_left
    (fun acc a =>
       d ← acc;
       if truthy (activity_molecule_chembl_id a) && truthy (standard_value a) then
         match activity_molecule_chembl_id a, standard_value a with
         | Some mol_id, Some val => x ← float_of val; Ok (dict_append d mol_id x)
         | _, _ => Ok d
         end
       else Ok d)
    activities (Ok []).

(** The second loop: every list of values replaced by its average. *)
Definition averages (d : dict (list float)) : dict float :=
  map (fun kv => (kv.1, average kv.2)) d.

(** The dict appended to [data] for a molecule, if any. *)
Definition compound (target_name : string) (activity_data : dict float) (m : Molecule)
  : option (list (string * cell)) :=
  match molecule_properties m with
  | Some props =>
      if bool_decide (props = ∅) then None else
      match molecule_chembl_id m with
      | Some mol_id =>
          match dict_get activity_data mol_id with
          | Some ic50 =>
              Some [("chembl_id", CStr mol_id);
                    ("name", opt_cell (pref_name m));
                    ("target", CStr target_name);
                    ("ic50", CNum ic50);
                    ("mw", default NaN (props !! "mw_freebase"));
                    ("logp", default NaN (props !! "alogp"));
                    ("hbd", default NaN (props !! "hbd"));
                    ("hba", default NaN (props !! "hba"));
                    ("psa", default NaN (props !! "psa"))]
          | None => None
          end
      | None => None
      end
  | None => None
  end.

(** The body of the loop for one target: the table appended to
    [all_target_dfs], [None] where the script goes on to the next target. *)
Definition process_target (target_name : string) : result (option DataFrame) :=
  target_results ← search target_name;
  match target_results with
  | [] => Ok None
  | target_info :: _ =>
      activities ← activities_of (target_chembl_id target_info);
      if activities is [] then Ok None else
      activity_data ← averages <$> collect activities;
      molecules ← molecules_of (map fst activity_data);
      if molecules is [] then Ok None else
      Ok (Some (frame_of (omap (compound target_name activity_data) molecules)))
  end.

(** The tables of the targets in order; an exception raised for a target
    is caught and the target left out. *)
Definition all_target_dfs (target_names : list string) : list DataFrame :=
  omap (fun target_name =>
          match process_target target_name with
          | Ok (Some df) => Some df
          | _ => None
          end) target_names.

(** The table written to the output file, [None] when nothing is
    written. *)
Definition fetch_and_save_compounds (target_names : list string) : option DataFrame :=
  match all_target_dfs target_names with
  | [] => None
  | dfs => Some (concat dfs)
  end.

End Client.

End Fetcher.

(** ** The fetcher, read on one molecule *)

Module FetcherReading.

Import Pandas Fetcher.

(** An answer counts for the averages when it names a molecule and gives
    a value. *)
Definition counted (a : Activity) : option (string * string) :=
  match activity_molecule_chembl_id a, standard_value a with
  | Some mol_id, Some val =>
      if truthy (Some mol_id) && truthy (Some val) then Some (mol_id, val) else None
  | _, _ => None
  end.

(** The value texts the answers give for a molecule, in order. *)
Definition values_of (mol_id : string) (activities : list Activity) : list string :=
  omap (fun a =>
          match counted a with
          | Some (k, val) => if String.eqb mol_id k then Some val else None
          | None => None
          end) activities.

(** One round of the first loop. *)
Definition collect_step (float_of : string -> result float)
  (acc : result (dict (list float))) (a : Activity) : result (dict (list float)) :=
  d ← acc;
  match counted a with
  | Some (mol_id, val) => x ← float_of val; Ok (dict_append d mol_id x)
  | None => Ok d
  end.

End FetcherReading.

(** ** Answers of the ChEMBL client used in the examples *)

Module ClientExamples.

Import Pandas Fetcher.

(** One target is known.  Of its four activities two give a value for
    CHEMBL1, one gives no value and one names no molecule. *)
Definition chembl_search (name : string) : result (list Target) :=
  if String.eqb name "EGFR" then Ok [mkTarget "CHEMBL203"] else Ok [].

Definition chembl_activities (target : string) : result (list Activity) :=
  Ok [mkActivity (Some "CHEMBL1") (Some "10");
      mkActivity (Some "CHEMBL2") None;
      mkActivity (Some "CHEMBL1") (Some "30");
      mkActivity None (Some "5")].

Definition chembl_molecules (ids : list string) : result (list Molecule) :=
  Ok (map (fun id =>
             mkMolecule (Some id) None
               (Some {[ "mw_freebase" := CStr "300.1"; "alogp" := CStr "2.5" ]}))
        ids).

Definition text_to_float (s : string) : result float :=
  if String.eqb s "10" then Ok 10%float
  else if String.eqb s "30" then Ok 30%float
  else Raise ValueError.

End ClientExamples.

(** ** Floating-point facts *)

Module FloatFacts.

Local Open Scope float_scope.

Lemma SFcompare_nan_r s : SFcompare s S754_nan = None.
Proof. by destruct s. Qed.

Lemma SFcompare_refl s : s <> S754_nan -> SFcompare s s = Some Eq.
Proof.
  destruct s as [sg|sg| |sg m e]; simpl; try done.
  - by destruct sg.
  - intros _. rewrite Z.compare_refl.
    change (PosDef.Pos.compare_cont Eq m m) with (Pos.compare m m).
    rewrite Pos.compare_refl. by destruct sg.
Qed.

Lemma is_nan_Prim2SF x : is_nan x = true <-> Prim2SF x = S754_nan.
Proof.
  unfold is_nan. rewrite FloatAxioms.eqb_spec. unfold SFeqb. split.
  - intros H. destruct (Prim2SF x) eqn:E; try done;
      rewrite SFcompare_refl in H; done.
  - by intros ->.
Qed.

Lemma is_nan_false x : is_nan x = false <-> Prim2SF x <> S754_nan.
Proof.
  rewrite <- is_nan_Prim2SF. destruct (is_nan x); split; congruence.
Qed.

Lemma leb_nan_r x y : is_nan y = true -> (x <=? y) = false.
Proof.
  intros H%is_nan_Prim2SF. rewrite leb_spec, H. unfold SFleb.
  by rewrite SFcompare_nan_r.
Qed.

Lemma leb_refl x : is_nan x = false -> (x <=? x) = true.
Proof.
  intros H%is_nan_false. rewrite leb_spec. unfold SFleb.
  by rewrite SFcompare_refl.
Qed.

Lemma SFleb_trans a b c :
  SFleb a b = true -> SFleb b c = true -> SFleb a c = true.
Proof.
  unfold SFleb.
  destruct a as [sa|sa| |sa ma ea], b as [sb|sb| |sb mb eb],
    c as [sc|sc| |sc mc ec]; simpl; try done;
    try (destruct sa; done); try (destruct sb; done); try (destruct sc; done);
    try (destruct sa, sb; done); try (destruct sb, sc; done);
    try (destruct sa, sc; done); try (destruct sa, sb, sc; done).
  change (PosDef.Pos.compare_cont Eq ma mb) with (Pos.compare ma mb).
  change (PosDef.Pos.compare_cont Eq mb mc) with (Pos.compare mb mc).
  change (PosDef.Pos.compare_cont Eq ma mc) with (Pos.compare ma mc).
  destruct sa, sb, sc; try done;
    destruct (Z.compare_spec ea eb), (Z.compare_spec eb ec),
      (Z.compare_spec ea ec); try done; try lia;
    destruct (Pos.compare_spec ma mb), (Pos.compare_spec mb mc),
      (Pos.compare_spec ma mc); simpl; try done; try lia.
Qed.

(** [<=] on floats is transitive (its operands are then not NaN). *)
Lemma leb_trans x y z :
  (x <=? y) = true -> (y <=? z) = true -> (x <=? z) = true.
Proof. rewrite !leb_spec. apply SFleb_trans. Qed.

Lemma ltb_leb x y : (x <? y) = true -> (x <=? y) = true.
Proof.
  rewrite ltb_spec, leb_spec. unfold SFltb, SFleb.
  by destruct (SFcompare _ _) as [[]|].
Qed.

Lemma ltb_false_leb x y :
  is_nan x = false -> is_nan y = false -> (x <? y) = false -> (y <=? x) = true.
Proof.
  rewrite !is_nan_false, ltb_spec, leb_spec. unfold SFltb, SFleb.
  destruct (Prim2SF x) as [sa|sa| |sa ma ea], (Prim2SF y) as [sb|sb| |sb mb eb];
    simpl; try done;
    try (destruct sa; done); try (destruct sb; done);
    try (destruct sa, sb; done).
  change (PosDef.Pos.compare_cont Eq ma mb) with (Pos.compare ma mb).
  change (PosDef.Pos.compare_cont Eq mb ma) with (Pos.compare mb ma).
  intros _ _.
  destruct sa, sb; try done;
    destruct (Z.compare_spec ea eb), (Z.compare_spec eb ea); try done; try lia;
    destruct (Pos.compare_spec ma mb), (Pos.compare_spec mb ma);
    simpl; try done; try lia.
Qed.

Lemma ltb_leb_false x y : (x <? y) = true -> (y <=? x) = false.
Proof.
  rewrite ltb_spec, leb_spec. unfold SFltb, SFleb.
  destruct (Prim2SF x) as [sa|sa| |sa ma ea], (Prim2SF y) as [sb|sb| |sb mb eb];
    simpl; try done;
    try (destruct sa; done); try (destruct sb; done);
    try (destruct sa, sb; done).
  change (PosDef.Pos.compare_cont Eq ma mb) with (Pos.compare ma mb).
  change (PosDef.Pos.compare_cont Eq mb ma) with (Pos.compare mb ma).
  destruct sa, sb; try done;
    destruct (Z.compare_spec ea eb), (Z.compare_spec eb ea); try done; try lia;
    destruct (Pos.compare_spec ma mb), (Pos.compare_spec mb ma);
    simpl; try done; try lia.
Qed.

End FloatFacts.

(** ** Facts about the table operations *)

(** Membership of a name in a list of names written out. *)
Ltac solve_in := repeat first [apply list_elem_of_here | apply list_elem_of_further].
Ltac solve_notin :=
  let H := fresh in
  intros H; repeat (apply elem_of_cons in H as [?|H]; [done|]);
  by apply elem_of_nil in H.

Module PandasFacts.

Import Pandas.

Lemma bind_Ok {A B} (m : result A) (f : A -> result B) b :
  m ≫= f = Ok b <-> exists a, m = Ok a /\ f a = Ok b.
Proof.
  destruct m as [a|e]; simpl; split.
  - eauto.
  - by intros (? & [= <-] & ?).
  - done.
  - by intros (? & ? & ?).
Qed.

(** Removes one layer of a successful computation in a hypothesis. *)
Ltac inv_ok H :=
  let a := fresh "a" in
  let Ha := fresh "H" a in
  apply bind_Ok in H; destruct H as (a & Ha & H).

Tactic Notation "inv_bind" hyp(H) "as" ident(a) ident(Ha) :=
  apply bind_Ok in H; destruct H as (a & Ha & H).

Lemma mapR_Forall2 {A B} (f : A -> result B) l l' :
  mapR f l = Ok l' <-> Forall2 (fun x y => f x = Ok y) l l'.
Proof.
  revert l'. induction l as [|x l IH]; intros l'; simpl.
  - split; [intros [= <-]; constructor | by inversion 1].
  - split.
    + intros H. inv_ok H. inv_ok H. injection H as <-.
      constructor; [done|]. by apply IH.
    + inversion 1 as [|? y ? ys Hx Hl]; subst. rewrite Hx. simpl.
      apply IH in Hl. by rewrite Hl.
Qed.

Lemma mapR_map {A B C} (f : B -> result C) (g : A -> B) l :
  mapR f (map g l) = mapR (fun x => f (g x)) l.
Proof. induction l as [|x l IH]; simpl; [done|]. by rewrite IH. Qed.

Lemma mapR_total {A B} (f : A -> result B) (g : A -> B) l :
  Forall (fun x => f x = Ok (g x)) l -> mapR f l = Ok (map g l).
Proof.
  induction 1 as [|x l Hx _ IH]; simpl; [done|]. by rewrite Hx, IH.
Qed.

Lemma mapR_ok_inv {A B} (f : A -> result B) l l' x :
  mapR f l = Ok l' -> x ∈ l -> exists y, f x = Ok y.
Proof.
  intros H%mapR_Forall2 Hx. revert x Hx.
  induction H as [|a b l l' Hab _ IH]; intros x Hx.
  - by apply elem_of_nil in Hx.
  - apply elem_of_cons in Hx as [->|Hx]; eauto.
Qed.

Lemma mask_filter_map {A} (p : A -> bool) l :
  mask_filter (map p l) l = List.filter p l.
Proof. induction l as [|x l IH]; simpl; [done|]. by rewrite IH. Qed.

Lemma filter_filter_andb {A} (p q : A -> bool) l :
  List.filter q (List.filter p l) = List.filter (fun x => p x && q x) l.
Proof.
  induction l as [|x l IH]; simpl; [done|].
  destruct (p x); simpl; [|done]. destruct (q x); by rewrite IH.
Qed.

Lemma filter_ext_in' {A} (p q : A -> bool) l :
  (forall x, x ∈ l -> p x = q x) -> List.filter p l = List.filter q l.
Proof.
  intros H. apply List.filter_ext_in. intros x Hx. apply H.
  by apply list_elem_of_In.
Qed.

Lemma elem_of_lfilter {A} (p : A -> bool) l x :
  x ∈ List.filter p l <-> x ∈ l /\ p x = true.
Proof. rewrite !list_elem_of_In. apply List.filter_In. Qed.

Lemma filter_length_le {A} (p q : A -> bool) l :
  (forall x, x ∈ l -> p x = true -> q x = true) ->
  (length (List.filter p l) <= length (List.filter q l))%nat.
Proof.
  induction l as [|x l IH]; intros H; simpl; [lia|].
  assert (Hl : forall y, y ∈ l -> p y = true -> q y = true).
  { intros y Hy. apply H. by right. }
  specialize (IH Hl).
  destruct (p x) eqn:Hp.
  - rewrite (H x); [simpl; lia|by left|done].
  - destruct (q x); simpl; lia.
Qed.

(** *** The statements on a referenced table *)

Section Statements.

Context (h : heap) (l : loc) (df : DataFrame).
Hypothesis Hl : h !! l = Some df.

Lemma lookup_written df' : <[l := df']> h !! l = Some df'.
Proof. apply list_lookup_insert_eq. by eapply lookup_lt_Some. Qed.

Lemma df_getitem_run c : df_getitem l c h = (getitem df c, h).
Proof. unfold df_getitem, mbind, M_bind, read, lift. by rewrite Hl. Qed.

Lemma df_setitem_run c s :
  df_setitem l c s h =
  match setitem df c s with
  | Ok df' => (Ok tt, <[l := df']> h)
  | Raise e => (Raise e, h)
  end.
Proof.
  unfold df_setitem, mbind, M_bind, read, lift, write. rewrite Hl.
  by destruct (setitem df c s).
Qed.

Lemma df_loc_setitem_run m c v :
  df_loc_setitem l m c v h =
  match loc_setitem df m c v with
  | Ok df' => (Ok tt, <[l := df']> h)
  | Raise e => (Raise e, h)
  end.
Proof.
  unfold df_loc_setitem, mbind, M_bind, read, lift, write. rewrite Hl.
  by destruct (loc_setitem df m c v).
Qed.

Lemma df_dropna_inplace_run cs :
  df_dropna_inplace l cs h =
  match dropna df cs with
  | Ok df' => (Ok tt, <[l := df']> h)
  | Raise e => (Raise e, h)
  end.
Proof.
  unfold df_dropna_inplace, mbind, M_bind, read, lift, write. rewrite Hl.
  by destruct (dropna df cs).
Qed.

Lemma df_drop_run cs :
  df_drop l cs h =
  match drop df cs with
  | Ok df' => (Ok (length h), h ++ [df'])
  | Raise e => (Raise e, h)
  end.
Proof.
  unfold df_drop, mbind, M_bind, read, lift, new. rewrite Hl.
  by destruct (drop df cs).
Qed.

Lemma df_copy_run : df_copy l h = (Ok (length h), h ++ [df]).
Proof. unfold df_copy, mbind, M_bind, read, new. by rewrite Hl. Qed.

End Statements.

Lemma M_bind_run {A B} (m : M A) (f : A -> M B) h :
  (m ≫= f) h =
  match m h with
  | (Ok a, h') => f a h'
  | (Raise e, h') => (Raise e, h')
  end.
Proof. reflexivity. Qed.

Lemma lift_run {A} (r : result A) h : lift r h = (r, h).
Proof. reflexivity. Qed.

End PandasFacts.

(** ** Facts about the two transforms *)

Module AnalysisFacts.
Import Pandas Analysis App Reading FloatFacts PandasFacts.

Lemma to_float_at c r :
  numeric_at c r = true -> to_float (cell_at c r) = Ok (float_at c r).
Proof.
  unfold numeric_at, float_at. by destruct (to_float (cell_at c r)).
Qed.

(** A comparison or an arithmetic step over a column, row by row. *)
Lemma column_op {B} (g : float -> B) c rs :
  Forall (fun r => numeric_at c r = true) rs ->
  mapR (fun v => x ← to_float v; Ok (g x)) (map (cell_at c) rs)
  = Ok (map (fun r => g (float_at c r)) rs).
Proof.
  intros H. rewrite mapR_map. apply mapR_total.
  eapply Forall_impl; [exact H|]. intros r Hr. simpl.
  by rewrite (to_float_at _ _ Hr).
Qed.

Lemma column_op_inv {B} (g : float -> B) c rs out :
  mapR (fun v => x ← to_float v; Ok (g x)) (map (cell_at c) rs) = Ok out ->
  Forall (fun r => numeric_at c r = true) rs.
Proof.
  rewrite mapR_map. intros H. apply Forall_forall. intros r Hr.
  destruct (mapR_ok_inv _ _ _ r H Hr) as [y Hy]. simpl in Hy.
  unfold numeric_at. by destruct (to_float (cell_at c r)).
Qed.

Lemma zip_with_map_same {A B C D} (f : B -> C -> D) (g : A -> B) (k : A -> C) l :
  zip_with f (map g l) (map k l) = map (fun x => f (g x) (k x)) l.
Proof. induction l as [|x l IH]; simpl; [done|]. by rewrite IH. Qed.

Lemma zip_with_map_self {A B D} (f : B -> A -> D) (g : A -> B) l :
  zip_with f (map g l) l = map (fun x => f (g x) x) l.
Proof. induction l as [|x l IH]; simpl; [done|]. by rewrite IH. Qed.

Lemma getitem_Ok df c : c ∈ columns df -> getitem df c = Ok (map (cell_at c) (rows df)).
Proof. intros H. unfold getitem, has_column. by rewrite bool_decide_eq_true_2. Qed.

Lemma getitem_inv df c s : getitem df c = Ok s -> c ∈ columns df /\ s = map (cell_at c) (rows df).
Proof.
  unfold getitem, has_column. case_bool_decide; [|done]. by intros [= <-].
Qed.

Lemma setitem_map df c (g : Row -> cell) :
  setitem df c (map g (rows df)) =
  Ok (mkDF (add_column c (columns df)) (map (fun r => row_set c (g r) r) (rows df))).
Proof.
  unfold setitem. rewrite length_map, Nat.eqb_refl. by rewrite zip_with_map_self.
Qed.

Lemma setitem_map2 cols c (g : Row -> cell) (f : Row -> Row) (l : list Row) :
  setitem (mkDF cols (map f l)) c (map g l) =
  Ok (mkDF (add_column c cols) (map (fun r => row_set c (g r) (f r)) l)).
Proof.
  unfold setitem. simpl. rewrite !length_map, Nat.eqb_refl.
  by rewrite zip_with_map_same.
Qed.

Lemma missing_column_None df cs :
  missing_column df cs = None <-> forall c, c ∈ cs -> c ∈ columns df.
Proof.
  unfold missing_column. split.
  - intros H c Hc. apply list_elem_of_In in Hc.
    pose proof (List.find_none _ _ H c Hc) as Hn. simpl in Hn.
    unfold has_column in Hn. apply negb_false_iff in Hn.
    by apply bool_decide_eq_true_1 in Hn.
  - intros H. induction cs as [|c cs IH]; simpl; [done|].
    unfold has_column at 1. rewrite bool_decide_eq_true_2; [|apply H; by left].
    simpl. apply IH. intros d Hd. apply H. by right.
Qed.

Lemma numeric_column_spec df c rs :
  numeric_column df c rs = true <->
  c ∈ columns df /\ Forall (fun r => numeric_at c r = true) rs.
Proof.
  unfold numeric_column, has_column.
  rewrite andb_true_iff, bool_decide_eq_true, forallb_forall, Forall_forall.
  by setoid_rewrite list_elem_of_In.
Qed.

Lemma lipinski_ready_spec df :
  lipinski_ready df = true <->
  forall c, c ∈ lipinski_inputs ->
    c ∈ columns df /\ Forall (fun r => numeric_at c r = true) (lipinski_kept df).
Proof.
  unfold lipinski_ready. rewrite forallb_forall.
  setoid_rewrite numeric_column_spec. by setoid_rewrite list_elem_of_In.
Qed.

Lemma calculate_lipinski_run h l df :
  h !! l = Some df -> lipinski_ready df = true ->
  calculate_lipinski l h = (Ok l, <[l := lipinski_table df]> h).
Proof.
  intros Hl Hready0.
  pose proof (proj1 (lipinski_ready_spec df) Hready0) as Hready.
  assert (Hin : forall c, c ∈ lipinski_inputs -> c ∈ columns df).
  { intros c Hc. by destruct (Hready c Hc). }
  assert (Hnum : forall c, c ∈ lipinski_inputs ->
            Forall (fun r => numeric_at c r = true) (lipinski_kept df)).
  { intros c Hc. by destruct (Hready c Hc). }
  unfold calculate_lipinski.
  rewrite M_bind_run, (df_dropna_inplace_run h l df Hl).
  unfold dropna. fold lipinski_inputs.
  rewrite (proj2 (missing_column_None df lipinski_inputs) Hin).
  fold (lipinski_kept df).
  set (df1 := mkDF (columns df) (lipinski_kept df)).
  pose proof (lookup_written h l df Hl df1) as Hl1.
  set (h1 := <[l:=df1]> h) in *.
  repeat (rewrite M_bind_run, (df_getitem_run h1 l df1 Hl1), getitem_Ok
            by (apply Hin; unfold lipinski_inputs; solve_in);
          rewrite M_bind_run, lift_run; unfold gt; simpl rows;
          rewrite column_op by (apply Hnum; unfold lipinski_inputs; solve_in)).
  unfold astype_int, add_int. rewrite !map_map, !zip_with_map_same.
  unfold eq_int. rewrite !map_map.
  rewrite M_bind_run, (df_setitem_run h1 l df1 Hl1).
  change (lipinski_kept df) with (rows df1).
  rewrite setitem_map.
  match goal with |- context [ <[l := ?d]> h1 ] => set (df2 := d) end.
  pose proof (lookup_written h1 l df1 Hl1 df2) as Hl2.
  rewrite M_bind_run, (df_setitem_run _ l df2 Hl2).
  unfold df2. rewrite setitem_map2. simpl.
  unfold h1. rewrite !list_insert_insert_eq. reflexivity.
Qed.

Lemma calculate_lipinski_inv h l df l' h' :
  h !! l = Some df -> calculate_lipinski l h = (Ok l', h') ->
  lipinski_ready df = true.
Proof.
  intros Hl H. apply lipinski_ready_spec. unfold calculate_lipinski in H.
  rewrite M_bind_run, (df_dropna_inplace_run h l df Hl) in H.
  unfold dropna in H. fold lipinski_inputs in H.
  destruct (missing_column df lipinski_inputs) eqn:Hmiss; [done|].
  fold (lipinski_kept df) in H.
  set (df1 := mkDF (columns df) (lipinski_kept df)) in *.
  pose proof (lookup_written h l df Hl df1) as Hl1.
  set (h1 := <[l:=df1]> h) in *.
  pose proof (proj1 (missing_column_None df lipinski_inputs) Hmiss) as Hin.
  repeat (rewrite M_bind_run, (df_getitem_run h1 l df1 Hl1), getitem_Ok in H
            by (apply Hin; unfold lipinski_inputs; solve_in);
          rewrite M_bind_run, lift_run in H; unfold gt in H; simpl rows in H;
          match type of H with
          | context [mapR ?f (map (cell_at ?c) ?rs)] =>
              let E := fresh "E" in
              destruct (mapR f (map (cell_at c) rs)) eqn:E; [|done];
              apply column_op_inv in E
          end).
  intros c Hc. split; [by apply Hin|].
  unfold lipinski_inputs in Hc.
  repeat (apply elem_of_cons in Hc as [->|Hc]; [done|]).
  by apply elem_of_nil in Hc.
Qed.

Lemma cell_at_row_set c v r : cell_at c (row_set c v r) = v.
Proof. unfold cell_at, row_set. simpl. by rewrite lookup_insert_eq. Qed.

Lemma cell_at_row_set_ne c d v r : c <> d -> cell_at c (row_set d v r) = cell_at c r.
Proof. intros H. unfold cell_at, row_set. simpl. by rewrite lookup_insert_ne. Qed.

Lemma cell_at_row_del_ne c d r : c <> d -> cell_at c (row_del d r) = cell_at c r.
Proof. intros H. unfold cell_at, row_del. simpl. by rewrite lookup_delete_ne. Qed.

Lemma row_set_row_set c v w r : row_set c v (row_set c w r) = row_set c v r.
Proof. unfold row_set. simpl. by rewrite insert_insert_eq. Qed.

Lemma num_op_map {A B} (k : float -> B) (m : A -> float) (l : list A) :
  mapR (fun v => x ← to_float v; Ok (k x)) (map (fun r => CNum (m r)) l)
  = Ok (map (fun r => k (m r)) l).
Proof. rewrite mapR_map. by apply mapR_total, Forall_forall. Qed.

Lemma elem_of_add_column c d cols : c ∈ add_column d cols <-> c = d \/ c ∈ cols.
Proof.
  unfold add_column. case_bool_decide as H.
  - split; [by right|]. by intros [->|?].
  - rewrite elem_of_app, list_elem_of_singleton. tauto.
Qed.

Lemma add_column_present c cols : c ∈ cols -> add_column c cols = cols.
Proof. intros H. unfold add_column. by rewrite bool_decide_eq_true_2. Qed.

Lemma loc_setitem_map cols c v (p : Row -> bool) (f : Row -> Row) (l : list Row) :
  loc_setitem (mkDF cols (map f l)) (map p l) c v =
  Ok (mkDF (add_column c cols)
        (map (fun r => if p r then row_set c v (f r) else f r) l)).
Proof.
  unfold loc_setitem. simpl. rewrite !length_map, Nat.eqb_refl.
  by rewrite zip_with_map_same.
Qed.

Section WithLog10.
Variable f : float -> float.

Lemma calculate_pic50_run h l df :
  h !! l = Some df -> pic50_ready df = true ->
  calculate_pic50 f l h =
  (Ok (length h), <[l := pic50_scratch f df]> h ++ [pic50_table f df]).
Proof.
  intros Hl [Hin Hnum]%numeric_column_spec. unfold calculate_pic50.
  rewrite M_bind_run, (df_getitem_run h l df Hl), getitem_Ok by done.
  rewrite M_bind_run, lift_run. unfold mul. rewrite column_op by done.
  rewrite M_bind_run, (df_setitem_run h l df Hl), setitem_map.
  match goal with |- context [ <[l := ?d]> h ] => set (df1 := d) end.
  pose proof (lookup_written h l df Hl df1) as Hl1.
  set (h1 := <[l:=df1]> h) in *.
  rewrite M_bind_run, (df_getitem_run h1 l df1 Hl1), getitem_Ok
    by (apply elem_of_add_column; by left).
  simpl rows. rewrite map_map.
  rewrite (map_ext _ (fun r => CNum (float_at "ic50" r * 1e-9)%float))
    by (intros r; apply cell_at_row_set).
  rewrite M_bind_run, lift_run. unfold le. rewrite num_op_map.
  rewrite M_bind_run, (df_loc_setitem_run h1 l df1 Hl1).
  unfold df1 at 1. rewrite loc_setitem_map.
  match goal with |- context [ <[l := ?d]> h1 ] => set (df2 := d) end.
  pose proof (lookup_written h1 l df1 Hl1 df2) as Hl2.
  set (h2 := <[l:=df2]> h1) in *.
  rewrite M_bind_run, (df_getitem_run h2 l df2 Hl2), getitem_Ok
    by (apply elem_of_add_column; by left).
  simpl rows. rewrite map_map.
  rewrite (map_ext _ (fun r => CNum (molar_of r))).
  2:{ intros r. unfold molar_of. destruct (_ <=? _)%float.
      - by rewrite cell_at_row_set.
      - by rewrite cell_at_row_set. }
  rewrite M_bind_run, lift_run. unfold log10. rewrite num_op_map.
  rewrite M_bind_run, lift_run. unfold neg. rewrite num_op_map.
  rewrite M_bind_run, (df_setitem_run h2 l df2 Hl2).
  unfold df2 at 1. rewrite setitem_map2.
  match goal with |- context [ <[l := ?d]> h2 ] => set (df3 := d) end.
  pose proof (lookup_written h2 l df2 Hl2 df3) as Hl3.
  assert (Hdf3 : df3 = pic50_scratch f df).
  { unfold df3, pic50_scratch. f_equal.
    - simpl. rewrite (add_column_present "ic50_M" (add_column _ _)); [done|].
      apply elem_of_add_column. by left.
    - apply map_ext. intros r. unfold pic50_scratch_row, pic50_of, molar_of.
      destruct (_ <=? _)%float; by rewrite ?row_set_row_set. }
  rewrite (df_drop_run _ l df3 Hl3). unfold drop.
  rewrite (proj2 (missing_column_None df3 ["ic50_M"])).
  2:{ intros c ->%list_elem_of_singleton. rewrite Hdf3. simpl.
      apply elem_of_add_column. right. apply elem_of_add_column. by left. }
  unfold h2, h1. rewrite !list_insert_insert_eq, !length_insert.
  rewrite Hdf3. unfold pic50_table. simpl. rewrite map_map. reflexivity.
Qed.

Lemma calculate_pic50_inv h l df l' h' :
  h !! l = Some df -> calculate_pic50 f l h = (Ok l', h') ->
  pic50_ready df = true.
Proof.
  intros Hl H. apply numeric_column_spec. unfold calculate_pic50 in H.
  rewrite M_bind_run, (df_getitem_run h l df Hl) in H.
  destruct (getitem df "ic50") as [s|] eqn:Hs; [|done].
  apply getitem_inv in Hs as [Hin ->].
  rewrite M_bind_run, lift_run in H. unfold mul in H.
  destruct (mapR _ _) eqn:E in H; [|done].
  apply column_op_inv in E. by split.
Qed.

End WithLog10.

End AnalysisFacts.

(** ** Facts about the filter section *)

Module AppFacts.
Import Pandas Analysis App Reading FilterReading FloatFacts PandasFacts AnalysisFacts.

Lemma select_map df (p : Row -> bool) :
  select df (map p (rows df)) = Ok (mkDF (columns df) (List.filter p (rows df))).
Proof.
  unfold select. rewrite length_map, Nat.eqb_refl. by rewrite mask_filter_map.
Qed.

Lemma select_rows cols rs (p : Row -> bool) :
  select (mkDF cols rs) (map p rs) = Ok (mkDF cols (List.filter p rs)).
Proof. apply (select_map (mkDF cols rs)). Qed.

Lemma has_column_true df c : has_column df c = true <-> c ∈ columns df.
Proof. unfold has_column. apply bool_decide_eq_true. Qed.

Lemma getitem_has df c :
  has_column df c = true -> getitem df c = Ok (map (cell_at c) (rows df)).
Proof. intros H. unfold getitem. by rewrite H. Qed.

Lemma getitem_has_inv df c s : getitem df c = Ok s -> has_column df c = true.
Proof. unfold getitem. by destruct (has_column df c). Qed.

Lemma isin_rows rs allowed :
  isin (map (cell_at "target") rs) allowed = map (target_allowed allowed) rs.
Proof. unfold isin. by rewrite map_map. Qed.

Lemma forallb_Forall {A} (p : A -> bool) l :
  forallb p l = true <-> Forall (fun x => p x = true) l.
Proof.
  rewrite forallb_forall, Forall_forall. by setoid_rewrite list_elem_of_In.
Qed.

Lemma as_mask_rows rs :
  forallb is_flag rs = true ->
  as_mask (map (cell_at "is_drug_like") rs) = Ok (map (drug_like_passes true) rs).
Proof.
  intros H%forallb_Forall. unfold as_mask. rewrite mapR_map.
  apply mapR_total. eapply Forall_impl; [exact H|].
  intros r Hr. unfold is_flag in Hr. simpl.
  by destruct (cell_at "is_drug_like" r).
Qed.

Lemma as_mask_rows_inv rs m :
  as_mask (map (cell_at "is_drug_like") rs) = Ok m -> forallb is_flag rs = true.
Proof.
  unfold as_mask. rewrite mapR_map. intros H. apply forallb_Forall, Forall_forall.
  intros r Hr. destruct (mapR_ok_inv _ _ _ r H Hr) as [b Hb].
  unfold is_flag. by destruct (cell_at "is_drug_like" r).
Qed.

Lemma numeric_rows c rs :
  forallb (numeric_at c) rs = true ->
  numeric (map (cell_at c) rs) = Ok (map (float_at c) rs).
Proof.
  intros H%forallb_Forall. unfold numeric. rewrite mapR_map.
  apply mapR_total. eapply Forall_impl; [exact H|].
  intros r Hr. by apply to_float_at.
Qed.

Lemma numeric_rows_inv c rs v :
  numeric (map (cell_at c) rs) = Ok v -> forallb (numeric_at c) rs = true.
Proof.
  unfold numeric. rewrite mapR_map. intros H. apply forallb_Forall, Forall_forall.
  intros r Hr. destruct (mapR_ok_inv _ _ _ r H Hr) as [b Hb].
  unfold numeric_at. by rewrite Hb.
Qed.

Lemma column_test (g : float -> bool) c rs :
  forallb (numeric_at c) rs = true ->
  mapR (fun v => x ← to_float v; Ok (g x)) (map (cell_at c) rs)
  = Ok (map (fun r => match to_float (cell_at c r) with
                      | Ok x => g x | Raise _ => false end) rs).
Proof.
  intros H%forallb_Forall. rewrite mapR_map. apply mapR_total.
  eapply Forall_impl; [exact H|]. intros r Hr. simpl.
  unfold numeric_at in Hr. by destruct (to_float (cell_at c r)).
Qed.

Lemma forallb_filter_sub {A} (p q : A -> bool) l :
  forallb p l = true -> forallb p (List.filter q l) = true.
Proof.
  rewrite !forallb_forall. intros H x [Hx _]%List.filter_In. by apply H.
Qed.

Lemma isnull_all_rows rs :
  negb (isnull_all (map (cell_at "pIC50") rs)) = pic50_defined_in rs.
Proof.
  unfold isnull_all, pic50_defined_in.
  induction rs as [|r rs IH]; simpl; [done|].
  rewrite negb_andb. by rewrite IH.
Qed.

(** The pIC50 stage on a table whose rows are [rs]. *)
Lemma pic50_filter_run cols rs range :
  (if has_column (mkDF cols rs) "pIC50" && pic50_defined_in rs
   then forallb (numeric_at "pIC50") rs else true) = true ->
  pic50_filter (mkDF cols rs) range =
  let active := has_column (mkDF cols rs) "pIC50" && pic50_defined_in rs in
  Ok (if active then Some (bounds_of "pIC50" rs) else None,
      mkDF cols (List.filter (pic50_passes active range) rs)).
Proof.
  intros Hnum. unfold pic50_filter, pic50_available.
  destruct (has_column (mkDF cols rs) "pIC50") eqn:Hcol; simpl.
  - rewrite getitem_has by done. simpl. rewrite isnull_all_rows.
    destruct (pic50_defined_in rs) eqn:Hdef; simpl.
    + simpl in Hnum. rewrite numeric_rows by done. simpl.
      unfold ge, le. rewrite !column_test by done. simpl.
      unfold mask_and. rewrite zip_with_map_same.
      rewrite select_rows. simpl. do 3 f_equal. apply List.filter_ext.
      intros r. unfold pic50_passes, in_range. by destruct (to_float _).
    + f_equal. f_equal. f_equal. symmetry. clear.
      induction rs as [|r rs IH]; simpl; [done|]. by rewrite IH.
  - f_equal. f_equal. f_equal. symmetry. clear.
    induction rs as [|r rs IH]; simpl; [done|]. by rewrite IH.
Qed.

Lemma pic50_filter_inv cols rs range out :
  pic50_filter (mkDF cols rs) range = Ok out ->
  (if has_column (mkDF cols rs) "pIC50" && pic50_defined_in rs
   then forallb (numeric_at "pIC50") rs else true) = true.
Proof.
  unfold pic50_filter, pic50_available.
  destruct (has_column (mkDF cols rs) "pIC50") eqn:Hcol; simpl; [|done].
  rewrite getitem_has by done. simpl. rewrite isnull_all_rows.
  destruct (pic50_defined_in rs) eqn:Hdef; simpl; [|done].
  destruct (numeric _) eqn:E; [|done]. intros _.
  by apply numeric_rows_inv in E.
Qed.

Lemma between_rows c range rs :
  forallb (numeric_at c) rs = true ->
  between (map (cell_at c) rs) range.1 range.2 = Ok (map (in_range c range) rs).
Proof. intros H. unfold between. by rewrite column_test. Qed.

Lemma preselected_rows_eq df w :
  preselected_rows df w =
  List.filter (drug_like_passes (drug_like_only w)) (target_kept df w).
Proof. unfold preselected_rows, target_kept. by rewrite filter_filter_andb. Qed.

Lemma filter_true {A} (l : list A) : List.filter (fun _ => true) l = l.
Proof. induction l as [|x l IH]; simpl; [done|]. by rewrite IH. Qed.

Lemma drug_like_filter_run cols rs (only : bool) :
  (if only then has_column (mkDF cols rs) "is_drug_like" && forallb is_flag rs
   else true) = true ->
  drug_like_filter (mkDF cols rs) only
  = Ok (mkDF cols (List.filter (drug_like_passes only) rs)).
Proof.
  unfold drug_like_filter. destruct only.
  - intros [Hc Hf]%andb_true_iff.
    rewrite getitem_has by done. simpl. rewrite as_mask_rows by done. simpl.
    by rewrite select_rows.
  - intros _. simpl. by rewrite filter_true.
Qed.

Lemma drug_like_filter_inv cols rs (only : bool) out :
  drug_like_filter (mkDF cols rs) only = Ok out ->
  (if only then has_column (mkDF cols rs) "is_drug_like" && forallb is_flag rs
   else true) = true.
Proof.
  unfold drug_like_filter. destruct only; [|done].
  intros H. inv_bind H as flag Hf. inv_bind H as m Hm.
  rewrite (getitem_has_inv _ _ _ Hf). simpl.
  apply getitem_inv in Hf as [_ ->]. simpl in Hm.
  by apply as_mask_rows_inv in Hm.
Qed.

Lemma filter_compounds_run df w :
  filter_ready df w = true -> filter_compounds df w = Ok (filter_result df w).
Proof.
  unfold filter_ready. rewrite !andb_true_iff.
  intros [[[[Htarget Hflag] Hmw] Hlogp] Hpic].
  apply andb_true_iff in Hmw as [Hmwc Hmw].
  apply andb_true_iff in Hlogp as [Hlogpc Hlogp].
  unfold filter_compounds.
  rewrite getitem_has by done. simpl.
  rewrite isin_rows, select_map. simpl. fold (target_kept df w).
  rewrite drug_like_filter_run by done. rewrite <- preselected_rows_eq. simpl.
  rewrite (getitem_has _ "mw") by done. simpl. rewrite numeric_rows by done. simpl.
  rewrite (getitem_has _ "logp") by done. simpl. rewrite numeric_rows by done. simpl.
  rewrite pic50_filter_run by done. simpl.
  fold (pic50_active df w). fold (narrowed_rows df w).
  rewrite (getitem_has _ "mw") by done. simpl.
  rewrite between_rows by (by apply forallb_filter_sub).
  simpl.
  rewrite (getitem_has _ "logp") by done. simpl.
  rewrite between_rows by (by apply forallb_filter_sub).
  simpl. unfold mask_and. rewrite zip_with_map_same.
  rewrite select_rows. reflexivity.
Qed.

Lemma filter_compounds_inv df w run :
  filter_compounds df w = Ok run -> filter_ready df w = true.
Proof.
  intros H. unfold filter_compounds in H.
  inv_bind H as target Ht. pose proof (getitem_has_inv _ _ _ Ht) as Htarget.
  apply getitem_inv in Ht as [_ ->].
  rewrite isin_rows, select_map in H. simpl in H. fold (target_kept df w) in H.
  inv_bind H as pre Hp. pose proof (drug_like_filter_inv _ _ _ _ Hp) as Hflag.
  rewrite drug_like_filter_run in Hp by done. injection Hp as <-.
  rewrite <- preselected_rows_eq in H.
  inv_bind H as mw Hmw. pose proof (getitem_has_inv _ _ _ Hmw) as Hmwc.
  apply getitem_inv in Hmw as [_ ->]. simpl in H.
  inv_bind H as mwv Hmwv. apply numeric_rows_inv in Hmwv.
  inv_bind H as logp Hlogp. pose proof (getitem_has_inv _ _ _ Hlogp) as Hlogpc.
  apply getitem_inv in Hlogp as [_ ->]. simpl in H.
  inv_bind H as logpv Hlogpv. apply numeric_rows_inv in Hlogpv.
  inv_bind H as pic Hpic. apply pic50_filter_inv in Hpic.
  unfold filter_ready, numeric_column. rewrite !andb_true_iff.
  split; [split; [split; [split; [exact Htarget|exact Hflag]
                         |split; [exact Hmwc|exact Hmwv]]
                 |split; [exact Hlogpc|exact Hlogpv]]
         |exact Hpic].
Qed.

End AppFacts.

(** ** The claims *)

Module LipinskiClaims.

Import Pandas Analysis App Reading Fixtures FloatFacts PandasFacts AnalysisFacts.







End LipinskiClaims.

Module Pic50Claims.

Import Pandas Analysis App Reading Fixtures FloatFacts PandasFacts AnalysisFacts.

Section WithLog10.

Variable f : float -> float.


Lemma pic50_row_pIC50 r : cell_at "pIC50" (pic50_row f r) = CNum (pic50_of f r).
Proof.
  unfold pic50_row, pic50_scratch_row.
  rewrite cell_at_row_del_ne by done. by rewrite cell_at_row_set.
Qed.


End WithLog10.



End Pic50Claims.

Module FilterClaims.
Import Pandas Analysis App Reading FilterReading Fixtures.
Import FloatFacts PandasFacts AnalysisFacts AppFacts.

Lemma in_range_spec c range r :
  in_range c range r = true <->
  exists x, to_float (cell_at c r) = Ok x /\
            (range.1 <=? x)%float = true /\ (x <=? range.2)%float = true.
Proof.
  unfold in_range. destruct (to_float (cell_at c r)) as [x|e].
  - rewrite andb_true_iff. split; [eauto|]. by intros (? & [= <-] & ?).
  - split; [done|]. by intros (? & ? & _).
Qed.

Lemma isnull_to_float v : isnull v = true -> exists x, v = CNum x /\ is_nan x = true.
Proof. destruct v; simpl; try done. eauto. Qed.

Lemma in_range_missing c range r :
  isnull (cell_at c r) = true -> in_range c range r = false.
Proof.
  intros (x & Hx & Hnan)%isnull_to_float. unfold in_range. rewrite Hx. simpl.
  by rewrite (leb_nan_r _ _ Hnan).
Qed.

Lemma in_range_ends c x r :
  to_float (cell_at c r) = Ok x -> is_nan x = false -> in_range c (x, x) r = true.
Proof.
  intros Hx Hnan. unfold in_range. rewrite Hx. simpl.
  by rewrite (leb_refl _ Hnan).
Qed.

Lemma cell_eqb_str s v : cell_eqb (CStr s) v = true <-> v = CStr s.
Proof.
  destruct v; simpl; try (split; done).
  rewrite String.eqb_eq. split; congruence.
Qed.

Lemma target_allowed_str allowed r s :
  cell_at "target" r = CStr s ->
  target_allowed allowed r = true <-> CStr s ∈ allowed.
Proof.
  intros Hs. unfold target_allowed. rewrite Hs, existsb_exists. split.
  - intros (v & Hv & ->%cell_eqb_str). by apply list_elem_of_In.
  - intros Hin. exists (CStr s). split; [by apply list_elem_of_In|].
    by apply cell_eqb_str.
Qed.

Lemma filtered_rows_passes_all df w :
  filtered_rows df w = List.filter (passes_all df w) (rows df).
Proof.
  unfold filtered_rows, narrowed_rows, preselected_rows.
  rewrite !filter_filter_andb. apply List.filter_ext. intros r.
  unfold passes_all, preselected, in_both_ranges. by rewrite !andb_assoc.
Qed.

(** C4.  When the filter section returns, [filtered_df] has the columns
    of the table and exactly the rows that meet every constraint in force;
    these are the rows common to the five sets the constraints select one
    by one.  A range constraint holds of a row when its value is a number
    [x] with [low <= x <= high]; a value equal to both ends passes, so the
    ends are included; a missing value fails for every range; and a target
    that is a string is allowed when that very string is in the
    allow-list.  The pIC50 range is in force when the slider is shown. *)
Theorem filter_keeps_rows_meeting_every_constraint df w run :
  filter_compounds df w = Ok run ->
  columns (filtered_df run) = columns df /\
  rows (filtered_df run) = List.filter (passes_all df w) (rows df) /\
  (forall r, r ∈ rows (filtered_df run) <->
     r ∈ List.filter (target_allowed (selected_targets w)) (rows df) /\
     r ∈ List.filter (drug_like_passes (drug_like_only w)) (rows df) /\
     r ∈ List.filter (pic50_passes (pic50_active df w) (pic50_range w)) (rows df) /\
     r ∈ List.filter (in_range "mw" (mw_range w)) (rows df) /\
     r ∈ List.filter (in_range "logp" (logp_range w)) (rows df)) /\
  (forall c range r,
     in_range c range r = true <->
     exists x, to_float (cell_at c r) = Ok x /\
               (range.1 <=? x)%float = true /\ (x <=? range.2)%float = true) /\
  (forall c x r,
     to_float (cell_at c r) = Ok x -> is_nan x = false ->
     in_range c (x, x) r = true) /\
  (forall c range r, isnull (cell_at c r) = true -> in_range c range r = false) /\
  (forall allowed r s,
     cell_at "target" r = CStr s ->
     target_allowed allowed r = true <-> CStr s ∈ allowed).
Proof.
  intros H. pose proof (filter_compounds_inv _ _ _ H) as Hready.
  rewrite (filter_compounds_run _ _ Hready) in H. injection H as <-.
  split; [done|]. split; [apply filtered_rows_passes_all|].
  split; [|split; [apply in_range_spec|split; [apply in_range_ends|
           split; [apply in_range_missing|apply target_allowed_str]]]].
  intros r. simpl. rewrite filtered_rows_passes_all, !elem_of_lfilter.
  unfold passes_all. rewrite !andb_true_iff. tauto.
Qed.


Lemma two_targets_ready : filter_ready two_targets A_and_B = true.
Proof. vm_compute. reflexivity. Qed.

(** Both targets selected on the two-target table: compound 2 is left. *)
Lemma filter_on_two_targets :
  map label (rows (filtered_df (filter_result two_targets A_and_B))) = [2].
Proof.
  destruct (filter_keeps_rows_meeting_every_constraint two_targets A_and_B _
              (filter_compounds_run _ _ two_targets_ready)) as (_ & Hrows & _).
  rewrite Hrows. vm_compute. reflexivity.
Defined.

(** *** Least and greatest value of a column *)

Lemma fold_fmin_le ys y :
  is_nan y = false -> Forall (fun z => is_nan z = false) ys ->
  let m := fold_left fmin ys y in
  is_nan m = false /\ (m <=? y)%float = true /\
  Forall (fun z => (m <=? z)%float = true) ys.
Proof.
  revert y. induction ys as [|z ys IH]; intros y Hy Hys; simpl.
  - split; [done|]. split; [by apply leb_refl|constructor].
  - inversion Hys as [|? ? Hz Hys']; subst.
    assert (Hstep : is_nan (fmin y z) = false /\
                    (fmin y z <=? y)%float = true /\
                    (fmin y z <=? z)%float = true).
    { unfold fmin. destruct (z <? y)%float eqn:E.
      - split; [done|]. split; [by apply ltb_leb|by apply leb_refl].
      - split; [done|]. split; [by apply leb_refl|by apply ltb_false_leb]. }
    destruct Hstep as (Hn & Hy' & Hz').
    destruct (IH (fmin y z) Hn Hys') as (Hm & Hle & Hall).
    split; [done|]. split; [by eapply leb_trans|].
    constructor; [by eapply leb_trans|done].
Qed.

Lemma fold_fmax_ge ys y :
  is_nan y = false -> Forall (fun z => is_nan z = false) ys ->
  let m := fold_left fmax ys y in
  is_nan m = false /\ (y <=? m)%float = true /\
  Forall (fun z => (z <=? m)%float = true) ys.
Proof.
  revert y. induction ys as [|z ys IH]; intros y Hy Hys; simpl.
  - split; [done|]. split; [by apply leb_refl|constructor].
  - inversion Hys as [|? ? Hz Hys']; subst.
    assert (Hstep : is_nan (fmax y z) = false /\
                    (y <=? fmax y z)%float = true /\
                    (z <=? fmax y z)%float = true).
    { unfold fmax. destruct (y <? z)%float eqn:E.
      - split; [done|]. split; [by apply ltb_leb|by apply leb_refl].
      - split; [done|]. split; [by apply leb_refl|by apply ltb_false_leb]. }
    destruct Hstep as (Hn & Hy' & Hz').
    destruct (IH (fmax y z) Hn Hys') as (Hm & Hle & Hall).
    split; [done|]. split; [by eapply leb_trans|].
    constructor; [by eapply leb_trans|].
    eapply Forall_impl; [exact Hall|]. done.
Qed.

Lemma defined_Forall v : Forall (fun z => is_nan z = false) (defined v).
Proof.
  apply Forall_forall. intros z Hz%list_elem_of_In.
  apply List.filter_In in Hz as [_ Hz]. by apply negb_true_iff.
Qed.

Lemma min_of_le v x :
  x ∈ v -> is_nan x = false -> (min_of v <=? x)%float = true.
Proof.
  intros Hx Hn. assert (Hd : x ∈ defined v).
  { apply elem_of_lfilter. split; [done|]. by rewrite Hn. }
  unfold min_of. pose proof (defined_Forall v) as HF.
  destruct (defined v) as [|y ys]; [by apply elem_of_nil in Hd|].
  inversion HF as [|? ? Hy Hys]; subst.
  destruct (fold_fmin_le ys y Hy Hys) as (_ & Hle & Hall).
  apply elem_of_cons in Hd as [->|Hd]; [done|].
  rewrite Forall_forall in Hall. by apply Hall.
Qed.

Lemma max_of_ge v x :
  x ∈ v -> is_nan x = false -> (x <=? max_of v)%float = true.
Proof.
  intros Hx Hn. assert (Hd : x ∈ defined v).
  { apply elem_of_lfilter. split; [done|]. by rewrite Hn. }
  unfold max_of. pose proof (defined_Forall v) as HF.
  destruct (defined v) as [|y ys]; [by apply elem_of_nil in Hd|].
  inversion HF as [|? ? Hy Hys]; subst.
  destruct (fold_fmax_ge ys y Hy Hys) as (_ & Hle & Hall).
  apply elem_of_cons in Hd as [->|Hd]; [done|].
  rewrite Forall_forall in Hall. by apply Hall.
Qed.


Lemma pic50_defined_in_spec rs :
  pic50_defined_in rs = true <->
  exists r, r ∈ rs /\ isnull (cell_at "pIC50" r) = false.
Proof.
  unfold pic50_defined_in. rewrite existsb_exists.
  setoid_rewrite list_elem_of_In. by setoid_rewrite negb_true_iff.
Qed.

Lemma pic50_defined_in_none rs :
  (forall r, r ∈ rs -> isnull (cell_at "pIC50" r) = true) ->
  pic50_defined_in rs = false.
Proof.
  intros H. destruct (pic50_defined_in rs) eqn:E; [|done].
  apply pic50_defined_in_spec in E as (r & Hr & Hn). rewrite H in Hn; done.
Qed.

Lemma in_range_defined c range r :
  in_range c range r = true -> isnull (cell_at c r) = false.
Proof.
  intros H. destruct (isnull (cell_at c r)) eqn:E; [|done].
  by rewrite in_range_missing in H.
Qed.

Lemma in_range_default_bounds rs r :
  r ∈ rs -> numeric_at "pIC50" r = true ->
  in_range "pIC50" (bounds_of "pIC50" rs) r = negb (is_nan (float_at "pIC50" r)).
Proof.
  intros Hr Hnum. unfold in_range. rewrite (to_float_at _ _ Hnum). simpl.
  destruct (is_nan (float_at "pIC50" r)) eqn:Hn; simpl.
  - by rewrite (leb_nan_r _ _ Hn).
  - assert (Hin : float_at "pIC50" r ∈ map (float_at "pIC50") rs).
    { apply list_elem_of_fmap. eauto. }
    by rewrite (min_of_le _ _ Hin Hn), (max_of_ge _ _ Hin Hn).
Qed.

Lemma filter_id {A} (p : A -> bool) l :
  (forall x, x ∈ l -> p x = true) -> List.filter p l = l.
Proof.
  induction l as [|x l IH]; intros H; simpl; [done|].
  rewrite (H x) by (by left). rewrite IH; [done|]. intros y Hy. apply H. by right.
Qed.

(** C10.  When the table left by the target and drug-likeness filters has a
    pIC50 column with at least one value that is not missing, the slider
    is shown and, whatever its range, no row with a missing pIC50 is left
    in [df] or in [filtered_df]; with the range left at the least and
    greatest pIC50 the rows removed are exactly those without a pIC50.
    When every pIC50 of that table is missing, no slider is shown and the
    table passes the stage unchanged. *)
Theorem pic50_filter_drops_missing_or_is_skipped df w run :
  filter_compounds df w = Ok run ->
  ("pIC50" ∈ columns df ->
   (exists r, r ∈ preselected_rows df w /\ isnull (cell_at "pIC50" r) = false) ->
   is_Some (pic50_bounds run) /\
   (forall r, r ∈ rows (narrowed_df run) ->
      r ∈ preselected_rows df w /\ isnull (cell_at "pIC50" r) = false) /\
   (forall r, r ∈ rows (filtered_df run) -> isnull (cell_at "pIC50" r) = false) /\
   (pic50_range w = bounds_of "pIC50" (preselected_rows df w) ->
    rows (narrowed_df run) =
    List.filter (fun r => negb (is_nan (float_at "pIC50" r)))
      (preselected_rows df w))) /\
  ((forall r, r ∈ preselected_rows df w -> isnull (cell_at "pIC50" r) = true) ->
   pic50_bounds run = None /\
   narrowed_df run = mkDF (columns df) (preselected_rows df w)).
Proof.
  intros H. pose proof (filter_compounds_inv _ _ _ H) as Hready.
  rewrite (filter_compounds_run _ _ Hready) in H. injection H as <-. simpl.
  split.
  - intros Hcol Hdef.
    assert (Hact : pic50_active df w = true).
    { unfold pic50_active. rewrite andb_true_iff. split.
      - by apply has_column_true.
      - by apply pic50_defined_in_spec. }
    assert (Hnarrow : forall r, r ∈ narrowed_rows df w ->
              r ∈ preselected_rows df w /\ isnull (cell_at "pIC50" r) = false).
    { intros r. unfold narrowed_rows. rewrite Hact, elem_of_lfilter. simpl.
      intros [Hr Hin]. split; [done|]. by eapply in_range_defined. }
    rewrite Hact. split; [by eexists|]. split; [exact Hnarrow|]. split.
    + intros r [Hr _]%elem_of_lfilter. by apply Hnarrow.
    + intros Hrange. unfold narrowed_rows. rewrite Hact, Hrange. simpl.
      apply filter_ext_in'. intros r Hr. apply in_range_default_bounds; [done|].
      unfold filter_ready in Hready. rewrite Hact in Hready.
      apply andb_true_iff in Hready as [_ Hnum].
      rewrite forallb_forall in Hnum. by apply Hnum, list_elem_of_In.
  - intros Hnone.
    assert (Hact : pic50_active df w = false).
    { unfold pic50_active. rewrite (pic50_defined_in_none _ Hnone).
      apply andb_false_r. }
    rewrite Hact. split; [done|]. f_equal.
    unfold narrowed_rows. rewrite Hact. by apply filter_id.
Qed.

Lemma only_A_ready : filter_ready two_targets only_A = true.
Proof. vm_compute. reflexivity. Qed.

(** With both targets selected the two compounds without a pIC50 go; with
    target A alone no pIC50 filter is applied and both stay. *)
Lemma pic50_filter_on_two_targets :
  is_Some (pic50_bounds (filter_result two_targets A_and_B)) /\
  map label (rows (narrowed_df (filter_result two_targets A_and_B))) = [2] /\
  narrowed_df (filter_result two_targets only_A)
  = mkDF (columns two_targets) (preselected_rows two_targets only_A) /\
  map label (preselected_rows two_targets only_A) = [0; 1].
Proof.
  destruct (pic50_filter_drops_missing_or_is_skipped two_targets A_and_B _
              (filter_compounds_run _ _ two_targets_ready)) as [Hdrop _].
  destruct (pic50_filter_drops_missing_or_is_skipped two_targets only_A _
              (filter_compounds_run _ _ only_A_ready)) as [_ Hskip].
  split; [|split; [vm_compute; reflexivity|split; [|vm_compute; reflexivity]]].
  - apply Hdrop.
    + apply has_column_true. vm_compute. reflexivity.
    + apply pic50_defined_in_spec. vm_compute. reflexivity.
  - apply Hskip. intros r Hr%list_elem_of_In. revert r Hr.
    apply (proj1 (forallb_forall (fun r => isnull (cell_at "pIC50" r)) _)).
    vm_compute. reflexivity.
Defined.


(** C9, amended.  The bounds handed to the three sliders are the least and
    greatest value of the column over the rows left by the target and
    drug-likeness filters of the same run, not over the whole table; the
    pIC50 slider has bounds only when one of those rows has a pIC50. *)
Theorem slider_bounds_come_from_preselected_rows df w run :
  filter_compounds df w = Ok run ->
  let kept :=
    List.filter
      (fun r => target_allowed (selected_targets w) r &&
                drug_like_passes (drug_like_only w) r) (rows df) in
  mw_bounds run
  = (min_of (map (float_at "mw") kept), max_of (map (float_at "mw") kept)) /\
  logp_bounds run
  = (min_of (map (float_at "logp") kept), max_of (map (float_at "logp") kept)) /\
  pic50_bounds run
  = (if has_column df "pIC50" && pic50_defined_in kept
     then Some (min_of (map (float_at "pIC50") kept),
                max_of (map (float_at "pIC50") kept))
     else None).
Proof.
  intros H. pose proof (filter_compounds_inv _ _ _ H) as Hready.
  rewrite (filter_compounds_run _ _ Hready) in H. by injection H as <-.
Qed.

(** Target A alone: the sliders show the bounds of its two compounds. *)
Lemma slider_bounds_on_two_targets :
  mw_bounds (filter_result two_targets only_A) = (100, 200)%float /\
  logp_bounds (filter_result two_targets only_A) = (1, 2)%float /\
  pic50_bounds (filter_result two_targets only_A) = None.
Proof.
  destruct (slider_bounds_come_from_preselected_rows two_targets only_A _
              (filter_compounds_run _ _ only_A_ready)) as (Hmw & Hlogp & Hpic).
  rewrite Hmw, Hlogp, Hpic. repeat split; vm_compute; reflexivity.
Defined.

(** C9 as stated fails: with target A alone selected the molecular-weight
    slider runs from 100 to 200, where the whole table runs from 100 to
    900 and so does the slider with both targets selected; selecting fewer
    targets has narrowed it. *)
Lemma target_filter_narrows_slider_bounds :
  mw_bounds <$> filter_compounds two_targets_apart only_A = Ok (100, 200)%float /\
  mw_bounds <$> filter_compounds two_targets_apart A_and_B_apart
  = Ok (100, 900)%float /\
  bounds_of "mw" (rows two_targets_apart) = (100, 900)%float.
Proof. repeat split; vm_compute; reflexivity. Qed.

(** *** Idempotence and monotonicity *)


















End FilterClaims.

Module OverviewClaims.
Import Pandas Analysis App Reading FilterReading Fixtures.
Import FloatFacts PandasFacts AnalysisFacts AppFacts.

(** C8, amended.  On a table without rows that has the three columns the
    overview reads, the overview does not raise: the number of compounds,
    of targets and of drug-like compounds is 0, and the percentage and the
    mean pIC50 are both NaN. *)
Theorem overview_of_no_rows df :
  rows df = [] ->
  has_column df "target" = true ->
  has_column df "is_drug_like" = true ->
  has_column df "pIC50" = true ->
  overview df = Ok (mkOverview 0 0 0 nan nan).
Proof.
  intros Hrows Ht Hd Hp. unfold overview.
  rewrite !getitem_has by done. unfold len. rewrite Hrows. reflexivity.
Qed.

(** The overview of a loaded table without rows. *)
Lemma overview_of_no_compounds :
  overview no_compounds = Ok (mkOverview 0 0 0 nan nan).
Proof.
  apply overview_of_no_rows; vm_compute; reflexivity.
Defined.

(** C8 as stated fails: on a loaded table without rows the percentage is
    the float 0/0*100, which is NaN and not zero. *)
Lemma percentage_of_no_compounds_is_nan :
  drug_like_percent <$> overview no_compounds = Ok nan /\
  (nan =? 0)%float = false /\
  (Z2F 0 / Z2F 0 * 100)%float = nan.
Proof. repeat split; vm_compute; reflexivity. Qed.

End OverviewClaims.

Module ActivityClaims.
Import Pandas Analysis Activity App Reading FilterReading Fixtures.
Import FloatFacts PandasFacts AnalysisFacts AppFacts Pic50Claims.

Section WithLog10.
Variable f : float -> float.

(** The guarded transform: a molar value that is not positive gives a
    missing pIC50, and the transform returns all the same. *)
Lemma nonpositive_molar_gets_missing_pic50 h l df :
  h !! l = Some df -> pic50_ready df = true ->
  exists scratch out,
    calculate_pic50 f l h = (Ok (length h), <[l := scratch]> h ++ [out]) /\
    rows out = map (pic50_row f) (rows df) /\
    forall r x, r ∈ rows df ->
      to_float (cell_at "ic50" r) = Ok x -> (x * 1e-9 <=? 0)%float = true ->
      cell_at "pIC50" (pic50_row f r) = NaN /\
      isnull (cell_at "pIC50" (pic50_row f r)) = true.
Proof.
  intros Hl Hready. exists (pic50_scratch f df), (pic50_table f df).
  split; [by apply calculate_pic50_run|]. split; [done|].
  intros r x Hr Hx Hle.
  assert (E : cell_at "pIC50" (pic50_row f r) = NaN).
  { rewrite pic50_row_pIC50. unfold pic50_of, molar_of, float_at.
    rewrite Hx, Hle. reflexivity. }
  by rewrite E.
Qed.

End WithLog10.

(** A mean skips the missing values. *)
Lemma mean_of_skips_missing v1 v2 x :
  is_nan x = true -> mean_of (v1 ++ x :: v2) = mean_of (v1 ++ v2).
Proof.
  intros Hx. unfold mean_of, defined. rewrite !List.filter_app. simpl.
  by rewrite Hx.
Qed.

(** The mean pIC50 of the overview is such a mean. *)
Lemma overview_mean df o :
  overview df = Ok o ->
  exists v, numeric (map (cell_at "pIC50") (rows df)) = Ok v /\
            avg_potency o = mean_of v.
Proof.
  unfold overview. intros H.
  inv_bind H as t Ht. inv_bind H as d Hd. inv_bind H as n Hn.
  inv_bind H as p Hp. inv_bind H as v Hv. injection H as <-.
  apply getitem_inv in Hp as [_ ->]. eauto.
Qed.

(** C3, at the input where the code departs from it.  For an IC50 of zero
    the conversion in activity_analyzer.py gives an infinite pIC50, which
    is not a missing value and which a mean takes in; for a negative IC50
    it gives a missing one.  [calculate_pic50] gives a missing pIC50 for
    both. *)
Theorem activity_pic50_of_zero_ic50_is_infinite (f : float -> float) :
  (fun out => map (cell_at "pIC50") (rows out)) <$> analyze_activity_relationships f nonpositive_ic50
  = Ok [CNum infinity; CNum nan] /\
  isnull (CNum infinity) = false /\
  mean_of [infinity; nan] = infinity /\
  (fun out => map (cell_at "pIC50") (rows out)) <$>
    returned (calculate_pic50 f 0%nat [nonpositive_ic50])
  = Ok [CNum nan; CNum nan] /\
  mean_of [nan; nan] = nan.
Proof. repeat split; vm_compute; reflexivity. Qed.

End ActivityClaims.

Module StoreClaims.
Import Pandas Analysis Activity App Reading FilterReading Fixtures.
Import FloatFacts PandasFacts AnalysisFacts AppFacts.

Section WithLog10.
Variable f : float -> float.

Lemma load_handler_run h l df :
  h !! l = Some df -> handler_ready df = true ->
  load_handler f l h =
  (Ok (length h + 2)%nat,
   h ++ [lipinski_table df; pic50_scratch f (lipinski_table df); loaded f df]).
Proof.
  intros Hl [HL HP]%andb_true_iff. unfold load_handler.
  rewrite M_bind_run, (df_copy_run h l df Hl).
  assert (H1 : (h ++ [df]) !! length h = Some df) by by apply list_lookup_middle.
  rewrite M_bind_run, (calculate_lipinski_run _ _ df H1 HL).
  assert (E1 : <[length h := lipinski_table df]> (h ++ [df]) = h ++ [lipinski_table df]).
  { rewrite insert_app_r_alt by lia. by rewrite Nat.sub_diag. }
  rewrite E1.
  assert (H2 : (h ++ [lipinski_table df]) !! length h = Some (lipinski_table df))
    by by apply list_lookup_middle.
  rewrite M_bind_run, (df_copy_run _ _ _ H2).
  set (h3 := (h ++ [lipinski_table df]) ++ [lipinski_table df]).
  assert (H3 : h3 !! length (h ++ [lipinski_table df]) = Some (lipinski_table df))
    by by apply list_lookup_middle.
  rewrite (calculate_pic50_run f _ _ _ H3 HP).
  unfold h3. rewrite insert_app_r_alt by lia. rewrite Nat.sub_diag. simpl.
  rewrite !length_app. simpl. rewrite <- !app_assoc. simpl.
  f_equal. f_equal. lia.
Qed.


End WithLog10.


(** The tables of the filter examples are what the load handler returns. *)
Lemma two_targets_is_loaded :
  returned (load_handler log10_series 0%nat [two_targets_raw]) = Ok two_targets.
Proof.
  rewrite (load_handler_run log10_series [two_targets_raw] 0%nat two_targets_raw
             eq_refl) by (vm_compute; reflexivity).
  reflexivity.
Qed.


End StoreClaims.

Module OrderClaims.
Import Pandas Analysis Activity App Reading FilterReading Fixtures.
Import FloatFacts PandasFacts AnalysisFacts AppFacts LipinskiClaims Pic50Claims.

(** Equality of two rows built by setting and deleting cells. *)
Ltac row_eq :=
  unfold row_set, row_del; simpl; f_equal; apply map_eq; intros ?;
  repeat first [rewrite lookup_insert | rewrite lookup_delete | case_decide];
  congruence.

Lemma filter_map_comm {A B} (p : B -> bool) (g : A -> B) l :
  List.filter p (map g l) = map g (List.filter (fun x => p (g x)) l).
Proof.
  induction l as [|x l IH]; simpl; [done|]. destruct (p (g x)); simpl; by rewrite IH.
Qed.

Lemma filter_idem {A} (p : A -> bool) l :
  List.filter p (List.filter p l) = List.filter p l.
Proof.
  rewrite filter_filter_andb. apply List.filter_ext. intros x. by destruct (p x).
Qed.

Lemma cell_at_lipinski_row c r :
  c <> "lipinski_violations" -> c <> "is_drug_like" ->
  cell_at c (lipinski_row r) = cell_at c r.
Proof.
  intros H1 H2. unfold lipinski_row. by rewrite !cell_at_row_set_ne.
Qed.

Lemma notna_row_ext cs r r' :
  (forall c, c ∈ cs -> cell_at c r' = cell_at c r) ->
  notna_row cs r' = notna_row cs r.
Proof.
  intros H. unfold notna_row. induction cs as [|c cs IH]; simpl; [done|].
  rewrite (H c) by (by left). rewrite IH; [done|]. intros d Hd. apply H. by right.
Qed.

Lemma violations_of_ext r r' :
  (forall c, c ∈ lipinski_inputs -> cell_at c r' = cell_at c r) ->
  violations_of r' = violations_of r.
Proof.
  intros H. unfold violations_of, float_at.
  rewrite !H; [done|..]; unfold lipinski_inputs; solve_in.
Qed.

Lemma lipinski_inputs_kept_by_lipinski_row c r :
  c ∈ lipinski_inputs -> cell_at c (lipinski_row r) = cell_at c r.
Proof.
  intros Hc. apply cell_at_lipinski_row; intros ->; revert Hc; solve_notin.
Qed.

Lemma lipinski_row_idem r : lipinski_row (lipinski_row r) = lipinski_row r.
Proof.
  unfold lipinski_row at 1.
  rewrite (violations_of_ext r (lipinski_row r))
    by (intros c Hc; by apply lipinski_inputs_kept_by_lipinski_row).
  unfold lipinski_row. row_eq.
Qed.

Lemma lipinski_kept_of_table df :
  lipinski_kept (lipinski_table df) = map lipinski_row (lipinski_kept df).
Proof.
  unfold lipinski_kept at 1. simpl. rewrite filter_map_comm. f_equal.
  rewrite (List.filter_ext _ (notna_row lipinski_inputs)).
  - apply filter_idem.
  - intros r. apply notna_row_ext. intros c Hc.
    by apply lipinski_inputs_kept_by_lipinski_row.
Qed.

Lemma numeric_at_ext c r r' :
  cell_at c r' = cell_at c r -> numeric_at c r' = numeric_at c r.
Proof. intros H. unfold numeric_at. by rewrite H. Qed.

Lemma lipinski_table_ready df :
  lipinski_ready df = true -> lipinski_ready (lipinski_table df) = true.
Proof.
  rewrite !lipinski_ready_spec. intros H c Hc. destruct (H c Hc) as [Hin Hnum].
  split.
  - simpl. rewrite !elem_of_add_column. auto.
  - rewrite lipinski_kept_of_table. apply Forall_fmap.
    eapply Forall_impl; [exact Hnum|]. intros r Hr. simpl.
    by rewrite (numeric_at_ext c r) by by apply lipinski_inputs_kept_by_lipinski_row.
Qed.

Lemma lipinski_table_idem df : lipinski_table (lipinski_table df) = lipinski_table df.
Proof.
  unfold lipinski_table at 1. rewrite lipinski_kept_of_table.
  unfold lipinski_table at 2. f_equal.
  - simpl.
    rewrite (add_column_present "lipinski_violations")
      by (rewrite !elem_of_add_column; auto).
    apply add_column_present. rewrite !elem_of_add_column. auto.
  - rewrite map_map. apply map_ext. intros r. apply lipinski_row_idem.
Qed.

Section WithLog10.
Variable f : float -> float.

Lemma cell_at_pic50_row c r :
  c <> "ic50_M" -> c <> "pIC50" -> cell_at c (pic50_row f r) = cell_at c r.
Proof.
  intros H1 H2. unfold pic50_row, pic50_scratch_row.
  rewrite cell_at_row_del_ne by done. by rewrite !cell_at_row_set_ne.
Qed.

Lemma lipinski_inputs_kept_by_pic50_row c r :
  c ∈ lipinski_inputs -> cell_at c (pic50_row f r) = cell_at c r.
Proof.
  intros Hc. apply cell_at_pic50_row; intros ->; revert Hc; solve_notin.
Qed.

Lemma molar_of_ext r r' : cell_at "ic50" r' = cell_at "ic50" r -> molar_of r' = molar_of r.
Proof. intros H. unfold molar_of, float_at. by rewrite H. Qed.

Lemma pic50_of_ext r r' :
  cell_at "ic50" r' = cell_at "ic50" r -> pic50_of f r' = pic50_of f r.
Proof. intros H. unfold pic50_of. by rewrite (molar_of_ext r r'). Qed.

Lemma pic50_row_idem r : pic50_row f (pic50_row f r) = pic50_row f r.
Proof.
  unfold pic50_row at 1, pic50_scratch_row.
  rewrite (pic50_of_ext r), (molar_of_ext r) by (by apply cell_at_pic50_row).
  unfold pic50_row, pic50_scratch_row. row_eq.
Qed.

Lemma rows_commute r : lipinski_row (pic50_row f r) = pic50_row f (lipinski_row r).
Proof.
  unfold lipinski_row at 1.
  rewrite (violations_of_ext r (pic50_row f r))
    by (intros c Hc; by apply lipinski_inputs_kept_by_pic50_row).
  unfold pic50_row at 2, pic50_scratch_row.
  rewrite (pic50_of_ext r), (molar_of_ext r) by (by apply cell_at_lipinski_row).
  unfold pic50_row, pic50_scratch_row, lipinski_row. row_eq.
Qed.

Lemma lipinski_kept_of_pic50_table df :
  lipinski_kept (pic50_table f df) = map (pic50_row f) (lipinski_kept df).
Proof.
  unfold lipinski_kept. simpl. rewrite filter_map_comm. f_equal.
  apply List.filter_ext. intros r.
  apply notna_row_ext. intros c Hc. by apply lipinski_inputs_kept_by_pic50_row.
Qed.

Lemma rows_of_both_orders df :
  rows (pic50_table f (lipinski_table df)) = rows (lipinski_table (pic50_table f df)).
Proof.
  simpl. rewrite lipinski_kept_of_pic50_table, !map_map.
  apply map_ext. intros r. symmetry. apply rows_commute.
Qed.

Lemma elem_of_pic50_columns c df :
  c ∈ columns (pic50_table f df) <->
  (c = "pIC50" \/ c ∈ columns df) /\ c <> "ic50_M".
Proof.
  simpl. rewrite elem_of_lfilter, !elem_of_add_column, negb_true_iff.
  rewrite bool_decide_eq_false, list_elem_of_singleton.
  naive_solver.
Qed.

Lemma elem_of_lipinski_columns c df :
  c ∈ columns (lipinski_table df) <->
  c = "is_drug_like" \/ c = "lipinski_violations" \/ c ∈ columns df.
Proof. simpl. by rewrite !elem_of_add_column. Qed.

Lemma columns_of_both_orders df c :
  c ∈ columns (pic50_table f (lipinski_table df)) <->
  c ∈ columns (lipinski_table (pic50_table f df)).
Proof.
  rewrite elem_of_pic50_columns, !elem_of_lipinski_columns, elem_of_pic50_columns.
  naive_solver.
Qed.

Lemma pic50_table_ready df :
  pic50_ready df = true -> pic50_ready (pic50_table f df) = true.
Proof.
  unfold pic50_ready. rewrite !numeric_column_spec. intros [Hin Hnum]. split.
  - apply elem_of_pic50_columns. split; [by right|done].
  - simpl. apply Forall_fmap. eapply Forall_impl; [exact Hnum|].
    intros r Hr. simpl.
    by rewrite (numeric_at_ext "ic50" r) by by apply cell_at_pic50_row.
Qed.

Lemma pic50_table_idem df : pic50_table f (pic50_table f df) = pic50_table f df.
Proof.
  unfold pic50_table at 1. unfold pic50_table at 3. f_equal.
  - set (keep := fun c : string => negb (bool_decide (c ∈ ["ic50_M"]))).
    set (D := columns (pic50_table f df)).
    assert (HD : D = List.filter keep (columns (pic50_scratch f df))) by done.
    assert (HM : "ic50_M" ∉ D).
    { intros [_ H]%elem_of_pic50_columns. done. }
    assert (HP : "pIC50" ∈ D).
    { apply elem_of_pic50_columns. split; [by left|done]. }
    change (columns (pic50_scratch f (pic50_table f df)))
      with (add_column "pIC50" (add_column "ic50_M" D)).
    assert (E1 : add_column "ic50_M" D = D ++ ["ic50_M"]).
    { unfold add_column. by rewrite bool_decide_eq_false_2. }
    rewrite E1, add_column_present by (apply elem_of_app; by left).
    rewrite List.filter_app. simpl.
    rewrite HD at 1. rewrite filter_idem, <- HD. apply app_nil_r.
  - simpl. rewrite map_map. apply map_ext. intros r. apply pic50_row_idem.
Qed.

Lemma on_table_lipinski df a :
  on_table calculate_lipinski df = Ok a <->
  lipinski_ready df = true /\ a = lipinski_table df.
Proof.
  unfold on_table. split.
  - intros H. destruct (calculate_lipinski 0%nat [df]) as [[l|e] h] eqn:E; [|done].
    pose proof (calculate_lipinski_inv [df] 0%nat df l h eq_refl E) as Hready.
    rewrite (calculate_lipinski_run [df] 0%nat df eq_refl Hready) in E.
    injection E as <- <-. simpl in H. by injection H as <-.
  - intros [Hready ->].
    by rewrite (calculate_lipinski_run [df] 0%nat df eq_refl Hready).
Qed.

Lemma on_table_pic50 df a :
  on_table (calculate_pic50 f) df = Ok a <->
  pic50_ready df = true /\ a = pic50_table f df.
Proof.
  unfold on_table. split.
  - intros H. destruct (calculate_pic50 f 0%nat [df]) as [[l|e] h] eqn:E; [|done].
    pose proof (calculate_pic50_inv f [df] 0%nat df l h eq_refl E) as Hready.
    rewrite (calculate_pic50_run f [df] 0%nat df eq_refl Hready) in E.
    injection E as <- <-. simpl in H. by injection H as <-.
  - intros [Hready ->].
    by rewrite (calculate_pic50_run f [df] 0%nat df eq_refl Hready).
Qed.

Lemma on_table_lipinski_then_pic50 df a :
  on_table (lipinski_then_pic50 f) df = Ok a ->
  a = pic50_table f (lipinski_table df).
Proof.
  unfold on_table, lipinski_then_pic50. rewrite M_bind_run.
  destruct (calculate_lipinski 0%nat [df]) as [[l|e] h] eqn:E; [|done].
  pose proof (calculate_lipinski_inv [df] 0%nat df l h eq_refl E) as Hready.
  rewrite (calculate_lipinski_run [df] 0%nat df eq_refl Hready) in E.
  injection E as <- <-. simpl.
  destruct (calculate_pic50 f 0%nat [lipinski_table df]) as [[l|e] h] eqn:E;
    [|done].
  pose proof (calculate_pic50_inv f [lipinski_table df] 0%nat (lipinski_table df)
                l h eq_refl E) as Hready'.
  rewrite (calculate_pic50_run f [lipinski_table df] 0%nat (lipinski_table df)
             eq_refl Hready') in E.
  injection E as <- <-. simpl. by intros [= <-].
Qed.

Lemma on_table_pic50_then_lipinski df a :
  on_table (pic50_then_lipinski f) df = Ok a ->
  a = lipinski_table (pic50_table f df).
Proof.
  unfold on_table, pic50_then_lipinski. rewrite M_bind_run.
  destruct (calculate_pic50 f 0%nat [df]) as [[l|e] h] eqn:E; [|done].
  pose proof (calculate_pic50_inv f [df] 0%nat df l h eq_refl E) as Hready.
  rewrite (calculate_pic50_run f [df] 0%nat df eq_refl Hready) in E.
  injection E as <- <-. simpl.
  set (h := [pic50_scratch f df; pic50_table f df]).
  destruct (calculate_lipinski 1%nat h) as [[l|e] h'] eqn:E; [|done].
  pose proof (calculate_lipinski_inv h 1%nat (pic50_table f df) l h' eq_refl E)
    as Hready'.
  rewrite (calculate_lipinski_run h 1%nat (pic50_table f df) eq_refl Hready') in E.
  injection E as <- <-. simpl. by intros [= <-].
Qed.

(** C6, amended.  Run on a table of its own, [calculate_lipinski] followed
    by [calculate_pic50] and the two in the opposite order return tables
    with the same rows (the same cells in every row) and the same set of
    columns; the order of the derived columns may differ.  Running either
    transform on its own result returns that result. *)
Theorem transforms_commute_up_to_column_order :
  (forall df a b,
     on_table (lipinski_then_pic50 f) df = Ok a ->
     on_table (pic50_then_lipinski f) df = Ok b ->
     rows a = rows b /\ (forall c, c ∈ columns a <-> c ∈ columns b)) /\
  (forall df a,
     on_table calculate_lipinski df = Ok a ->
     on_table calculate_lipinski a = Ok a) /\
  (forall df a,
     on_table (calculate_pic50 f) df = Ok a ->
     on_table (calculate_pic50 f) a = Ok a).
Proof.
  split; [|split].
  - intros df a b ->%on_table_lipinski_then_pic50 ->%on_table_pic50_then_lipinski.
    split; [apply rows_of_both_orders|apply columns_of_both_orders].
  - intros df a [Hready ->]%on_table_lipinski. apply on_table_lipinski.
    split; [by apply lipinski_table_ready|]. symmetry. apply lipinski_table_idem.
  - intros df a [Hready ->]%on_table_pic50. apply on_table_pic50.
    split; [by apply pic50_table_ready|]. symmetry. apply pic50_table_idem.
Qed.

End WithLog10.

Lemma sample_lipinski_then_pic50 :
  on_table (lipinski_then_pic50 log10_series) sample_compounds
  = Ok (pic50_table log10_series (lipinski_table sample_compounds)).
Proof.
  unfold on_table, lipinski_then_pic50. rewrite M_bind_run.
  rewrite (calculate_lipinski_run [sample_compounds] 0%nat sample_compounds eq_refl)
    by (vm_compute; reflexivity).
  cbv beta iota.
  change (<[0%nat := lipinski_table sample_compounds]> [sample_compounds])
    with [lipinski_table sample_compounds].
  rewrite (calculate_pic50_run log10_series [lipinski_table sample_compounds] 0%nat
             (lipinski_table sample_compounds) eq_refl)
    by (vm_compute; reflexivity).
  reflexivity.
Qed.

Lemma sample_pic50_then_lipinski :
  on_table (pic50_then_lipinski log10_series) sample_compounds
  = Ok (lipinski_table (pic50_table log10_series sample_compounds)).
Proof.
  unfold on_table, pic50_then_lipinski. rewrite M_bind_run.
  rewrite (calculate_pic50_run log10_series [sample_compounds] 0%nat
             sample_compounds eq_refl)
    by (vm_compute; reflexivity).
  cbv beta iota.
  change (<[0%nat := pic50_scratch log10_series sample_compounds]> [sample_compounds]
          ++ [pic50_table log10_series sample_compounds])
    with [pic50_scratch log10_series sample_compounds;
          pic50_table log10_series sample_compounds].
  change (length [sample_compounds]) with 1%nat.
  rewrite (calculate_lipinski_run
             [pic50_scratch log10_series sample_compounds;
              pic50_table log10_series sample_compounds] 1%nat
             (pic50_table log10_series sample_compounds) eq_refl)
    by (vm_compute; reflexivity).
  reflexivity.
Qed.

(** On the test fixture both orders give the same rows, and a second
    [calculate_lipinski] leaves its own result as it is. *)
Lemma both_orders_on_sample_compounds :
  rows (pic50_table log10_series (lipinski_table sample_compounds))
  = rows (lipinski_table (pic50_table log10_series sample_compounds)) /\
  on_table calculate_lipinski (lipinski_table sample_compounds)
  = Ok (lipinski_table sample_compounds).
Proof.
  destruct (transforms_commute_up_to_column_order log10_series)
    as (Hcomm & Hlip & _).
  split.
  - apply (Hcomm sample_compounds).
    + apply sample_lipinski_then_pic50.
    + apply sample_pic50_then_lipinski.
  - apply (Hlip sample_compounds). apply on_table_lipinski.
    split; [vm_compute; reflexivity|reflexivity].
Defined.

(** C6 as stated fails: the two orders leave the derived columns in a
    different order, so the two tables are not the same. *)
Lemma column_order_follows_transform_order :
  columns <$> on_table (lipinski_then_pic50 log10_series) sample_compounds
  = Ok (sample_columns ++ ["lipinski_violations"; "is_drug_like"; "pIC50"]) /\
  columns <$> on_table (pic50_then_lipinski log10_series) sample_compounds
  = Ok (sample_columns ++ ["pIC50"; "lipinski_violations"; "is_drug_like"]) /\
  on_table (lipinski_then_pic50 log10_series) sample_compounds
  <> on_table (pic50_then_lipinski log10_series) sample_compounds.
Proof.
  assert (H1 : columns <$> on_table (lipinski_then_pic50 log10_series) sample_compounds
               = Ok (sample_columns ++ ["lipinski_violations"; "is_drug_like"; "pIC50"]))
    by (rewrite sample_lipinski_then_pic50; vm_compute; reflexivity).
  assert (H2 : columns <$> on_table (pic50_then_lipinski log10_series) sample_compounds
               = Ok (sample_columns ++ ["pIC50"; "lipinski_violations"; "is_drug_like"]))
    by (rewrite sample_pic50_then_lipinski; vm_compute; reflexivity).
  split; [exact H1|]. split; [exact H2|].
  intros E. rewrite E, H2 in H1. vm_compute in H1. discriminate H1.
Qed.

End OrderClaims.

(** ** How the transforms fail *)

Module FailureFacts.
Import Pandas Analysis App Reading FloatFacts PandasFacts AnalysisFacts AppFacts.

(** An operation on the numbers of a column raises [TypeError] when a cell
    of the column is not a number. *)
Lemma column_op_raise {B} (g : float -> B) c rs :
  forallb (numeric_at c) rs = false ->
  mapR (fun v => x ← to_float v; Ok (g x)) (map (cell_at c) rs) = Raise TypeError.
Proof.
  induction rs as [|r rs IH]; simpl; [done|].
  unfold numeric_at at 1. destruct (cell_at c r) eqn:E; simpl; try done;
    intros H; rewrite (IH H); reflexivity.
Qed.

Lemma numeric_column_false df c rs :
  c ∈ columns df -> numeric_column df c rs = false ->
  forallb (numeric_at c) rs = false.
Proof.
  intros Hc. unfold numeric_column, has_column.
  by rewrite bool_decide_eq_true_2.
Qed.

Lemma forallb_false_exists {A} (p : A -> bool) l :
  forallb p l = false -> exists x, x ∈ l /\ p x = false.
Proof.
  induction l as [|x l IH]; simpl; [done|].
  destruct (p x) eqn:E; simpl.
  - intros (y & Hy & Hp)%IH. exists y. split; [by right|done].
  - intros _. exists x. split; [by left|done].
Qed.

Lemma missing_column_Some df cs c :
  missing_column df cs = Some c -> c ∈ cs /\ c ∉ columns df.
Proof.
  unfold missing_column. intros [Hin Hc]%List.find_some.
  split; [by apply list_elem_of_In|].
  apply negb_true_iff in Hc. unfold has_column in Hc.
  by apply bool_decide_eq_false in Hc.
Qed.

Lemma lipinski_not_ready df :
  lipinski_ready df = false ->
  (forall c, c ∈ lipinski_inputs -> c ∈ columns df) ->
  exists c r, c ∈ lipinski_inputs /\ r ∈ lipinski_kept df /\ numeric_at c r = false.
Proof.
  intros Hready Hin. unfold lipinski_ready in Hready.
  apply forallb_false_exists in Hready as (c & Hc & Hnum).
  apply numeric_column_false in Hnum; [|by apply Hin].
  apply forallb_false_exists in Hnum as (r & Hr & Hr').
  by exists c, r.
Qed.

Ltac lipinski_step Hin Hl1 :=
  rewrite M_bind_run, (df_getitem_run _ _ _ Hl1), getitem_Ok
    by (apply Hin; unfold lipinski_inputs; solve_in);
  rewrite M_bind_run, lift_run; unfold gt; simpl rows;
  match goal with
  | |- context [mapR _ (map (cell_at ?c) ?rs)] =>
      let E := fresh "E" in
      destruct (forallb (numeric_at c) rs) eqn:E;
      [ rewrite column_op by (by apply forallb_Forall)
      | by rewrite column_op_raise ]
  end.

(** What [calculate_lipinski] leaves behind when it raises. *)
Lemma calculate_lipinski_raise h l df :
  h !! l = Some df -> lipinski_ready df = false ->
  calculate_lipinski l h =
  match missing_column df lipinski_inputs with
  | Some c => (Raise (KeyError c), h)
  | None => (Raise TypeError, <[l := mkDF (columns df) (lipinski_kept df)]> h)
  end.
Proof.
  intros Hl Hready. unfold calculate_lipinski.
  rewrite M_bind_run, (df_dropna_inplace_run h l df Hl).
  unfold dropna. fold lipinski_inputs.
  destruct (missing_column df lipinski_inputs) eqn:Hmiss; [done|].
  fold (lipinski_kept df).
  set (df1 := mkDF (columns df) (lipinski_kept df)).
  pose proof (lookup_written h l df Hl df1) as Hl1.
  set (h1 := <[l:=df1]> h) in *.
  pose proof (proj1 (missing_column_None df lipinski_inputs) Hmiss) as Hin.
  unfold lipinski_ready in Hready. simpl in Hready.
  unfold numeric_column, has_column in Hready.
  rewrite !bool_decide_eq_true_2 in Hready
    by (apply Hin; unfold lipinski_inputs; solve_in).
  simpl in Hready. rewrite andb_true_r in Hready.
  repeat lipinski_step Hin Hl1.
  rewrite !andb_true_l in Hready. done.
Qed.

Section WithLog10.
Variable f : float -> float.

(** [calculate_pic50] raises before it has written anything. *)
Lemma calculate_pic50_raise h l df :
  h !! l = Some df -> pic50_ready df = false ->
  calculate_pic50 f l h =
  (Raise (if has_column df "ic50" then TypeError else KeyError "ic50"), h).
Proof.
  intros Hl Hready. unfold calculate_pic50.
  rewrite M_bind_run, (df_getitem_run h l df Hl). unfold getitem.
  unfold pic50_ready, numeric_column in Hready.
  destruct (has_column df "ic50"); [|done]. simpl in Hready.
  rewrite M_bind_run, lift_run. unfold mul. by rewrite column_op_raise.
Qed.

(** The three ways the load handler ends.  The tables that were in the
    store stay as they are in each of them. *)
Lemma load_handler_outcome h l df :
  h !! l = Some df ->
  load_handler f l h =
  if lipinski_ready df then
    if pic50_ready (lipinski_table df) then
      (Ok (length h + 2)%nat,
       h ++ [lipinski_table df; pic50_scratch f (lipinski_table df); loaded f df])
    else
      (Raise (if has_column (lipinski_table df) "ic50" then TypeError
              else KeyError "ic50"),
       h ++ [lipinski_table df; lipinski_table df])
  else
    match missing_column df lipinski_inputs with
    | Some c => (Raise (KeyError c), h ++ [df])
    | None => (Raise TypeError, h ++ [mkDF (columns df) (lipinski_kept df)])
    end.
Proof.
  intros Hl. unfold load_handler.
  rewrite M_bind_run, (df_copy_run h l df Hl).
  assert (H1 : (h ++ [df]) !! length h = Some df) by by apply list_lookup_middle.
  assert (E : forall d, <[length h := d]> (h ++ [df]) = h ++ [d]).
  { intros d. rewrite insert_app_r_alt by lia. by rewrite Nat.sub_diag. }
  rewrite M_bind_run.
  destruct (lipinski_ready df) eqn:HL.
  - rewrite (calculate_lipinski_run _ _ df H1 HL), E.
    assert (H2 : (h ++ [lipinski_table df]) !! length h = Some (lipinski_table df))
      by by apply list_lookup_middle.
    rewrite M_bind_run, (df_copy_run _ _ _ H2).
    set (h3 := (h ++ [lipinski_table df]) ++ [lipinski_table df]).
    assert (H3 : h3 !! length (h ++ [lipinski_table df]) = Some (lipinski_table df))
      by by apply list_lookup_middle.
    destruct (pic50_ready (lipinski_table df)) eqn:HP.
    + rewrite (calculate_pic50_run f _ _ _ H3 HP).
      unfold h3. rewrite insert_app_r_alt by lia. rewrite Nat.sub_diag. simpl.
      rewrite !length_app. simpl. rewrite <- !app_assoc. simpl.
      f_equal. f_equal. lia.
    + rewrite (calculate_pic50_raise _ _ _ H3 HP). unfold h3.
      by rewrite <- app_assoc.
  - rewrite (calculate_lipinski_raise _ _ df H1 HL).
    destruct (missing_column df lipinski_inputs); [done|]. by rewrite E.
Qed.

End WithLog10.

End FailureFacts.

(** ** Further properties of the code *)

Module FailureProperties.
Import Pandas Analysis App Reading FilterReading Fixtures Examples.
Import FloatFacts PandasFacts AnalysisFacts AppFacts FailureFacts.

(** X1.  When [calculate_lipinski] raises, it does so in one of two ways.
    Either one of the columns [mw], [logp], [hbd], [hba] does not exist:
    the exception is [KeyError] and the table it was given is as it was.
    Or the four columns exist and a row without missing values holds a
    cell that is not a number: the exception is [TypeError], and the
    table it was given has by then lost its rows with a missing value
    while no column has been added to it. *)
Theorem lipinski_raises_before_or_after_dropping_rows h l df :
  h !! l = Some df -> lipinski_ready df = false ->
  (exists c, c ∈ lipinski_inputs /\ (c ∉ columns df) /\
     calculate_lipinski l h = (Raise (KeyError c), h)) \/
  ((forall c, c ∈ lipinski_inputs -> c ∈ columns df) /\
   (exists c r, c ∈ lipinski_inputs /\ r ∈ rows df /\
      notna_row lipinski_inputs r = true /\ is_ok (to_float (cell_at c r)) = false) /\
   calculate_lipinski l h =
   (Raise TypeError,
    <[l := mkDF (columns df) (List.filter (notna_row lipinski_inputs) (rows df))]> h)).
Proof.
  intros Hl Hready. rewrite (calculate_lipinski_raise h l df Hl Hready).
  destruct (missing_column df lipinski_inputs) as [c|] eqn:Hmiss.
  - left. exists c. apply missing_column_Some in Hmiss as [? ?]. done.
  - right. pose proof (proj1 (missing_column_None _ _) Hmiss) as Hin.
    split; [done|]. split; [|done].
    destruct (lipinski_not_ready df Hready Hin) as (c & r & Hc & Hr & Hnum).
    apply elem_of_lfilter in Hr as [Hr Hkept]. by exists c, r.
Qed.

(** On a file with a text cell the second case applies: of the three rows
    two are left in the table. *)
Lemma lipinski_on_text_in_mw :
  (exists c, c ∈ lipinski_inputs /\ (c ∉ columns text_in_mw) /\
     calculate_lipinski 0%nat [text_in_mw] = (Raise (KeyError c), [text_in_mw])) \/
  ((forall c, c ∈ lipinski_inputs -> c ∈ columns text_in_mw) /\
   (exists c r, c ∈ lipinski_inputs /\ r ∈ rows text_in_mw /\
      notna_row lipinski_inputs r = true /\ is_ok (to_float (cell_at c r)) = false) /\
   calculate_lipinski 0%nat [text_in_mw] =
   (Raise TypeError,
    <[0%nat := mkDF (columns text_in_mw)
                 (List.filter (notna_row lipinski_inputs) (rows text_in_mw))]>
      [text_in_mw])).
Proof.
  apply (lipinski_raises_before_or_after_dropping_rows [text_in_mw] 0%nat text_in_mw).
  - reflexivity.
  - vm_compute. reflexivity.
Defined.

Section WithLog10.
Variable f : float -> float.



End WithLog10.



End FailureProperties.

(** ** Facts about a loaded table *)

Module LoadedFacts.
Import Pandas Analysis App Reading FilterReading SessionReading.
Import FloatFacts PandasFacts AnalysisFacts AppFacts.

Lemma filter_id_map {A} (p : A -> bool) l :
  List.filter id (map p l) = map p (List.filter p l).
Proof.
  induction l as [|a l IH]; [done|]. cbn [map List.filter].
  unfold id at 1. destruct (p a) eqn:E; cbn [map]; by rewrite ?E, IH.
Qed.

Lemma overview_run df :
  overview_ready df = true -> overview df = Ok (overview_result df).
Proof.
  unfold overview_ready, numeric_column. rewrite !andb_true_iff.
  intros [[Ht [Hd Hflag]] [Hp Hnum]].
  unfold overview. rewrite !getitem_has by done. simpl.
  unfold sum_bool. rewrite as_mask_rows by done. simpl.
  rewrite numeric_rows by done. simpl.
  rewrite filter_id_map, length_map. reflexivity.
Qed.

Lemma overview_inv df o : overview df = Ok o -> overview_ready df = true.
Proof.
  unfold overview. intros H.
  inv_bind H as t Ht. inv_bind H as d Hd. inv_bind H as n Hn.
  inv_bind H as p Hp. inv_bind H as v Hv.
  unfold overview_ready, numeric_column.
  rewrite (getitem_has_inv _ _ _ Ht), (getitem_has_inv _ _ _ Hd),
    (getitem_has_inv _ _ _ Hp). simpl.
  apply getitem_inv in Hd as [_ ->]. apply getitem_inv in Hp as [_ ->].
  unfold sum_bool in Hn. inv_bind Hn as m Hm.
  rewrite (as_mask_rows_inv _ _ Hm). simpl.
  by rewrite (numeric_rows_inv _ _ _ Hv).
Qed.



Section WithLog10.
Variable f : float -> float.

Lemma elem_of_loaded_rows df r :
  r ∈ rows (loaded f df) <->
  exists r0, r0 ∈ lipinski_kept df /\ r = pic50_row f (lipinski_row r0).
Proof.
  simpl. rewrite map_map, list_elem_of_fmap. naive_solver.
Qed.

Lemma cell_at_loaded_row c r :
  c <> "ic50_M" -> c <> "pIC50" -> c <> "lipinski_violations" -> c <> "is_drug_like" ->
  cell_at c (pic50_row f (lipinski_row r)) = cell_at c r.
Proof.
  intros. unfold pic50_row, pic50_scratch_row, lipinski_row.
  rewrite cell_at_row_del_ne by done. by rewrite !cell_at_row_set_ne.
Qed.

Lemma flag_of_loaded_row r :
  cell_at "is_drug_like" (pic50_row f (lipinski_row r)) = CBool (violations_of r =? 0).
Proof.
  unfold pic50_row, pic50_scratch_row, lipinski_row.
  rewrite cell_at_row_del_ne by done. rewrite !cell_at_row_set_ne by done.
  apply cell_at_row_set.
Qed.

Lemma violations_of_loaded_row r :
  cell_at "lipinski_violations" (pic50_row f (lipinski_row r)) = CInt (violations_of r).
Proof.
  unfold pic50_row, pic50_scratch_row, lipinski_row.
  rewrite cell_at_row_del_ne by done. rewrite !cell_at_row_set_ne by done.
  apply cell_at_row_set.
Qed.


Lemma elem_of_loaded_columns df c :
  c ∈ columns (loaded f df) <->
  (c = "pIC50" \/ c = "is_drug_like" \/ c = "lipinski_violations" \/ c ∈ columns df) /\
  c <> "ic50_M".
Proof.
  simpl. rewrite elem_of_lfilter, !elem_of_add_column, negb_true_iff.
  rewrite bool_decide_eq_false, list_elem_of_singleton.
  naive_solver.
Qed.



End WithLog10.

End LoadedFacts.

(** ** Loading a table into the session *)

Module SessionProperties.
Import Pandas Analysis App Reading FilterReading SessionReading Session.
Import Fixtures Examples.
Import FloatFacts PandasFacts AnalysisFacts AppFacts FailureFacts LoadedFacts.

Lemma elem_of_missing_cols t c :
  c ∈ missing_cols t <-> c ∈ required_cols /\ c ∉ columns t.
Proof.
  unfold missing_cols. rewrite elem_of_lfilter, negb_true_iff.
  unfold has_column. by rewrite bool_decide_eq_false.
Qed.

Lemma missing_cols_nil t :
  missing_cols t = [] -> forall c, c ∈ required_cols -> c ∈ columns t.
Proof.
  intros H c Hc. destruct (decide (c ∈ columns t)) as [|Hn]; [done|].
  assert (Hm : c ∈ missing_cols t) by by apply elem_of_missing_cols.
  rewrite H in Hm. by apply elem_of_nil in Hm.
Qed.

Lemma sublist_filter {A} (p : A -> bool) (l : list A) : List.filter p l `sublist_of` l.
Proof.
  induction l as [|a l IH]; simpl; [constructor|].
  destruct (p a); by constructor.
Qed.

Lemma validated_has_inputs t :
  missing_cols t = [] -> missing_column t lipinski_inputs = None.
Proof.
  intros H. apply missing_column_None. intros c Hc. apply (missing_cols_nil t H).
  unfold lipinski_inputs in Hc. unfold required_cols.
  repeat (apply elem_of_cons in Hc as [->|Hc]; [solve_in|]).
  by apply elem_of_nil in Hc.
Qed.

Section WithLog10.
Variable f : float -> float.

Lemma upload_handler_run t h :
  upload_handler f t h =
  match missing_cols t with
  | [] =>
      match load_handler f (length h) (h ++ [t]) with
      | (Ok l, h') => (Ok (mkSession true (Some (Some l)), [Success]), h')
      | (Raise e, h') => (Raise e, h')
      end
  | missing =>
      (Ok (mkSession false (Some (Some (length h))), [Error missing; FormatHint]),
       h ++ [t])
  end.
Proof.
  unfold upload_handler. rewrite M_bind_run. unfold new at 1.
  rewrite M_bind_run. unfold read at 1. rewrite list_lookup_middle by done.
  destruct (missing_cols t); [|done].
  rewrite M_bind_run. by destruct (load_handler _ _ _) as [[]].
Qed.

(** X4.  An uploaded file that lacks one of the nine required columns is
    not transformed and not shown: the handler reports the required names
    the file does not have, in the order of the list of required columns,
    sets [data_loaded] to [False], and the store holds nothing but the
    table as read. *)
Theorem upload_with_missing_columns_is_refused t h :
  missing_cols t <> [] ->
  exists s,
    upload_handler f t h = (Ok (s, [Error (missing_cols t); FormatHint]), h ++ [t]) /\
    data_loaded s = false /\
    shown s = None /\
    (forall c, c ∈ missing_cols t <-> c ∈ required_cols /\ c ∉ columns t) /\
    missing_cols t `sublist_of` required_cols.
Proof.
  intros Hm. rewrite upload_handler_run.
  destruct (missing_cols t) as [|c cs] eqn:E; [done|]. rewrite <- E.
  eexists. split; [done|]. split; [done|]. split; [done|].
  split; [apply elem_of_missing_cols|apply sublist_filter].
Qed.


(** X6.  An uploaded file that has the nine required columns never makes
    the handler raise [KeyError]: when it raises, the exception is
    [TypeError], and some cell of [mw], [logp], [hbd], [hba] or [ic50] is
    not a number. *)
Theorem validated_upload_raises_only_type_error t h :
  missing_cols t = [] -> handler_ready t = false ->
  (exists h', upload_handler f t h = (Raise TypeError, h')) /\
  exists c r, c ∈ ["mw"; "logp"; "hbd"; "hba"; "ic50"] /\ r ∈ rows t /\
              is_ok (to_float (cell_at c r)) = false.
Proof.
  intros Hm Hready. rewrite upload_handler_run, Hm.
  assert (Hl : (h ++ [t]) !! length h = Some t) by by apply list_lookup_middle.
  rewrite (load_handler_outcome f _ _ t Hl).
  pose proof (validated_has_inputs t Hm) as Hmiss.
  pose proof (proj1 (missing_column_None _ _) Hmiss) as Hin.
  unfold handler_ready in Hready.
  destruct (lipinski_ready t) eqn:HL; simpl in Hready.
  - rewrite Hready.
    assert (Hic : "ic50" ∈ columns (lipinski_table t)).
    { simpl. rewrite !elem_of_add_column. right. right.
      apply (missing_cols_nil t Hm). unfold required_cols. solve_in. }
    rewrite (proj2 (has_column_true _ _) Hic). split; [by eexists|].
    apply numeric_column_false in Hready; [|done].
    apply forallb_false_exists in Hready as (r & Hr & Hnum).
    simpl in Hr. apply list_elem_of_fmap in Hr as (r0 & -> & Hr0).
    apply elem_of_lfilter in Hr0 as [Hr0 _].
    exists "ic50", r0. split; [solve_in|]. split; [done|].
    unfold numeric_at, lipinski_row in Hnum.
    by rewrite !cell_at_row_set_ne in Hnum.
  - rewrite Hmiss. split; [by eexists|].
    destruct (lipinski_not_ready t HL Hin) as (c & r & Hc & Hr & Hnum).
    apply elem_of_lfilter in Hr as [Hr _]. exists c, r.
    split; [|done]. unfold lipinski_inputs in Hc.
    repeat (apply elem_of_cons in Hc as [->|Hc]; [solve_in|]).
    by apply elem_of_nil in Hc.
Qed.


End WithLog10.

(** A file without [logp] and [psa] is refused with these two names. *)
Lemma upload_of_no_logp :
  exists s,
    upload_handler log10_series no_logp []
    = (Ok (s, [Error (missing_cols no_logp); FormatHint]), [] ++ [no_logp]) /\
    data_loaded s = false /\
    shown s = None /\
    (forall c, c ∈ missing_cols no_logp <-> c ∈ required_cols /\ c ∉ columns no_logp) /\
    missing_cols no_logp `sublist_of` required_cols.
Proof.
  apply (upload_with_missing_columns_is_refused log10_series no_logp []).
  vm_compute. discriminate.
Defined.


(** A file with a text IC50 makes the handler raise [TypeError]. *)
Lemma upload_of_text_in_ic50 :
  (exists h', upload_handler log10_series text_in_ic50 [] = (Raise TypeError, h')) /\
  exists c r, c ∈ ["mw"; "logp"; "hbd"; "hba"; "ic50"] /\ r ∈ rows text_in_ic50 /\
              is_ok (to_float (cell_at c r)) = false.
Proof.
  apply (validated_upload_raises_only_type_error log10_series text_in_ic50 []).
  - vm_compute. reflexivity.
  - vm_compute. reflexivity.
Defined.


End SessionProperties.

(** ** Equality of cells, distinct values *)

Module CellFacts.
Import Pandas FloatFacts PandasFacts.

Local Open Scope float_scope.



Lemma eqb_refl x : is_nan x = false -> (x =? x) = true.
Proof.
  intros H%is_nan_false. rewrite FloatAxioms.eqb_spec. unfold SFeqb.
  by rewrite SFcompare_refl.
Qed.


Local Close Scope float_scope.

Lemma filter_all {A} (p : A -> bool) l :
  (forall a, a ∈ l -> p a = true) -> List.filter p l = l.
Proof.
  induction l as [|a l IH]; intros H; simpl; [done|].
  rewrite (H a) by (by left). rewrite IH; [done|]. intros b Hb. apply H. by right.
Qed.

Lemma filter_none {A} (p : A -> bool) l :
  (forall a, a ∈ l -> p a = false) -> List.filter p l = [].
Proof.
  induction l as [|a l IH]; intros H; simpl; [done|].
  rewrite (H a) by (by left). apply IH. intros b Hb. apply H. by right.
Qed.






Lemma length_unique (s : Series) : (length (unique s) <= length s)%nat.
Proof.
  induction s as [|a s IH]; simpl; [done|].
  pose proof (List.filter_length_le (fun d => negb (cell_eqb a d)) (unique s)). lia.
Qed.

End CellFacts.

(** ** The filter section and the overview *)

Module ViewProperties.
Import Pandas Analysis App Reading FilterReading SessionReading Session.
Import Fixtures Examples.
Import FloatFacts PandasFacts AnalysisFacts AppFacts FailureFacts LoadedFacts CellFacts.










(** X9.  With no target selected the page shows no compound: the target
    filter keeps no row, the sliders for molecular weight and logP are
    given NaN as both bounds, the pIC50 slider is not shown, and
    [filtered_df.empty] holds, so the warning takes the place of the
    plots. *)
Theorem no_target_selected_shows_nothing df w run :
  filter_compounds df w = Ok run ->
  selected_targets w = [] ->
  rows (narrowed_df run) = [] /\
  rows (filtered_df run) = [] /\
  mw_bounds run = (nan, nan) /\
  logp_bounds run = (nan, nan) /\
  pic50_bounds run = None /\
  empty (filtered_df run) = true.
Proof.
  intros Hrun. pose proof (filter_compounds_inv _ _ _ Hrun) as Hready.
  rewrite (filter_compounds_run _ _ Hready) in Hrun. injection Hrun as <-.
  simpl. intros Ht.
  assert (Hpre : preselected_rows df w = []).
  { unfold preselected_rows. apply filter_none. intros r _.
    unfold preselected, target_allowed. by rewrite Ht. }
  unfold empty, filtered_rows, narrowed_rows, pic50_active. rewrite Hpre. simpl.
  rewrite andb_false_r. repeat split; try done. by destruct (columns df).
Qed.

Section WithLog10.
Variable f : float -> float.

(** X10.  On a loaded table, with the checkbox ['Drug-Like' only]
    checked, every compound shown comes from a row of the file none of
    whose four values exceeds its limit: [mw > 500], [logp > 5],
    [hbd > 5] and [hba > 10] are all false, and its
    [lipinski_violations] is 0. *)
Theorem drug_like_only_shows_compounds_within_limits df w run :
  lipinski_ready df = true ->
  filter_compounds (loaded f df) w = Ok run ->
  drug_like_only w = true ->
  forall r, r ∈ rows (filtered_df run) ->
    exists r0 mw logp hbd hba,
      r0 ∈ rows df /\ r = pic50_row f (lipinski_row r0) /\
      to_float (cell_at "mw" r0) = Ok mw /\
      to_float (cell_at "logp" r0) = Ok logp /\
      to_float (cell_at "hbd" r0) = Ok hbd /\
      to_float (cell_at "hba" r0) = Ok hba /\
      (500 <? mw)%float = false /\ (5 <? logp)%float = false /\
      (5 <? hbd)%float = false /\ (10 <? hba)%float = false /\
      cell_at "lipinski_violations" r = CInt 0 /\
      cell_at "is_drug_like" r = CBool true.
Proof.
  intros HL Hrun Hd r Hr.
  pose proof (filter_compounds_inv _ _ _ Hrun) as Hready.
  rewrite (filter_compounds_run _ _ Hready) in Hrun. injection Hrun as <-.
  simpl in Hr. unfold filtered_rows, narrowed_rows, preselected_rows in Hr.
  rewrite !elem_of_lfilter in Hr. destruct Hr as [[[Hr Hpre] _] _].
  change (r ∈ rows (loaded f df)) in Hr.
  apply elem_of_loaded_rows in Hr as (r0 & Hr0 & ->).
  unfold preselected in Hpre. apply andb_true_iff in Hpre as [_ Hflag].
  rewrite Hd in Hflag. unfold drug_like_passes in Hflag.
  rewrite flag_of_loaded_row in Hflag. apply Z.eqb_eq in Hflag.
  pose proof (proj1 (lipinski_ready_spec df) HL) as Hnum.
  assert (Hn : forall c, c ∈ lipinski_inputs ->
                 to_float (cell_at c r0) = Ok (float_at c r0)).
  { intros c Hc. apply to_float_at. destruct (Hnum c Hc) as [_ Hall].
    rewrite Forall_forall in Hall. by apply Hall. }
  apply elem_of_lfilter in Hr0 as [Hr0 _].
  exists r0, (float_at "mw" r0), (float_at "logp" r0), (float_at "hbd" r0),
    (float_at "hba" r0).
  split; [done|]. split; [done|].
  rewrite !Hn by (unfold lipinski_inputs; solve_in).
  do 4 (split; [done|]).
  rewrite violations_of_loaded_row, flag_of_loaded_row, Hflag.
  unfold violations_of, violation_count in Hflag.
  destruct (500 <? float_at "mw" r0)%float, (5 <? float_at "logp" r0)%float,
    (5 <? float_at "hbd" r0)%float, (10 <? float_at "hba" r0)%float; done.
Qed.

End WithLog10.

(** X11.  The counts of the overview: the number of compounds is the
    number of rows; the number of drug-like compounds is the number of
    rows whose [is_drug_like] is [True] and lies between 0 and the number
    of compounds, and so does the number of targets. *)
Theorem overview_counts_are_bounded df o :
  overview df = Ok o ->
  total_compounds o = len df /\
  drug_like_count o
  = Z.of_nat (length (List.filter (drug_like_passes true) (rows df))) /\
  0 <= drug_like_count o <= total_compounds o /\
  0 <= unique_targets o <= total_compounds o.
Proof.
  intros Ho. pose proof (overview_inv _ _ Ho) as Hready.
  rewrite (overview_run _ Hready) in Ho. injection Ho as <-. simpl.
  split; [done|]. split; [done|].
  unfold len. split.
  - pose proof (List.filter_length_le (drug_like_passes true) (rows df)). lia.
  - unfold nunique.
    pose proof (length_unique
                  (List.filter (fun c => negb (isnull c))
                     (map (cell_at "target") (rows df)))) as H1.
    pose proof (List.filter_length_le (fun c => negb (isnull c))
                  (map (cell_at "target") (rows df))) as H2.
    rewrite length_map in H2. lia.
Qed.


(** With no target selected on the filter examples. *)
Lemma no_target_on_two_targets :
  rows (narrowed_df (filter_result two_targets no_target)) = [] /\
  rows (filtered_df (filter_result two_targets no_target)) = [] /\
  mw_bounds (filter_result two_targets no_target) = (nan, nan) /\
  logp_bounds (filter_result two_targets no_target) = (nan, nan) /\
  pic50_bounds (filter_result two_targets no_target) = None /\
  empty (filtered_df (filter_result two_targets no_target)) = true.
Proof.
  apply (no_target_selected_shows_nothing two_targets no_target).
  - apply filter_compounds_run. vm_compute. reflexivity.
  - reflexivity.
Defined.

(** The filter examples with the checkbox checked: one compound is
    shown, and it is within the four limits. *)
Lemma drug_like_only_on_two_targets :
  map label (rows (filtered_df (filter_result two_targets drug_like_A_and_B))) = [2] /\
  Forall
    (fun r =>
       exists r0 mw logp hbd hba,
         r0 ∈ rows two_targets_raw /\ r = pic50_row log10_series (lipinski_row r0) /\
         to_float (cell_at "mw" r0) = Ok mw /\
         to_float (cell_at "logp" r0) = Ok logp /\
         to_float (cell_at "hbd" r0) = Ok hbd /\
         to_float (cell_at "hba" r0) = Ok hba /\
         (500 <? mw)%float = false /\ (5 <? logp)%float = false /\
         (5 <? hbd)%float = false /\ (10 <? hba)%float = false /\
         cell_at "lipinski_violations" r = CInt 0 /\
         cell_at "is_drug_like" r = CBool true)
    (rows (filtered_df (filter_result two_targets drug_like_A_and_B))).
Proof.
  split; [vm_compute; reflexivity|]. apply Forall_forall.
  apply (drug_like_only_shows_compounds_within_limits log10_series two_targets_raw
           drug_like_A_and_B).
  - vm_compute. reflexivity.
  - apply filter_compounds_run. vm_compute. reflexivity.
  - reflexivity.
Defined.

(** The overview of the filter examples: three compounds, two targets,
    three drug-like compounds. *)
Lemma overview_counts_of_two_targets :
  total_compounds (overview_result two_targets) = 3 /\
  drug_like_count (overview_result two_targets) = 3 /\
  unique_targets (overview_result two_targets) = 2 /\
  (total_compounds (overview_result two_targets) = len two_targets /\
   drug_like_count (overview_result two_targets)
   = Z.of_nat (length (List.filter (drug_like_passes true) (rows two_targets))) /\
   0 <= drug_like_count (overview_result two_targets)
     <= total_compounds (overview_result two_targets) /\
   0 <= unique_targets (overview_result two_targets)
     <= total_compounds (overview_result two_targets)).
Proof.
  split; [vm_compute; reflexivity|]. split; [vm_compute; reflexivity|].
  split; [vm_compute; reflexivity|].
  apply (overview_counts_are_bounded two_targets).
  apply overview_run. vm_compute. reflexivity.
Defined.

End ViewProperties.

(** ** Facts about the plots and the batch run *)

Module PlotFacts.
Import Pandas Analysis Activity App Reading FilterReading SessionReading Plots.
Import FloatFacts PandasFacts AnalysisFacts AppFacts FailureFacts LoadedFacts.

Local Open Scope float_scope.



Section WithLog10.
Variable f : float -> float.



End WithLog10.

Local Close Scope float_scope.

Lemma cell_at_row_only cs c r :
  c ∈ cs -> cell_at c (row_only cs r) = cell_at c r.
Proof.
  intros Hc. unfold cell_at, row_only. simpl.
  destruct (cells r !! c) as [v|] eqn:E.
  - by rewrite (map_lookup_filter_Some_2 _ _ _ _ E).
  - rewrite (proj2 (map_lookup_filter_None _ _ _)); [done|]. by left.
Qed.

Lemma isnull_float_at c r :
  numeric_at c r = true -> is_nan (float_at c r) = false -> isnull (cell_at c r) = false.
Proof.
  unfold numeric_at, float_at, isnull.
  destruct (cell_at c r); simpl; done.
Qed.


Lemma in_range_notnull c range r : in_range c range r = true -> isnull (cell_at c r) = false.
Proof.
  unfold in_range, isnull. destruct (cell_at c r) as [|x| |]; simpl; try done.
  destruct (is_nan x) eqn:E; [|done]. by rewrite (leb_nan_r _ _ E).
Qed.

Lemma filter_ready_has df w c :
  filter_ready df w = true -> c = "mw" \/ c = "logp" -> c ∈ columns df.
Proof.
  unfold filter_ready, numeric_column. rewrite !andb_true_iff.
  intros [[[_ [Hm _]] [Hl _]] _] [->| ->]; by apply has_column_true.
Qed.

Lemma elem_of_filtered_rows df w r :
  r ∈ filtered_rows df w ->
  r ∈ rows df /\ preselected w r = true /\
  pic50_passes (pic50_active df w) (pic50_range w) r = true /\
  in_range "mw" (mw_range w) r = true /\ in_range "logp" (logp_range w) r = true.
Proof.
  unfold filtered_rows, narrowed_rows, preselected_rows, in_both_ranges.
  rewrite !elem_of_lfilter, andb_true_iff. tauto.
Qed.

Lemma length_dropna_series (s : Series) :
  Forall (fun c => isnull c = false) s -> length (dropna_series s) = length s.
Proof.
  intros H. unfold dropna_series. induction H as [|c s Hc _ IH]; simpl; [done|].
  rewrite Hc. simpl. by rewrite IH.
Qed.

End PlotFacts.

(** ** The second pIC50 conversion, the batch run and the density plot *)

Module PipelineProperties.
Import Pandas Analysis Activity App Reading FilterReading SessionReading Plots.
Import Fixtures Examples.
Import FloatFacts PandasFacts AnalysisFacts AppFacts FailureFacts LoadedFacts.
Import CellFacts PlotFacts.

Section WithLog10.
Variable f : float -> float.

Lemma activity_run df :
  pic50_ready df = true ->
  analyze_activity_relationships f df = Ok (activity_table f df).
Proof.
  intros [Hin Hnum]%numeric_column_spec. unfold analyze_activity_relationships.
  rewrite getitem_Ok by done. simpl.
  unfold mul. rewrite column_op by done. simpl.
  unfold log10. rewrite num_op_map. simpl.
  unfold neg. rewrite num_op_map. simpl.
  apply setitem_map.
Qed.

Lemma activity_raise df :
  pic50_ready df = false ->
  analyze_activity_relationships f df
  = Raise (if has_column df "ic50" then TypeError else KeyError "ic50").
Proof.
  intros Hready. unfold analyze_activity_relationships, getitem.
  unfold pic50_ready, numeric_column in Hready.
  destruct (has_column df "ic50"); [|done]. simpl in *.
  unfold mul. by rewrite column_op_raise.
Qed.

Lemma on_table_pic50_run df :
  pic50_ready df = true -> on_table (calculate_pic50 f) df = Ok (pic50_table f df).
Proof.
  intros Hready. unfold on_table.
  by rewrite (calculate_pic50_run f [df] 0%nat df eq_refl Hready).
Qed.

Lemma on_table_pic50_raise df :
  pic50_ready df = false -> is_ok (on_table (calculate_pic50 f) df) = false.
Proof.
  intros Hready. unfold on_table.
  by rewrite (calculate_pic50_raise f [df] 0%nat df eq_refl Hready).
Qed.

(** X12.  The pIC50 conversion of activity_analyzer.py and
    [calculate_pic50] raise on the same tables, and where they return
    they give every row the same pIC50 unless its molar value
    [ic50 * 1e-9] is zero or negative, where [calculate_pic50] leaves the
    pIC50 missing; the rows keep their labels and their other cells in
    both. *)
Theorem activity_pic50_agrees_with_calculate_pic50 df :
  is_ok (analyze_activity_relationships f df)
  = is_ok (on_table (calculate_pic50 f) df) /\
  forall a b,
    analyze_activity_relationships f df = Ok a ->
    on_table (calculate_pic50 f) df = Ok b ->
    rows a = map (activity_row f) (rows df) /\
    rows b = map (pic50_row f) (rows df) /\
    forall r, r ∈ rows df ->
      label (activity_row f r) = label (pic50_row f r) /\
      (forall c, c <> "pIC50" -> c <> "ic50_M" ->
         cell_at c (activity_row f r) = cell_at c (pic50_row f r)) /\
      ((float_at "ic50" r * 1e-9 <=? 0)%float = false ->
         cell_at "pIC50" (activity_row f r) = cell_at "pIC50" (pic50_row f r)) /\
      ((float_at "ic50" r * 1e-9 <=? 0)%float = true ->
         isnull (cell_at "pIC50" (pic50_row f r)) = true).
Proof.
  destruct (pic50_ready df) eqn:Hready.
  - rewrite (activity_run df Hready), (on_table_pic50_run df Hready).
    split; [done|]. intros a b [= <-] [= <-]. split; [done|]. split; [done|].
    intros r _. split; [done|]. split; [|split].
    + intros c H1 H2. unfold activity_row, pic50_row, pic50_scratch_row.
      rewrite cell_at_row_del_ne by done. by rewrite !cell_at_row_set_ne.
    + intros Hle. unfold activity_row, pic50_row, pic50_scratch_row.
      rewrite cell_at_row_del_ne by done. rewrite !cell_at_row_set.
      unfold pic50_of, molar_of. by rewrite Hle.
    + intros Hle. unfold pic50_row, pic50_scratch_row.
      rewrite cell_at_row_del_ne by done. rewrite cell_at_row_set.
      unfold pic50_of, molar_of. by rewrite Hle.
  - rewrite (activity_raise df Hready), (on_table_pic50_raise df Hready).
    split; [done|]. intros a b H. by destruct (has_column df "ic50").
Qed.




End WithLog10.

(** X14.  The density plot leaves out no compound of the table shown:
    the table [plotly_mw_logp_density_heatmap] hands to the plot has the
    columns [logp] and [mw] and one row for every row of [filtered_df],
    with the same label, logP and molecular weight, because the range
    filters have let through no row in which one of them is missing. *)
Theorem density_heatmap_plots_every_row_shown df w run :
  filter_compounds df w = Ok run ->
  exists plot_df,
    plotly_mw_logp_density_heatmap (filtered_df run) = Ok plot_df /\
    columns plot_df = ["logp"; "mw"] /\
    rows plot_df = map (row_only ["logp"; "mw"]) (rows (filtered_df run)) /\
    len plot_df = len (filtered_df run) /\
    forall r, r ∈ rows (filtered_df run) ->
      label (row_only ["logp"; "mw"] r) = label r /\
      cell_at "logp" (row_only ["logp"; "mw"] r) = cell_at "logp" r /\
      cell_at "mw" (row_only ["logp"; "mw"] r) = cell_at "mw" r.
Proof.
  intros Hrun. pose proof (filter_compounds_inv _ _ _ Hrun) as Hready.
  rewrite (filter_compounds_run _ _ Hready) in Hrun. injection Hrun as <-.
  simpl. unfold plotly_mw_logp_density_heatmap, getitems.
  rewrite (proj2 (missing_column_None _ ["logp"; "mw"])).
  2:{ intros c Hc. simpl. apply (filter_ready_has df w c Hready).
      apply elem_of_cons in Hc as [->|Hc]; [by right|].
      apply elem_of_cons in Hc as [->|Hc]; [by left|by apply elem_of_nil in Hc]. }
  simpl. unfold dropna. simpl.
  assert (Hkeep : List.filter (notna_row ["logp"; "mw"])
                    (map (row_only ["logp"; "mw"]) (filtered_rows df w))
                  = map (row_only ["logp"; "mw"]) (filtered_rows df w)).
  { apply filter_all. intros r' (r & -> & Hr)%list_elem_of_fmap.
    apply elem_of_filtered_rows in Hr as (_ & _ & _ & Hmw & Hlogp).
    unfold notna_row. simpl.
    rewrite !cell_at_row_only by solve_in.
    by rewrite (in_range_notnull _ _ _ Hmw), (in_range_notnull _ _ _ Hlogp). }
  eexists. split.
  - change (missing_column _ ["logp"; "mw"]) with (@None string).
    simpl. by rewrite Hkeep.
  - split; [done|]. split; [done|]. split.
    + unfold len. simpl. by rewrite length_map.
    + intros r _. split; [done|]. by rewrite !cell_at_row_only by solve_in.
Qed.

(** The two conversions on the fixture of the tests, where every IC50 is
    positive: the same pIC50 in every row. *)
Lemma activity_agrees_on_sample_compounds :
  Forall
    (fun r => cell_at "pIC50" (activity_row log10_series r)
              = cell_at "pIC50" (pic50_row log10_series r))
    (rows sample_compounds).
Proof.
  destruct (activity_pic50_agrees_with_calculate_pic50 log10_series sample_compounds)
    as [_ H].
  assert (Hready : pic50_ready sample_compounds = true) by (vm_compute; reflexivity).
  destruct (H _ _ (activity_run log10_series _ Hready)
              (on_table_pic50_run log10_series _ Hready)) as (_ & _ & Hrows).
  apply Forall_forall. intros r Hr.
  destruct (Hrows r Hr) as (_ & _ & Hpos & _). apply Hpos.
  unfold sample_compounds in Hr. simpl in Hr.
  repeat (apply elem_of_cons in Hr as [->|Hr]; [vm_compute; reflexivity|]).
  by apply elem_of_nil in Hr.
Defined.


(** The density plot of the filter examples. *)
Lemma density_heatmap_on_two_targets :
  exists plot_df,
    plotly_mw_logp_density_heatmap (filtered_df (filter_result two_targets only_A))
    = Ok plot_df /\
    columns plot_df = ["logp"; "mw"] /\
    rows plot_df
    = map (row_only ["logp"; "mw"])
        (rows (filtered_df (filter_result two_targets only_A))) /\
    len plot_df = len (filtered_df (filter_result two_targets only_A)) /\
    forall r, r ∈ rows (filtered_df (filter_result two_targets only_A)) ->
      label (row_only ["logp"; "mw"] r) = label r /\
      cell_at "logp" (row_only ["logp"; "mw"] r) = cell_at "logp" r /\
      cell_at "mw" (row_only ["logp"; "mw"] r) = cell_at "mw" r.
Proof.
  apply (density_heatmap_plots_every_row_shown two_targets only_A).
  apply filter_compounds_run. vm_compute. reflexivity.
Defined.

End PipelineProperties.

(** ** The histograms *)

Module HistogramProperties.
Import Pandas Analysis Activity App Reading FilterReading SessionReading Plots.
Import Fixtures Examples.
Import FloatFacts PandasFacts AnalysisFacts AppFacts FailureFacts LoadedFacts.
Import CellFacts PlotFacts.

Lemma histograms_run df :
  (forall c, c ∈ histogram_properties -> c ∈ columns df) ->
  plotly_property_histograms df =
  Ok (imap (fun i c =>
              mkHistogram c (dropna_series (map (cell_at c) (rows df)))
                (Z.of_nat i `div` 3 + 1) (Z.of_nat i `mod` 3 + 1))
        histogram_properties).
Proof.
  intros H. unfold plotly_property_histograms, enumerate, histogram_properties.
  cbn [imap mapR]. unfold compose.
  rewrite !getitem_Ok by (apply H; unfold histogram_properties; solve_in).
  reflexivity.
Qed.

Lemma length_histogram df c :
  (forall r, r ∈ rows df -> isnull (cell_at c r) = false) ->
  length (dropna_series (map (cell_at c) (rows df))) = length (rows df).
Proof.
  intros H. rewrite length_dropna_series; [apply length_map|].
  apply Forall_fmap, Forall_forall. intros r Hr. by apply H.
Qed.

Section WithLog10.
Variable f : float -> float.

(** X15.  On a loaded table the histograms of molecular weight, logP,
    donors and acceptors count every compound of the table shown, and so
    does the histogram of pIC50 when the pIC50 slider is shown; the six
    histograms are drawn in the six cells of the 2 by 3 grid, row by
    row, in the order mw, logp, hbd, hba, psa, pIC50. *)
Theorem histograms_count_every_row_shown df w run :
  lipinski_ready df = true -> "psa" ∈ columns df ->
  filter_compounds (loaded f df) w = Ok run ->
  exists hs,
    plotly_property_histograms (filtered_df run) = Ok hs /\
    map name hs = ["mw"; "logp"; "hbd"; "hba"; "psa"; "pIC50"] /\
    map (fun t => (row t, col t)) hs
    = [(1, 1); (1, 2); (1, 3); (2, 1); (2, 2); (2, 3)] /\
    forall t, t ∈ hs ->
      name t ∈ ["mw"; "logp"; "hbd"; "hba"] \/
      (name t = "pIC50" /\ is_Some (pic50_bounds run)) ->
      length (x t) = length (rows (filtered_df run)).
Proof.
  intros HL Hpsa Hrun. pose proof (filter_compounds_inv _ _ _ Hrun) as Hready.
  rewrite (filter_compounds_run _ _ Hready) in Hrun. injection Hrun as <-.
  pose proof (proj1 (lipinski_ready_spec df) HL) as Hnum.
  set (shown := filtered_df (filter_result (loaded f df) w)).
  assert (Hcols : forall c, c ∈ histogram_properties -> c ∈ columns shown).
  { intros c Hc. change (c ∈ columns (loaded f df)). apply elem_of_loaded_columns.
    unfold histogram_properties in Hc.
    do 4 (apply elem_of_cons in Hc as [->|Hc];
          [split; [|done]; do 3 right; apply Hnum; unfold lipinski_inputs; solve_in|]).
    apply elem_of_cons in Hc as [->|Hc]; [split; [auto|done]|].
    apply elem_of_cons in Hc as [->|Hc]; [split; [auto|done]|].
    by apply elem_of_nil in Hc. }
  assert (Hin : forall c r, c ∈ lipinski_inputs -> r ∈ rows shown ->
                  isnull (cell_at c r) = false).
  { intros c r Hc Hr. change (r ∈ filtered_rows (loaded f df) w) in Hr.
    apply elem_of_filtered_rows in Hr as (Hr & _).
    apply elem_of_loaded_rows in Hr as (r0 & Hr0 & ->).
    apply elem_of_lfilter in Hr0 as [_ Hkept].
    unfold notna_row in Hkept. rewrite forallb_forall in Hkept.
    rewrite cell_at_loaded_row
      by (intros ->; revert Hc; unfold lipinski_inputs; solve_notin).
    apply negb_true_iff, Hkept. by apply list_elem_of_In. }
  exists (imap (fun i c =>
              mkHistogram c (dropna_series (map (cell_at c) (rows shown)))
                (Z.of_nat i `div` 3 + 1) (Z.of_nat i `mod` 3 + 1))
            histogram_properties).
  split; [by apply histograms_run|]. split; [done|]. split; [done|].
  intros t Ht Hname. unfold histogram_properties in Ht. cbn [imap] in Ht.
  unfold compose in Ht.
  repeat (apply elem_of_cons in Ht as [->|Ht];
          [try (apply length_histogram; intros r Hr; apply Hin;
                [unfold lipinski_inputs; solve [solve_in]|done])|]).
  - simpl in Hname. destruct Hname as [Hname|[Hname _]]; [|done].
    revert Hname. solve_notin.
  - simpl in Hname. destruct Hname as [Hname|[_ Hshown]].
    { revert Hname. solve_notin. }
    apply length_histogram. intros r Hr.
    change (r ∈ filtered_rows (loaded f df) w) in Hr.
    apply elem_of_filtered_rows in Hr as (_ & _ & Hp & _).
    simpl in Hshown. destruct (pic50_active (loaded f df) w).
    + by apply in_range_notnull in Hp.
    + by destruct Hshown.
  - by apply elem_of_nil in Ht.
Qed.

End WithLog10.

(** The histograms of the filter examples with target A selected: the
    two compounds shown are counted in the four histograms. *)
Lemma histograms_on_two_targets :
  exists hs,
    plotly_property_histograms (filtered_df (filter_result two_targets only_A))
    = Ok hs /\
    map name hs = ["mw"; "logp"; "hbd"; "hba"; "psa"; "pIC50"] /\
    map (fun t => (row t, col t)) hs
    = [(1, 1); (1, 2); (1, 3); (2, 1); (2, 2); (2, 3)] /\
    forall t, t ∈ hs ->
      name t ∈ ["mw"; "logp"; "hbd"; "hba"] \/
      (name t = "pIC50" /\ is_Some (pic50_bounds (filter_result two_targets only_A))) ->
      length (x t) = length (rows (filtered_df (filter_result two_targets only_A))).
Proof.
  apply (histograms_count_every_row_shown log10_series two_targets_raw only_A).
  - vm_compute. reflexivity.
  - unfold two_targets_raw, raw_columns. simpl. solve_in.
  - apply filter_compounds_run. vm_compute. reflexivity.
Defined.

End HistogramProperties.

(** ** What the two transforms keep *)

Module ShapeProperties.
Import Pandas Analysis Activity App Reading FilterReading SessionReading.
Import Fixtures Examples.
Import FloatFacts PandasFacts AnalysisFacts AppFacts FailureFacts LoadedFacts.
Import CellFacts PlotFacts.

Lemma sublist_filter_map {A B} (g : A -> B) (p : A -> bool) (l : list A) :
  map g (List.filter p l) `sublist_of` map g l.
Proof.
  induction l as [|a l IH]; simpl; [constructor|].
  destruct (p a); simpl; by constructor.
Qed.


Lemma label_lipinski_row r : label (lipinski_row r) = label r.
Proof. done. Qed.

(** X16.  [calculate_lipinski] drops rows and changes nothing else of
    what was there: the rows left are the rows of the table without a
    missing [mw], [logp], [hbd] or [hba], in their order and under the
    labels they had (the index is not renumbered), each with the cells
    it had; no row is left with one of the four missing; and when no row
    has one missing, no row is dropped. *)
Theorem lipinski_keeps_labels_and_cells h l df :
  h !! l = Some df -> lipinski_ready df = true ->
  exists out,
    calculate_lipinski l h = (Ok l, <[l := out]> h) /\
    map label (rows out) `sublist_of` map label (rows df) /\
    len out <= len df /\
    Forall2 (fun r r' =>
               label r' = label r /\
               forall c, c <> "lipinski_violations" -> c <> "is_drug_like" ->
                         cell_at c r' = cell_at c r)
      (List.filter (notna_row lipinski_inputs) (rows df)) (rows out) /\
    (forall r' c, r' ∈ rows out -> c ∈ lipinski_inputs -> isnull (cell_at c r') = false) /\
    ((forall r c, r ∈ rows df -> c ∈ lipinski_inputs -> isnull (cell_at c r) = false) ->
     len out = len df).
Proof.
  intros Hl Hready. exists (lipinski_table df).
  split; [by apply calculate_lipinski_run|].
  split; [|split; [|split; [|split]]].
  - simpl. rewrite map_map. apply (sublist_filter_map label).
  - unfold len. simpl. rewrite length_map. unfold lipinski_kept.
    pose proof (List.filter_length_le (notna_row lipinski_inputs) (rows df)). lia.
  - simpl. apply Forall2_fmap_r, Forall_Forall2_diag, Forall_forall.
    intros r _. split; [done|]. intros c H1 H2. unfold lipinski_row.
    by rewrite !cell_at_row_set_ne.
  - intros r' c Hr' Hc. simpl in Hr'.
    apply list_elem_of_fmap in Hr' as (r & -> & Hr).
    apply elem_of_lfilter in Hr as [_ Hkept].
    unfold notna_row in Hkept. rewrite forallb_forall in Hkept.
    unfold lipinski_row. rewrite !cell_at_row_set_ne
      by (intros ->; revert Hc; unfold lipinski_inputs; solve_notin).
    apply negb_true_iff, Hkept. by apply list_elem_of_In.
  - intros Hall. unfold len. simpl. rewrite length_map. unfold lipinski_kept.
    rewrite filter_all; [done|]. intros r Hr. unfold notna_row.
    apply forallb_forall. intros c Hc%list_elem_of_In.
    by rewrite (Hall r c Hr Hc).
Qed.


(** X20.  The four limits are inclusive: a compound whose molecular
    weight is at most 500, whose logP and donor count are at most 5 and
    whose acceptor count is at most 10, the limits themselves included,
    gets [lipinski_violations] 0 and [is_drug_like] [True]. *)
Theorem lipinski_limits_are_inclusive h l df r :
  h !! l = Some df -> lipinski_ready df = true ->
  r ∈ rows df -> notna_row lipinski_inputs r = true ->
  (float_at "mw" r <=? 500)%float = true ->
  (float_at "logp" r <=? 5)%float = true ->
  (float_at "hbd" r <=? 5)%float = true ->
  (float_at "hba" r <=? 10)%float = true ->
  exists out r',
    calculate_lipinski l h = (Ok l, <[l := out]> h) /\
    r' ∈ rows out /\ label r' = label r /\
    cell_at "lipinski_violations" r' = CInt 0 /\
    cell_at "is_drug_like" r' = CBool true.
Proof.
  intros Hl Hready Hr Hkept Hmw Hlogp Hhbd Hhba.
  exists (lipinski_table df), (lipinski_row r).
  split; [by apply calculate_lipinski_run|]. split.
  { simpl. apply list_elem_of_fmap. exists r. split; [done|].
    by apply elem_of_lfilter. }
  split; [done|].
  assert (Hv : violations_of r = 0).
  { unfold violations_of, violation_count.
    destruct (500 <? float_at "mw" r)%float eqn:E1;
      [by rewrite (ltb_leb_false _ _ E1) in Hmw|].
    destruct (5 <? float_at "logp" r)%float eqn:E2;
      [by rewrite (ltb_leb_false _ _ E2) in Hlogp|].
    destruct (5 <? float_at "hbd" r)%float eqn:E3;
      [by rewrite (ltb_leb_false _ _ E3) in Hhbd|].
    destruct (10 <? float_at "hba" r)%float eqn:E4;
      [by rewrite (ltb_leb_false _ _ E4) in Hhba|].
    done. }
  unfold lipinski_row. rewrite cell_at_row_set_ne by done.
  rewrite !cell_at_row_set, Hv. done.
Qed.

Section WithLog10.
Variable f : float -> float.


End WithLog10.

(** On the table with one missing molecular weight one row of two is
    left, under its label 1. *)
Lemma lipinski_on_one_missing_mw :
  map label (lipinski_kept one_missing_mw) = [1] /\
  exists out,
    calculate_lipinski 0%nat [one_missing_mw] = (Ok 0%nat, <[0%nat := out]> [one_missing_mw]) /\
    map label (rows out) `sublist_of` map label (rows one_missing_mw) /\
    len out <= len one_missing_mw /\
    Forall2 (fun r r' =>
               label r' = label r /\
               forall c, c <> "lipinski_violations" -> c <> "is_drug_like" ->
                         cell_at c r' = cell_at c r)
      (List.filter (notna_row lipinski_inputs) (rows one_missing_mw)) (rows out) /\
    (forall r' c, r' ∈ rows out -> c ∈ lipinski_inputs -> isnull (cell_at c r') = false) /\
    ((forall r c, r ∈ rows one_missing_mw -> c ∈ lipinski_inputs ->
                  isnull (cell_at c r) = false) ->
     len out = len one_missing_mw).
Proof.
  split; [vm_compute; reflexivity|].
  apply (lipinski_keeps_labels_and_cells [one_missing_mw] 0%nat one_missing_mw).
  - reflexivity.
  - vm_compute. reflexivity.
Defined.


(** A compound with 500, 5, 5 and 10 is drug-like. *)
Lemma lipinski_at_the_limits :
  Forall
    (fun r =>
       exists out r',
         calculate_lipinski 0%nat [at_the_limits]
         = (Ok 0%nat, <[0%nat := out]> [at_the_limits]) /\
         r' ∈ rows out /\ label r' = label r /\
         cell_at "lipinski_violations" r' = CInt 0 /\
         cell_at "is_drug_like" r' = CBool true)
    (rows at_the_limits).
Proof.
  apply Forall_forall. intros r Hr.
  apply (lipinski_limits_are_inclusive [at_the_limits] 0%nat at_the_limits r);
    try done; unfold at_the_limits in Hr; simpl in Hr;
    apply list_elem_of_singleton in Hr as ->; vm_compute; reflexivity.
Defined.

End ShapeProperties.

(** ** The fetcher *)

Module FetcherFacts.
Import Pandas Fetcher FetcherReading.
Import PandasFacts.

Lemma dict_get_None {V} (d : dict V) k : dict_get d k = None <-> k ∉ map fst d.
Proof.
  induction d as [|[k' v] d IH]; simpl.
  - split; [intros _ H; by apply elem_of_nil in H|done].
  - destruct (String.eqb_spec k k') as [->|Hne].
    + split; [done|]. intros H. destruct H. by left.
    + rewrite IH, not_elem_of_cons. tauto.
Qed.

Lemma dict_get_Some_in {V} (d : dict V) k v : dict_get d k = Some v -> (k, v) ∈ d.
Proof.
  induction d as [|[k' v'] d IH]; simpl; [done|].
  destruct (String.eqb_spec k k') as [->|Hne].
  - intros [= ->]. by left.
  - intros H. right. by apply IH.
Qed.

Lemma keys_dict_append {V} (d : dict (list V)) k x :
  map fst (dict_append d k x)
  = if bool_decide (k ∈ map fst d) then map fst d else map fst d ++ [k].
Proof.
  induction d as [|[k' xs] d IH]; simpl; [done|].
  destruct (String.eqb_spec k k') as [->|Hne]; simpl.
  - by rewrite bool_decide_eq_true_2 by by left.
  - rewrite IH. case_bool_decide as H1; case_bool_decide as H2; try done.
    + destruct H2. by right.
    + apply elem_of_cons in H2 as [?|?]; done.
Qed.

Lemma dict_get_append {V} (d : dict (list V)) k x k' :
  dict_get (dict_append d k x) k'
  = if String.eqb k' k then Some (default [] (dict_get d k) ++ [x]) else dict_get d k'.
Proof.
  induction d as [|[k0 xs] d IH]; simpl.
  - by destruct (String.eqb k' k).
  - destruct (String.eqb_spec k k0) as [->|Hne]; simpl.
    + by destruct (String.eqb_spec k' k0).
    + rewrite IH.
      destruct (String.eqb_spec k' k0) as [->|Hne'];
        destruct (String.eqb_spec k0 k) as [->|?]; try done;
        destruct (String.eqb_spec k' k) as [->|?]; done.
Qed.

Lemma dict_get_averages (d : dict (list float)) k :
  dict_get (averages d) k = average <$> dict_get d k.
Proof.
  induction d as [|[k' xs] d IH]; simpl; [done|].
  by destruct (String.eqb k k').
Qed.

Lemma mapR_snoc {A B} (g : A -> result B) l a :
  mapR g (l ++ [a]) = (xs ← mapR g l; y ← g a; Ok (xs ++ [y])).
Proof.
  induction l as [|b l IH]; simpl.
  - by destruct (g a).
  - destruct (g b); simpl; [|done]. rewrite IH.
    destruct (mapR g l); simpl; [|done]. by destruct (g a).
Qed.

Lemma values_of_snoc k acts a :
  values_of k (acts ++ [a])
  = values_of k acts ++
    match counted a with
    | Some (k', val) => if String.eqb k k' then [val] else []
    | None => []
    end.
Proof.
  unfold values_of. rewrite omap_app. simpl.
  destruct (counted a) as [[k' val]|]; [|done]. by destruct (String.eqb k k').
Qed.

Section Client.
Variable float_of : string -> result float.

Lemma collect_snoc acts a :
  collect float_of (acts ++ [a]) = collect_step float_of (collect float_of acts) a.
Proof.
  unfold collect. rewrite (List.fold_left_app _ acts [a]). simpl.
  match goal with
  | |- context [fold_left ?g acts ?i] => destruct (fold_left g acts i) as [d|e]
  end; [|done]. simpl.
  unfold counted.
  destruct (activity_molecule_chembl_id a) as [id|], (standard_value a) as [val|];
    try done; try (by rewrite ?andb_false_r).
  by destruct (truthy (Some id) && truthy (Some val)).
Qed.

(** What the first loop has gathered. *)
Lemma collect_spec acts d :
  collect float_of acts = Ok d ->
  NoDup (map fst d) /\
  (forall k, k ∈ map fst d <-> values_of k acts <> []) /\
  (forall k xs, dict_get d k = Some xs -> mapR float_of (values_of k acts) = Ok xs).
Proof.
  revert d. induction acts as [|a acts IH] using rev_ind; intros d.
  - intros [= <-]. split; [constructor|]. split; [|done].
    intros k. split; [by intros ?%elem_of_nil|done].
  - rewrite collect_snoc. unfold collect_step.
    destruct (collect float_of acts) as [d0|] eqn:E; [|done]. simpl.
    destruct (IH d0 eq_refl) as (Hnd & Hkeys & Hvals).
    destruct (counted a) as [[id val]|] eqn:Ec.
    2:{ intros [= <-]. split; [done|].
        split; intros k; rewrite values_of_snoc, Ec, app_nil_r; [apply Hkeys|apply Hvals]. }
    destruct (float_of val) as [x|] eqn:Ex; [|done]. simpl. intros [= <-].
    split; [|split].
    + rewrite keys_dict_append. case_bool_decide as Hin; [done|].
      apply NoDup_app. split; [done|]. split; [|apply NoDup_singleton].
      intros k Hk ->%list_elem_of_singleton. done.
    + intros k. rewrite keys_dict_append, values_of_snoc, Ec.
      destruct (String.eqb_spec k id) as [->|Hne].
      * split; [intros _; by destruct (values_of id acts)|]. intros _.
        case_bool_decide as Hin; [done|]. apply elem_of_app. right. by left.
      * rewrite app_nil_r, <- Hkeys. case_bool_decide as Hin; [done|].
        rewrite elem_of_app, list_elem_of_singleton. tauto.
    + intros k xs. rewrite dict_get_append, values_of_snoc, Ec.
      destruct (String.eqb_spec k id) as [->|Hne].
      * intros [= <-]. rewrite mapR_snoc, Ex.
        destruct (dict_get d0 id) as [xs0|] eqn:Eg.
        -- by rewrite (Hvals _ _ Eg).
        -- apply dict_get_None in Eg.
           destruct (values_of id acts) eqn:Ev; [done|].
           destruct Eg. apply Hkeys. by rewrite Ev.
      * rewrite app_nil_r. apply Hvals.
Qed.

End Client.

Lemma cell_at_list_to_map i (kvs : list (string * cell)) c v :
  NoDup (map fst kvs) -> (c, v) ∈ kvs -> cell_at c (mkRow i (list_to_map kvs)) = v.
Proof.
  intros Hnd Hin. unfold cell_at. simpl.
  by rewrite (elem_of_list_to_map_1 kvs c v Hnd Hin).
Qed.

Lemma compound_spec t ad m kvs :
  compound t ad m = Some kvs ->
  exists mol_id ic50,
    molecule_chembl_id m = Some mol_id /\ dict_get ad mol_id = Some ic50 /\
    map fst kvs = compound_columns /\
    ("chembl_id", CStr mol_id) ∈ kvs /\ ("target", CStr t) ∈ kvs /\
    ("ic50", CNum ic50) ∈ kvs.
Proof.
  unfold compound. destruct (molecule_properties m) as [props|]; [|done].
  case_bool_decide; [done|].
  destruct (molecule_chembl_id m) as [mol_id|]; [|done].
  destruct (dict_get ad mol_id) as [ic50|] eqn:E; [|done].
  intros [= <-]. exists mol_id, ic50. do 3 (split; [done|]).
  split; [|split]; solve_in.
Qed.

Lemma NoDup_compound_columns : NoDup compound_columns.
Proof. by apply (bool_decide_unpack _). Qed.

Lemma elem_of_frame_of data r :
  r ∈ rows (frame_of data) ->
  exists i kvs, kvs ∈ data /\ r = mkRow i (list_to_map kvs).
Proof.
  simpl. intros (i & kvs & -> & Hl)%elem_of_lookup_imap.
  exists (Z.of_nat i), kvs. split; [by eapply list_elem_of_lookup_2|done].
Qed.

Lemma labels_imap_from {A} (g : A -> gmap string cell) (h : nat -> Z) (l : list A) :
  map label (imap (fun i a => mkRow (h i) (g a)) l) = map h (seq 0 (length l)).
Proof.
  revert h. induction l as [|a l IH]; intros h; simpl; [done|]. f_equal.
  rewrite <- seq_shift, map_map. apply (IH (fun i => h (S i))).
Qed.

Lemma labels_imap {A} (g : A -> gmap string cell) (l : list A) :
  map label (imap (fun i a => mkRow (Z.of_nat i) (g a)) l)
  = map Z.of_nat (seq 0 (length l)).
Proof. apply labels_imap_from. Qed.

(** The columns of the tables put together. *)
Lemma concat_columns_step (acc cols : list string) :
  acc = [] \/ acc = compound_columns -> cols = [] \/ cols = compound_columns ->
  acc ++ List.filter (fun c => negb (bool_decide (c ∈ acc))) cols
  = if bool_decide (acc = compound_columns) || bool_decide (cols = compound_columns)
    then compound_columns else [].
Proof. intros [->| ->] [->| ->]; vm_compute; reflexivity. Qed.

Lemma concat_columns_from (dfs : list DataFrame) (acc : list string) :
  (forall df, df ∈ dfs -> columns df = [] \/ columns df = compound_columns) ->
  acc = [] \/ acc = compound_columns ->
  fold_left
    (fun acc df =>
       acc ++ List.filter (fun c => negb (bool_decide (c ∈ acc))) (columns df))
    dfs acc
  = if bool_decide (acc = compound_columns)
       || existsb (fun df => bool_decide (columns df = compound_columns)) dfs
    then compound_columns else [].
Proof.
  revert acc. induction dfs as [|df dfs IH]; intros acc Hall Hacc;
    cbn [fold_left existsb].
  - rewrite orb_false_r. destruct Hacc as [->| ->]; vm_compute; reflexivity.
  - assert (Hdf : columns df = [] \/ columns df = compound_columns)
      by (apply Hall; by left).
    rewrite (concat_columns_step acc (columns df) Hacc Hdf).
    rewrite IH.
    + generalize (existsb (fun df => bool_decide (columns df = compound_columns)) dfs).
      intros e. destruct Hacc as [->| ->], Hdf as [->| ->], e; vm_compute; reflexivity.
    + intros d Hd. apply Hall. by right.
    + destruct (_ || _); [by right|by left].
Qed.

Lemma concat_columns_spec (dfs : list DataFrame) :
  (forall df, df ∈ dfs -> columns df = [] \/ columns df = compound_columns) ->
  concat_columns dfs
  = if existsb (fun df => bool_decide (columns df = compound_columns)) dfs
    then compound_columns else [].
Proof.
  intros Hall. unfold concat_columns.
  rewrite (concat_columns_from dfs [] Hall) by by left. done.
Qed.

End FetcherFacts.

(** ** The table the fetcher writes *)

Module FetcherProperties.
Import Pandas Fetcher FetcherReading Session.
Import Examples ClientExamples.
Import PandasFacts FetcherFacts.

Section Client.
Variable search : string -> result (list Target).
Variable activities_of : string -> result (list Activity).
Variable molecules_of : list string -> result (list Molecule).
Variable float_of : string -> result float.

Lemma process_target_inv t df :
  process_target search activities_of molecules_of float_of t = Ok (Some df) ->
  exists info rest acts d mols,
    search t = Ok (info :: rest) /\
    activities_of (target_chembl_id info) = Ok acts /\
    collect float_of acts = Ok d /\
    molecules_of (map fst (averages d)) = Ok mols /\
    df = frame_of (omap (compound t (averages d)) mols).
Proof.
  unfold process_target. intros H.
  inv_bind H as targets Hs. destruct targets as [|info rest]; [done|].
  inv_bind H as acts Ha. destruct acts as [|a acts]; [done|].
  inv_bind H as ad Hc. inv_bind H as mols Hm. destruct mols as [|m mols]; [done|].
  injection H as <-.
  destruct (collect float_of (a :: acts)) as [d|] eqn:Ed; [|done].
  injection Hc as <-. by exists info, rest, (a :: acts), d, (m :: mols).
Qed.

Lemma mapR_nonempty {A B} (g : A -> result B) l xs :
  mapR g l = Ok xs -> l <> [] -> xs <> [].
Proof.
  intros H%mapR_Forall2 Hl ->. apply Forall2_nil_inv_r in H. done.
Qed.

(** The cells of a row of the table of one target. *)
Lemma cells_of_target_table t df :
  process_target search activities_of molecules_of float_of t = Ok (Some df) ->
  forall r, r ∈ rows df ->
    exists mol_id ic50,
      cell_at "target" r = CStr t /\ cell_at "chembl_id" r = CStr mol_id /\
      cell_at "ic50" r = CNum ic50.
Proof.
  intros (info & rest & acts & d & mols & Hs & Ha & Hd & Hm & ->)%process_target_inv.
  intros r (i & kvs & Hkvs & ->)%elem_of_frame_of.
  apply list_elem_of_omap in Hkvs as (m & _ & Hc).
  apply compound_spec in Hc as (mol_id & ic50 & _ & Hget & Hkeys & Hid & Ht & Hic).
  assert (Hnd : NoDup (map fst kvs)) by (rewrite Hkeys; apply NoDup_compound_columns).
  exists mol_id, ic50.
  by rewrite !(cell_at_list_to_map _ _ _ _ Hnd) by eassumption.
Qed.

(** X18.  The table the fetcher builds for one target has one row for
    every molecule the client returns with properties and with a value
    among the activities; the row carries the name of the target as it
    was asked for, and its [ic50] is the average ([sum / len]) of the
    values the activities of this target give for the molecule, in the
    order of the answers.  The rows are numbered from 0. *)
Theorem target_table_holds_average_ic50 t df :
  process_target search activities_of molecules_of float_of t = Ok (Some df) ->
  exists info acts,
    (exists rest, search t = Ok (info :: rest)) /\
    activities_of (target_chembl_id info) = Ok acts /\
    map label (rows df) = map Z.of_nat (seq 0 (length (rows df))) /\
    forall r, r ∈ rows df ->
      exists mol_id xs,
        cell_at "chembl_id" r = CStr mol_id /\
        cell_at "target" r = CStr t /\
        mapR float_of (values_of mol_id acts) = Ok xs /\ xs <> [] /\
        cell_at "ic50" r = CNum (average xs).
Proof.
  intros (info & rest & acts & d & mols & Hs & Ha & Hd & Hm & ->)%process_target_inv.
  exists info, acts. split; [by exists rest|]. split; [done|]. split.
  { simpl. rewrite labels_imap. by rewrite length_imap. }
  intros r (i & kvs & Hkvs & ->)%elem_of_frame_of.
  apply list_elem_of_omap in Hkvs as (m & _ & Hc).
  apply compound_spec in Hc as (mol_id & ic50 & _ & Hget & Hkeys & Hid & Ht & Hic).
  assert (Hnd : NoDup (map fst kvs)) by (rewrite Hkeys; apply NoDup_compound_columns).
  rewrite dict_get_averages in Hget.
  destruct (dict_get d mol_id) as [xs|] eqn:Ex; [|done]. injection Hget as <-.
  destruct (collect_spec float_of acts d Hd) as (_ & Hk & Hv).
  exists mol_id, xs.
  rewrite !(cell_at_list_to_map _ _ _ _ Hnd) by eassumption.
  do 2 (split; [done|]). split; [by apply Hv|]. split; [|done].
  apply (mapR_nonempty _ _ _ (Hv _ _ Ex)). apply Hk.
  apply dict_get_Some_in in Ex.
  apply list_elem_of_fmap. by exists (mol_id, xs).
Qed.

Lemma elem_of_all_target_dfs names df :
  df ∈ all_target_dfs search activities_of molecules_of float_of names ->
  exists t, t ∈ names /\
    process_target search activities_of molecules_of float_of t = Ok (Some df).
Proof.
  unfold all_target_dfs. intros (t & Ht & H)%list_elem_of_omap. exists t.
  split; [done|].
  destruct (process_target _ _ _ _ t) as [[d|]|]; try done. by injection H as ->.
Qed.

(** X19.  The table the fetcher writes has its rows numbered from 0 to
    the last, whatever the targets they come from; every row carries one
    of the target names asked for, a compound identifier and a number as
    [ic50]; and when it has a row, its columns are, in this order, the
    nine columns the application requires of an uploaded file. *)
Theorem fetched_table_has_the_required_columns names final :
  fetch_and_save_compounds search activities_of molecules_of float_of names
  = Some final ->
  map label (rows final) = map Z.of_nat (seq 0 (length (rows final))) /\
  (forall r, r ∈ rows final ->
     exists t mol_id ic50,
       t ∈ names /\ cell_at "target" r = CStr t /\
       cell_at "chembl_id" r = CStr mol_id /\ cell_at "ic50" r = CNum ic50) /\
  (rows final <> [] ->
   columns final = required_cols /\ missing_cols final = []).
Proof.
  unfold fetch_and_save_compounds.
  destruct (all_target_dfs _ _ _ _ names) as [|df0 dfs0] eqn:E; [done|].
  rewrite <- E. clear df0 dfs0 E. intros [= <-].
  set (dfs := all_target_dfs search activities_of molecules_of float_of names).
  split; [|split].
  - simpl. rewrite labels_imap. by rewrite length_imap.
  - intros r Hr. simpl in Hr.
    apply elem_of_lookup_imap in Hr as (i & r0 & -> & Hr0).
    apply list_elem_of_lookup_2, list_elem_of_join in Hr0 as (rs & Hr0 & Hrs).
    apply list_elem_of_fmap in Hrs as (df & -> & Hdf).
    apply elem_of_all_target_dfs in Hdf as (t & Ht & Hp).
    destruct (cells_of_target_table t df Hp r0 Hr0)
      as (mol_id & ic50 & H1 & H2 & H3).
    exists t, mol_id, ic50. by rewrite <- H1, <- H2, <- H3.
  - intros Hrows.
    assert (Hsome : exists df, df ∈ dfs /\ rows df <> []).
    { simpl in Hrows. destruct (mjoin (map rows dfs)) as [|r0 rs] eqn:Ej; [done|].
      assert (Hr0 : r0 ∈ mjoin (map rows dfs)) by (rewrite Ej; by left).
      apply list_elem_of_join in Hr0 as (rs' & Hr0 & Hrs).
      apply list_elem_of_fmap in Hrs as (df & -> & Hdf).
      exists df. split; [done|]. intros Hn. rewrite Hn in Hr0.
      by apply elem_of_nil in Hr0. }
    assert (Hcols : columns (concat dfs) = compound_columns).
    { simpl. rewrite concat_columns_spec.
      - destruct Hsome as (df & Hdf & Hne).
        rewrite (proj2 (existsb_exists _ _)); [done|].
        exists df. split; [by apply list_elem_of_In|]. apply bool_decide_eq_true.
        apply elem_of_all_target_dfs in Hdf as (t & _ & Hp).
        apply process_target_inv in Hp as (? & ? & ? & ? & ? & _ & _ & _ & _ & ->).
        simpl in *. by destruct (omap _ _).
      - intros df Hdf.
        apply elem_of_all_target_dfs in Hdf as (t & _ & Hp).
        apply process_target_inv in Hp as (? & ? & ? & ? & ? & _ & _ & _ & _ & ->).
        simpl. destruct (omap _ _); [by left|by right]. }
    split; [done|]. unfold missing_cols, has_column. rewrite Hcols. reflexivity.
Qed.

End Client.

(** One known target with two values for one molecule: one row, with the
    average 20 as [ic50]. *)
Lemma table_of_known_target :
  exists df,
    process_target chembl_search chembl_activities chembl_molecules text_to_float "EGFR"
    = Ok (Some df) /\
    map (cell_at "ic50") (rows df) = [CNum 20] /\
    exists info acts,
      (exists rest, chembl_search "EGFR" = Ok (info :: rest)) /\
      chembl_activities (target_chembl_id info) = Ok acts /\
      map label (rows df) = map Z.of_nat (seq 0 (length (rows df))) /\
      forall r, r ∈ rows df ->
        exists mol_id xs,
          cell_at "chembl_id" r = CStr mol_id /\
          cell_at "target" r = CStr "EGFR" /\
          mapR text_to_float (values_of mol_id acts) = Ok xs /\ xs <> [] /\
          cell_at "ic50" r = CNum (average xs).
Proof.
  eexists. split; [reflexivity|]. split; [vm_compute; reflexivity|].
  apply (target_table_holds_average_ic50 chembl_search chembl_activities
           chembl_molecules text_to_float "EGFR").
  reflexivity.
Defined.

(** Asked for a known and an unknown target, the fetcher writes the table
    of the known one. *)
Lemma fetch_of_known_and_unknown_target :
  exists final,
    fetch_and_save_compounds chembl_search chembl_activities chembl_molecules
      text_to_float ["HER9"; "EGFR"] = Some final /\
    map (cell_at "target") (rows final) = [CStr "EGFR"] /\
    map label (rows final) = map Z.of_nat (seq 0 (length (rows final))) /\
    (forall r, r ∈ rows final ->
       exists t mol_id ic50,
         t ∈ ["HER9"; "EGFR"] /\ cell_at "target" r = CStr t /\
         cell_at "chembl_id" r = CStr mol_id /\ cell_at "ic50" r = CNum ic50) /\
    (rows final <> [] ->
     columns final = required_cols /\ missing_cols final = []).
Proof.
  eexists. split; [reflexivity|]. split; [vm_compute; reflexivity|].
  apply (fetched_table_has_the_required_columns chembl_search chembl_activities
           chembl_molecules text_to_float ["HER9"; "EGFR"]).
  reflexivity.
Defined.

End FetcherProperties.
